(** * Generatorrunner: the code-emission core of [generator.cpp]

    A shallow embedding of [src/generator.cpp]: the minimal-constructor
    synthesizer, the type translator, the template substitution, the code
    reindenter and the generation driver, with the properties the
    specification states about them.

    Conventions.
    - A [QString] is a [string]; the null and the empty [QString] are both
      [""] wherever the source only asks [isEmpty()], and an [option string]
      where it asks [isNull()].
    - What the source reads from the API extractor's metamodel (classes of
      [abstractmetalang.h] and [typesystem.h], which are not part of this
      file's source) is a record field per accessor the source calls, or a
      function taken as a [Variable] of the enclosing [Section].
    - C++ [int] counters are [Z] with the 32-bit wrap-around written out. *)

From Stdlib Require Import ZArith List String Ascii Bool Lia DecimalString.
Import ListNotations.

Set Warnings "-register-all".

Local Open Scope string_scope.
Local Open Scope bool_scope.
Local Open Scope nat_scope.

(* ================================================================== *)
(** * The [QString] operations the source uses *)
(* ================================================================== *)

Module QStr.

(** [QChar::isSpace] on the ASCII range: TAB, LF, VT, FF, CR and SPACE. *)
Definition isSpace (c : ascii) : bool :=
  let n := nat_of_ascii c in
  ((9 <=? n) && (n <=? 13)) || (n =? 32).

(** [QChar::digitValue] on the ASCII range. *)
Definition digitValue (c : ascii) : option nat :=
  let n := nat_of_ascii c in
  if (48 <=? n) && (n <=? 57) then Some (n - 48) else None.

Definition isEmpty (s : string) : bool :=
  match s with EmptyString => true | String _ _ => false end.

Fixpoint reverse (s : string) : string :=
  match s with
  | EmptyString => EmptyString
  | String c s' => reverse s' ++ String c EmptyString
  end.

Definition startsWith (s p : string) : bool := prefix p s.

Definition endsWith (s p : string) : bool := prefix (reverse p) (reverse s).

(** [QString::contains(p)]: [p] starts at some position of [s]. *)
Fixpoint contains (s p : string) : bool :=
  prefix p s ||
  match s with
  | EmptyString => false
  | String _ s' => contains s' p
  end.

(** [QString::left(n)]. *)
Definition left (n : nat) (s : string) : string := substring 0 n s.

(** [QString::chop(n)]: drops [n] characters from the end. *)
Definition chop (n : nat) (s : string) : string :=
  substring 0 (length s - n) s.

(** [QString::remove(pos, len)], with Qt's treatment of a negative
    position (counted from the end) and of ranges outside the string. *)
Definition remove (pos len : Z) (s : string) : string :=
  let size := Z.of_nat (length s) in
  let pos := if (pos <? 0)%Z then (pos + size)%Z else pos in
  if ((pos <? 0) || (size <=? pos))%Z then s
  else if (size - pos <=? len)%Z then substring 0 (Z.to_nat pos) s
  else if (0 <? len)%Z then
    substring 0 (Z.to_nat pos) s
    ++ substring (Z.to_nat (pos + len)) (Z.to_nat (size - pos - len)) s
  else s.

Fixpoint skipSpaces (s : string) : string :=
  match s with
  | EmptyString => EmptyString
  | String c s' => if isSpace c then skipSpaces s' else s
  end.

(** [QString::trimmed()]: white space removed from both ends. *)
Definition trimmed (s : string) : string :=
  reverse (skipSpaces (reverse (skipSpaces s))).

(** [QString::indexOf(QRegExp("[^\\s]"))]: the position of the first
    character that is not white space, [-1] when there is none. *)
Fixpoint indexOfNonSpace (s : string) : Z :=
  match s with
  | EmptyString => (-1)%Z
  | String c s' =>
      if isSpace c then
        (let i := indexOfNonSpace s' in if i <? 0 then -1 else i + 1)%Z
      else 0%Z
  end.

(** [QString::lastIndexOf(p)]: the last position where [p] starts, [-1]
    when there is none. *)
Fixpoint lastIndexOf (p s : string) : Z :=
  match s with
  | EmptyString => if prefix p EmptyString then 0%Z else (-1)%Z
  | String _ s' =>
      let i := lastIndexOf p s' in
      if (0 <=? i)%Z then (i + 1)%Z
      else if prefix p s then 0%Z else (-1)%Z
  end.

(** [QString::replace(before, after)] for a non-empty [before]: every
    occurrence, found from left to right and not overlapping, is replaced;
    the inserted text is not searched again.  [skip] counts the characters
    of the occurrence being replaced that are still to be dropped. *)
Fixpoint replaceFrom (before after : string) (skip : nat) (s : string)
  : string :=
  match s with
  | EmptyString => EmptyString
  | String c s' =>
      match skip with
      | S k => replaceFrom before after k s'
      | O =>
          if prefix before s
          then after ++ replaceFrom before after (length before - 1) s'
          else String c (replaceFrom before after 0 s')
      end
  end.

Fixpoint insertBeforeEach (after s : string) : string :=
  match s with
  | EmptyString => after
  | String c s' => after ++ String c (insertBeforeEach after s')
  end.

(** An empty [before] matches at every position (no call of the source
    passes one). *)
Definition replace (before after s : string) : string :=
  match before with
  | EmptyString => insertBeforeEach after s
  | String _ _ => replaceFrom before after 0 s
  end.

(** [QString::split("\n")], empty parts kept: one more part than there are
    line feeds. *)
Fixpoint split_lines (s : string) : list string :=
  match s with
  | EmptyString => [EmptyString]
  | String c s' =>
      if Ascii.eqb c "010"%char then EmptyString :: split_lines s'
      else match split_lines s' with
           | l :: ls => String c l :: ls
           | [] => [String c EmptyString]
           end
  end.

(** [QString::number(int)]. *)
Definition number (z : Z) : string := NilZero.string_of_int (Z.to_int z).

(** [QStringList::join(sep)]. *)
Definition join (sep : string) (l : list string) : string := concat sep l.

(** ** [QString::arg]

    A place marker is [%] , an optional [L], and one or two digits.
    [arg(a)] replaces every marker carrying the lowest number by [a] and
    leaves the string alone when it has no marker. *)

Definition escapeAt (s : string) : option (nat * nat) :=
  match s with
  | String "%"%char r =>
      let '(r', l) :=
        match r with
        | String "L"%char r1 => (r1, 2)
        | _ => (r, 1)
        end in
      match r' with
      | String d1 r1 =>
          match digitValue d1 with
          | Some v1 =>
              match r1 with
              | String d2 _ =>
                  match digitValue d2 with
                  | Some v2 => Some (10 * v1 + v2, l + 2)
                  | None => Some (v1, l + 1)
                  end
              | EmptyString => Some (v1, l + 1)
              end
          | None => None
          end
      | EmptyString => None
      end
  | _ => None
  end.

Fixpoint minEscape (s : string) : option nat :=
  match s with
  | EmptyString => None
  | String _ s' =>
      match escapeAt s, minEscape s' with
      | Some (n, _), Some m => Some (Nat.min n m)
      | Some (n, _), None => Some n
      | None, r => r
      end
  end.

Fixpoint replaceEscapes (n : nat) (a : string) (skip : nat) (s : string)
  : string :=
  match s with
  | EmptyString => EmptyString
  | String c s' =>
      match skip with
      | S k => replaceEscapes n a k s'
      | O =>
          match escapeAt s with
          | Some (m, l) =>
              if Nat.eqb m n then a ++ replaceEscapes n a (l - 1) s'
              else String c (replaceEscapes n a 0 s')
          | None => String c (replaceEscapes n a 0 s')
          end
      end
  end.

Definition arg (fmt a : string) : string :=
  match minEscape fmt with
  | Some n => replaceEscapes n a 0 fmt
  | None => fmt
  end.

End QStr.

(* ================================================================== *)
(** * The metamodel the generator reads *)
(* ================================================================== *)

(** [TypeEntry] of the type system: one field per accessor that
    [generator.cpp] calls on it, also on its subclasses
    [ComplexTypeEntry] and [PrimitiveTypeEntry].  The source compares
    entries by pointer; [address] is that identity. *)
Module TypeEntry.

Variant Type_ := TypeSystemType | OtherType.

Record t := mk {
  address : N;
  type : Type_;
  name : string;
  qualifiedCppName : string;
  generateCode : bool;
  codeGeneration : Z;
  isComplex : bool;
  isPrimitive : bool;
  isCppPrimitive : bool;
  isEnum : bool;
  isFlags : bool;
  isVoid : bool;
  isGenericClass : bool;
  hasDefaultConstructor : bool;
  defaultConstructor : string
}.

(** Pointer equality of two entries. *)
Definition same (a b : t) : bool := N.eqb (address a) (address b).

Definition isTypeSystemType (e : t) : bool :=
  match type e with TypeSystemType => true | OtherType => false end.

End TypeEntry.

(** [AbstractMetaType]: a use of a type entry with its qualifiers. *)
Module AbstractMetaType.

Inductive t := mk {
  typeEntry : TypeEntry.t;
  indirections : Z;
  isReference : bool;
  isConstant : bool;
  isContainer : bool;
  isNativePointer : bool;
  isValuePointer : bool;
  isObject : bool;
  isQObject : bool;
  isArray : bool;
  isEnum : bool;
  isFlags : bool;
  arrayElementType : option t;
  originalTemplateType : option t;
  originalTypeDescription : string
}.

(** [copy()] followed by [setConstant(b)] / [setReference(b)]. *)
Definition setConstant (b : bool) (ty : t) : t :=
  mk (typeEntry ty) (indirections ty) (isReference ty) b (isContainer ty)
     (isNativePointer ty) (isValuePointer ty) (isObject ty) (isQObject ty)
     (isArray ty) (isEnum ty) (isFlags ty) (arrayElementType ty)
     (originalTemplateType ty) (originalTypeDescription ty).

Definition setReference (b : bool) (ty : t) : t :=
  mk (typeEntry ty) (indirections ty) b (isConstant ty) (isContainer ty)
     (isNativePointer ty) (isValuePointer ty) (isObject ty) (isQObject ty)
     (isArray ty) (isEnum ty) (isFlags ty) (arrayElementType ty)
     (originalTemplateType ty) (originalTypeDescription ty).

End AbstractMetaType.

Module AbstractMetaArgument.

Record t := mk {
  type : AbstractMetaType.t;
  name : string;
  argumentIndex : Z;
  originalDefaultValueExpression : string;
  defaultValueExpression : string
}.

End AbstractMetaArgument.

(** [AbstractMetaClass].  Its functions are reached through
    [queryFunctions], a function of the metamodel (see the sections
    below), so that a function can name its owner class. *)
Module AbstractMetaClass.

Record t := mk {
  name : string;
  qualifiedCppName : string;
  package : string;
  typeEntry : TypeEntry.t
}.

End AbstractMetaClass.

Module AbstractMetaFunction.

Record t := mk {
  ownerClass : option AbstractMetaClass.t;
  arguments : list AbstractMetaArgument.t;
  type : option AbstractMetaType.t;
  originalName : string;
  isUserAdded : bool;
  isPrivate : bool;
  isCopyConstructor : bool
}.

End AbstractMetaFunction.

(* ================================================================== *)
(** * The minimal-constructor synthesizer *)
(* ================================================================== *)

Module Synth.

(** Outcome of the first pass over the constructors: the call it
    returns, or the constructors kept for the second pass. *)
Variant FirstPass :=
| Return (call : string)
| Candidates (pool : list AbstractMetaFunction.t).

Section Synthesizer.

(** [AbstractMetaType::cppSignature()]. *)
Variable cppSignature : AbstractMetaType.t -> string.
(** [classes().findClass(entry)], null when there is none. *)
Variable findClass : TypeEntry.t -> option AbstractMetaClass.t.
(** [metaClass->queryFunctions(AbstractMetaClass::Constructors)]. *)
Variable queryConstructors :
  AbstractMetaClass.t -> list AbstractMetaFunction.t.

(** [Generator::isObjectType], the overload on [AbstractMetaType]. *)
Definition isObjectType (metaType : AbstractMetaType.t) : bool :=
  AbstractMetaType.isObject metaType || AbstractMetaType.isQObject metaType.

(** [Generator::isPointer]. *)
Definition isPointer (type : AbstractMetaType.t) : bool :=
  (0 <? AbstractMetaType.indirections type)%Z
  || AbstractMetaType.isNativePointer type
  || AbstractMetaType.isValuePointer type.

(** [Generator::minimalConstructor], the overload on [TypeEntry]. *)
Definition minimalConstructorEntry (type : option TypeEntry.t) : string :=
  match type with
  | None => ""
  | Some type =>
      if TypeEntry.isCppPrimitive type then
        QStr.arg "((%1)0)" (TypeEntry.qualifiedCppName type)
      else if TypeEntry.isEnum type || TypeEntry.isFlags type then
        QStr.arg "((::%1)0)" (TypeEntry.qualifiedCppName type)
      else if TypeEntry.isPrimitive type then
        let ctor := TypeEntry.defaultConstructor type in
        if QStr.isEmpty ctor
        then QStr.arg "::%1()" (TypeEntry.qualifiedCppName type)
        else ctor
      else ""
  end.

(** The test that opens both constructor loops:
    [ctor->isUserAdded() || ctor->isPrivate() || ctor->isCopyConstructor()]. *)
Definition skipped (ctor : AbstractMetaFunction.t) : bool :=
  AbstractMetaFunction.isUserAdded ctor
  || AbstractMetaFunction.isPrivate ctor
  || AbstractMetaFunction.isCopyConstructor ctor.

(** The loop of lines 382-392, from the current value of [maxArgs]. *)
Fixpoint maxArgsLoop (constructors : list AbstractMetaFunction.t)
  (maxArgs : nat) : nat :=
  match constructors with
  | [] => maxArgs
  | ctor :: rest =>
      if skipped ctor then maxArgsLoop rest maxArgs
      else
        let numArgs := List.length (AbstractMetaFunction.arguments ctor) in
        if numArgs =? 0 then 0
        else if maxArgs <? numArgs then maxArgsLoop rest numArgs
        else maxArgsLoop rest maxArgs
  end.

(** [QString("::%1(%2)").arg(qualifiedCppName).arg(args.join(", "))] *)
Definition constructorCall (metaClass : AbstractMetaClass.t)
  (args : list string) : string :=
  QStr.arg (QStr.arg "::%1(%2)" (AbstractMetaClass.qualifiedCppName metaClass))
           (QStr.join ", " args).

Section Passes.

(** The recursive call [minimalConstructor(arg->type())]; [None] when the
    recursion budget of the model is used up. *)
Variable recur : option AbstractMetaType.t -> option string.
Variable metaClass : AbstractMetaClass.t.

(** The argument loop of the first pass (lines 412-438), from the
    current [args]; the result is [args] when the loop is left. *)
Fixpoint firstPassArgs (arguments : list AbstractMetaArgument.t)
  (args : list string) : option (list string) :=
  match arguments with
  | [] => Some args
  | arg :: rest =>
      let type := AbstractMetaType.typeEntry (AbstractMetaArgument.type arg) in
      if TypeEntry.same type (AbstractMetaClass.typeEntry metaClass) then
        Some []
      else if negb (QStr.isEmpty
                      (AbstractMetaArgument.originalDefaultValueExpression arg))
      then
        if negb (QStr.isEmpty (AbstractMetaArgument.defaultValueExpression arg))
           && negb (String.eqb
                      (AbstractMetaArgument.defaultValueExpression arg)
                      (AbstractMetaArgument.originalDefaultValueExpression arg))
        then Some (args ++ [AbstractMetaArgument.defaultValueExpression arg])%list
        else Some args
      else if TypeEntry.isCppPrimitive type || TypeEntry.isEnum type
              || isPointer (AbstractMetaArgument.type arg)
      then
        match recur (Some (AbstractMetaArgument.type arg)) with
        | None => None
        | Some argValue =>
            if QStr.isEmpty argValue then Some []
            else firstPassArgs rest (args ++ [argValue])%list
        end
      else Some []
  end.

(** The inner [foreach] of the first pass, for one argument count [i]. *)
Fixpoint firstPassCount (i : nat) (constructors : list AbstractMetaFunction.t)
  (candidates : list AbstractMetaFunction.t) : option FirstPass :=
  match constructors with
  | [] => Some (Candidates candidates)
  | ctor :: rest =>
      if skipped ctor then firstPassCount i rest candidates
      else
        let arguments := AbstractMetaFunction.arguments ctor in
        if negb (List.length arguments =? i) then
          firstPassCount i rest candidates
        else
          match firstPassArgs arguments [] with
          | None => None
          | Some [] => firstPassCount i rest (candidates ++ [ctor])%list
          | Some args => Some (Return (constructorCall metaClass args))
          end
  end.

(** [for (int i = 1; i <= maxArgs; ++i)], over the counts still to do. *)
Fixpoint firstPass (counts : list nat)
  (constructors : list AbstractMetaFunction.t)
  (candidates : list AbstractMetaFunction.t) : option FirstPass :=
  match counts with
  | [] => Some (Candidates candidates)
  | i :: more =>
      match firstPassCount i constructors candidates with
      | Some (Candidates pool) => firstPass more constructors pool
      | r => r
      end
  end.

(** The argument loop of the second pass (lines 454-465). *)
Fixpoint secondPassArgs (arguments : list AbstractMetaArgument.t)
  (args : list string) : option (list string) :=
  match arguments with
  | [] => Some args
  | arg :: rest =>
      if TypeEntry.same
           (AbstractMetaType.typeEntry (AbstractMetaArgument.type arg))
           (AbstractMetaClass.typeEntry metaClass)
      then Some []
      else
        match recur (Some (AbstractMetaArgument.type arg)) with
        | None => None
        | Some argValue =>
            if QStr.isEmpty argValue then Some []
            else secondPassArgs rest (args ++ [argValue])%list
        end
  end.

(** The second pass (lines 452-472). *)
Fixpoint secondPass (candidates : list AbstractMetaFunction.t)
  : option string :=
  match candidates with
  | [] => Some ""
  | ctor :: rest =>
      match secondPassArgs (AbstractMetaFunction.arguments ctor) [] with
      | None => None
      | Some [] => secondPass rest
      | Some args => Some (constructorCall metaClass args)
      end
  end.

End Passes.

(** [Generator::minimalConstructor], the overload on [AbstractMetaClass],
    given the function that answers its recursive calls. *)
Definition minimalConstructorClassWith
  (recur : option AbstractMetaType.t -> option string)
  (metaClass : option AbstractMetaClass.t) : option string :=
  match metaClass with
  | None => Some ""
  | Some metaClass =>
      let cType := AbstractMetaClass.typeEntry metaClass in
      if TypeEntry.hasDefaultConstructor cType then
        Some (TypeEntry.defaultConstructor cType)
      else
        let constructors := queryConstructors metaClass in
        let maxArgs := maxArgsLoop constructors 0 in
        if maxArgs =? 0 then
          Some (QStr.arg "::%1()" (AbstractMetaClass.qualifiedCppName metaClass))
        else
          match firstPass recur metaClass (seq 1 maxArgs) constructors [] with
          | None => None
          | Some (Return call) => Some call
          | Some (Candidates candidates) =>
              secondPass recur metaClass candidates
          end
  end.

(** [Generator::minimalConstructor], the overload on [AbstractMetaType].  The
    overloads call each other without bound (a constructor of [A] taking
    a [B] whose constructor takes an [A]); [fuel] bounds the depth of
    calls into the class overload, and [None] says it ran out.  An empty
    string is the source's failure value. *)
Fixpoint minimalConstructor (fuel : nat) (type : option AbstractMetaType.t)
  : option string :=
  match type with
  | None => Some ""
  | Some type =>
      if AbstractMetaType.isReference type && isObjectType type then Some ""
      else if AbstractMetaType.isContainer type then
        let ctor := cppSignature type in
        if QStr.endsWith ctor "*" then Some "0"
        else
          let ctor :=
            if QStr.startsWith ctor "const " then QStr.remove 0 6 ctor
            else ctor in
          let ctor :=
            if QStr.endsWith ctor "&" then QStr.trimmed (QStr.chop 1 ctor)
            else ctor in
          Some (QStr.arg "::%1()" ctor)
      else if AbstractMetaType.isNativePointer type then
        Some (QStr.arg "((%1*)0)"
                (TypeEntry.qualifiedCppName (AbstractMetaType.typeEntry type)))
      else if isPointer type then
        Some (QStr.arg "((::%1*)0)"
                (TypeEntry.qualifiedCppName (AbstractMetaType.typeEntry type)))
      else if TypeEntry.isComplex (AbstractMetaType.typeEntry type) then
        let cType := AbstractMetaType.typeEntry type in
        let ctor := TypeEntry.defaultConstructor cType in
        if QStr.isEmpty ctor then
          match fuel with
          | O => None
          | S fuel' =>
              minimalConstructorClassWith (minimalConstructor fuel')
                                          (findClass cType)
          end
        else Some ctor
      else Some (minimalConstructorEntry (Some (AbstractMetaType.typeEntry type)))
  end.

(** [Generator::minimalConstructor], the overload on [AbstractMetaClass]. *)
Definition minimalConstructorClass (fuel : nat)
  (metaClass : option AbstractMetaClass.t) : option string :=
  minimalConstructorClassWith (minimalConstructor fuel) metaClass.

End Synthesizer.

End Synth.

(* ================================================================== *)
(** * The type translator *)
(* ================================================================== *)

Module Translate.

(** [options & flag], read as a condition. *)
Definition testFlag (options flag : Z) : bool :=
  negb (Z.land options flag =? 0)%Z.

Section Translator.

Variable cppSignature : AbstractMetaType.t -> string.
(** The values of [Generator::Option] the function tests, declared in
    [generator.h]. *)
Variables EnumAsInts OriginalName ExcludeConst ExcludeReference : Z.

(** The type that is rendered: inside a generic class, the template type
    a type was instantiated from (lines 482-486). *)
Definition resolved (cType : AbstractMetaType.t)
  (context : option AbstractMetaClass.t) : AbstractMetaType.t :=
  match context with
  | Some context =>
      if TypeEntry.isGenericClass (AbstractMetaClass.typeEntry context) then
        match AbstractMetaType.originalTemplateType cType with
        | Some original => original
        | None => cType
        end
      else cType
  | None => cType
  end.

(** The [OriginalName] branch (lines 496-506); [constLen] is 5. *)
Definition originalName (cType : AbstractMetaType.t) (options : Z) : string :=
  let s := QStr.trimmed (AbstractMetaType.originalTypeDescription cType) in
  let s :=
    if testFlag options ExcludeReference && QStr.endsWith s "&"
    then QStr.left (String.length s - 1) s else s in
  if testFlag options ExcludeConst then
    let index := QStr.lastIndexOf "const" s in
    if (Z.of_nat (String.length s) - (5 + 1) <=? index)%Z
    then QStr.remove index 5 s else s
  else s.

(** The copy made at line 508 with the qualifiers cleared that the
    options exclude. *)
Definition copyCleared (cType : AbstractMetaType.t) (options : Z)
  : AbstractMetaType.t :=
  let copyType := cType in
  let copyType :=
    if testFlag options ExcludeConst
    then AbstractMetaType.setConstant false copyType else copyType in
  if testFlag options ExcludeReference
  then AbstractMetaType.setReference false copyType else copyType.

(** The branch of lines 507-519. *)
Definition excluding (cType : AbstractMetaType.t) (options : Z) : string :=
  let copyType := copyCleared cType options in
  let s := cppSignature copyType in
  if negb (TypeEntry.isVoid (AbstractMetaType.typeEntry copyType))
     && negb (TypeEntry.isCppPrimitive (AbstractMetaType.typeEntry copyType))
  then "::" ++ s else s.

(** [Generator::translateType] on a type that is not null. *)
Fixpoint translateTypeOf (cType : AbstractMetaType.t)
  (context : option AbstractMetaClass.t) (options : Z) {struct cType}
  : string :=
  let cType :=
    match context with
    | Some context =>
        if TypeEntry.isGenericClass (AbstractMetaClass.typeEntry context) then
          match AbstractMetaType.originalTemplateType cType with
          | Some original => original
          | None => cType
          end
        else cType
    | None => cType
    end in
  if AbstractMetaType.isArray cType then
    match AbstractMetaType.arrayElementType cType with
    | Some element => translateTypeOf element context options
    | None => "void"
    end ++ "[]"
  else if testFlag options EnumAsInts
          && (AbstractMetaType.isEnum cType || AbstractMetaType.isFlags cType)
  then "int"
  else if testFlag options OriginalName then originalName cType options
  else if testFlag options ExcludeConst || testFlag options ExcludeReference
  then excluding cType options
  else cppSignature cType.

(** [Generator::translateType] *)
Definition translateType (cType : option AbstractMetaType.t)
  (context : option AbstractMetaClass.t) (options : Z) : string :=
  match cType with
  | None => "void"
  | Some cType => translateTypeOf cType context options
  end.

End Translator.

End Translate.

(* ================================================================== *)
(** * Template substitution *)
(* ================================================================== *)

Module Template.

Section Templates.

Variable cppSignature : AbstractMetaType.t -> string.
Variables EnumAsInts OriginalName ExcludeConst ExcludeReference : Z.
(** The default value of [translateType]'s third parameter and the two
    options passed to the writers, declared in [generator.h]. *)
Variables NoOption SkipRemovedArguments SkipDefaultValues : Z.
(** What the generator's [writeArgumentNames] and [writeFunctionArguments]
    write to the stream they are given. *)
Variables writeArgumentNames writeFunctionArguments :
  AbstractMetaFunction.t -> Z -> string.

(** The placeholder of one argument: [%] and its one-based position. *)
Definition positional (arg : AbstractMetaArgument.t) : string :=
  "%" ++ QStr.number (AbstractMetaArgument.argumentIndex arg + 1).

(** The [foreach] of lines 217-218. *)
Fixpoint replaceArguments (arguments : list AbstractMetaArgument.t)
  (code : string) : string :=
  match arguments with
  | [] => code
  | arg :: rest =>
      replaceArguments rest
        (QStr.replace (positional arg) (AbstractMetaArgument.name arg) code)
  end.

(** Lines 221-236: what follows the class and argument names. *)
Definition replaceTemplateValues (func : AbstractMetaFunction.t)
  (code : string) : string :=
  let cpp_class := AbstractMetaFunction.ownerClass func in
  let code :=
    QStr.replace "%RETURN_TYPE"
      (Translate.translateType cppSignature EnumAsInts OriginalName
         ExcludeConst ExcludeReference
         (AbstractMetaFunction.type func) cpp_class NoOption) code in
  let code :=
    QStr.replace "%FUNCTION_NAME" (AbstractMetaFunction.originalName func)
      code in
  let code :=
    if QStr.contains code "%ARGUMENT_NAMES" then
      QStr.replace "%ARGUMENT_NAMES"
        (writeArgumentNames func SkipRemovedArguments) code
    else code in
  if QStr.contains code "%ARGUMENTS" then
    QStr.replace "%ARGUMENTS"
      (writeFunctionArguments func
         (Z.lor SkipDefaultValues SkipRemovedArguments)) code
  else code.

(** [Generator::replaceTemplateVariables]; the result is the new value
    of [code]. *)
Definition replaceTemplateVariables (code : string)
  (func : AbstractMetaFunction.t) : string :=
  let cpp_class := AbstractMetaFunction.ownerClass func in
  let code :=
    match cpp_class with
    | Some cpp_class =>
        QStr.replace "%TYPE" (AbstractMetaClass.name cpp_class) code
    | None => code
    end in
  let code := replaceArguments (AbstractMetaFunction.arguments func) code in
  replaceTemplateValues func code.

(** The placeholders the function looks for. *)
Definition placeholders (func : AbstractMetaFunction.t) : list string :=
  "%TYPE"
  :: map positional (AbstractMetaFunction.arguments func)
  ++ ["%RETURN_TYPE"; "%FUNCTION_NAME"; "%ARGUMENT_NAMES"; "%ARGUMENTS"].

End Templates.

End Template.

(* ================================================================== *)
(** * The code reindenter *)
(* ================================================================== *)

Module Format.

(** [emptyLine.exactMatch(line)] for the expression
    [\s*[\r]?[\n]?\s*]: carriage return and line feed are white space
    themselves, so it matches the lines made of white space only. *)
Fixpoint emptyLine_exactMatch (line : string) : bool :=
  match line with
  | EmptyString => true
  | String c rest => QStr.isSpace c && emptyLine_exactMatch rest
  end.

(** The first loop (lines 245-252): [spacesToRemove]. *)
Fixpoint spacesToRemove (lst : list string) : Z :=
  match lst with
  | [] => 0%Z
  | line :: rest =>
      if negb (QStr.isEmpty (QStr.trimmed line)) then
        let n := QStr.indexOfNonSpace line in
        if (n =? -1)%Z then 0%Z else n
      else spacesToRemove rest
  end.

(** [*line.end()]: [end()] is the position after the last character,
    where a [QString] holds the NUL that terminates its data. *)
Definition atEnd (line : string) : ascii := Ascii.zero.

(** [while (line.end()->isSpace()) line.chop(1);], at most [n] times. *)
Fixpoint chopLoop (n : nat) (line : string) : string :=
  match n with
  | O => line
  | S n' =>
      if QStr.isSpace (atEnd line) then chopLoop n' (QStr.chop 1 line)
      else line
  end.

(** The loop of lines 261-265: [n] iterations are left and [line] is
    the text from position [i] on.  Past the end [line[i]] reads as NUL. *)
Fixpoint limitLoop (n : nat) (line : string) : nat :=
  match n with
  | O => 0
  | S n' =>
      match line with
      | EmptyString => 0
      | String c rest => if QStr.isSpace c then S (limitLoop n' rest) else 0
      end
  end.

(** What the second loop writes for one line, before [endl];
    [indentor] is the text that [s << indentor] writes. *)
Definition formatLine (toRemove : Z) (indentor line : string) : string :=
  if negb (QStr.isEmpty line) && negb (emptyLine_exactMatch line) then
    let line := chopLoop (S (String.length line)) line in
    let limit := limitLoop (Z.to_nat toRemove) line in
    indentor ++ QStr.remove 0 (Z.of_nat limit) line
  else "".

(** The lines [formatCode] writes, each ended by [endl]. *)
Definition formatCodeLines (code indentor : string) : list string :=
  let lst := QStr.split_lines code in
  map (formatLine (spacesToRemove lst) indentor) lst.

Definition endl : string := String "010"%char EmptyString.

(** [formatCode]: the stream [s] after the call. *)
Definition formatCode (s code indentor : string) : string :=
  fold_left (fun s line => s ++ line ++ endl) (formatCodeLines code indentor) s.

End Format.

(* ================================================================== *)
(** * The generation driver *)
(* ================================================================== *)

Module Driver.

(** [Generator::GeneratorPrivate].  The pointer to the extractor is the
    address of the object it points to, [None] as long as nothing was
    assigned to it; what the generator reads through it (the classes,
    the constructors of a class, ...) is given to the functions that
    read it. *)
Record GeneratorPrivate := mkPrivate {
  apiextractor : option N;
  outDir : string;
  licenseComment : string;
  packageName : string;
  numGenerated : Z;
  numGeneratedWritten : Z
}.

(** The state the constructor leaves: it sets the two counters and
    assigns nothing to the pointer. *)
Definition Generator : GeneratorPrivate := mkPrivate None "" "" "" 0 0.

(** [++] on an [int]. *)
Definition wrap_int (z : Z) : Z := ((z + 2 ^ 31) mod 2 ^ 32 - 2 ^ 31)%Z.
Definition increment (z : Z) : Z := wrap_int (z + 1).

(** How many answers in a list are [true]. *)
Definition count_true (l : list bool) : Z :=
  Z.of_nat (List.length (filter (fun b => b) l)).

Definition INT_MAX : Z := (2 ^ 31 - 1)%Z.
Definition INT_MIN : Z := (- 2 ^ 31)%Z.

(** The two loops of [setup] (lines 61-70) over
    [allEntries.values()]. *)
Fixpoint findInEntryList (entryList : list TypeEntry.t) : option TypeEntry.t :=
  match entryList with
  | [] => None
  | entry :: rest =>
      if TypeEntry.isTypeSystemType entry && TypeEntry.generateCode entry
      then Some entry else findInEntryList rest
  end.

Fixpoint entryFound (values : list (list TypeEntry.t)) : option TypeEntry.t :=
  match values with
  | [] => None
  | entryList :: rest =>
      match findInEntryList entryList with
      | Some entry => Some entry
      | None => entryFound rest
      end
  end.

(** What a call of [setup] leaves and gives: the private data and the
    world outside, the warnings handed to [ReportHandler::warning], and
    the value returned. *)
Record SetupOutcome (World : Type) := mkSetupOutcome {
  after : GeneratorPrivate * World;
  warned : list string;
  returned : bool
}.

Arguments mkSetupOutcome {World}.
Arguments after {World}.
Arguments warned {World}.
Arguments returned {World}.

Section Setup.

(** Everything outside the generator that its hooks read and change. *)
Variable World : Type.
(** The generator's [doSetup], given the options as pairs of a key and
    a value. *)
Variable doSetup : World -> list (string * string) -> World * bool.

(** [Generator::setup].  [extractor] is the address of the extractor
    and [values] is [allEntries.values()], in the order of the two
    loops. *)
Definition setup (st : GeneratorPrivate * World) (extractor : N)
  (values : list (list TypeEntry.t)) (args : list (string * string))
  : SetupOutcome World :=
  let '(d, w) := st in
  let d :=
    mkPrivate (Some extractor) (outDir d) (licenseComment d) (packageName d)
              (numGenerated d) (numGeneratedWritten d) in
  let '(d, warnings) :=
    match entryFound values with
    | Some entryFound =>
        (mkPrivate (apiextractor d) (outDir d) (licenseComment d)
                   (TypeEntry.name entryFound)
                   (numGenerated d) (numGeneratedWritten d), [])
    | None => (d, ["Couldn't find the package name!!"])
    end in
  let '(w, result) := doSetup w args in
  mkSetupOutcome (d, w) warnings result.

End Setup.

(** [Generator::moduleName]: the package name with everything up to
    its last dot removed. *)
Definition moduleName (d : GeneratorPrivate) : string :=
  let pkgName := packageName d in
  QStr.remove 0 (QStr.lastIndexOf "." pkgName + 1) pkgName.

Section Paths.

(** [QDir::separator()] *)
Variable separator : ascii.

(** [Generator::subDirectoryForPackage] *)
Definition subDirectoryForPackage (d : GeneratorPrivate)
  (package : string) : string :=
  let package := if QStr.isEmpty package then packageName d else package in
  QStr.replace "." (String separator EmptyString) package.

(** [Generator::subDirectoryForClass] *)
Definition subDirectoryForClass (d : GeneratorPrivate)
  (clazz : AbstractMetaClass.t) : string :=
  subDirectoryForPackage d (AbstractMetaClass.package clazz).

End Paths.

Section Generate.

Variable separator : ascii.
(** [TypeEntry::GenerateTargetLang], declared in [typesystem.h]. *)
Variable GenerateTargetLang : Z.
(** Everything outside the generator that its hooks read and change. *)
Variable World : Type.
(** [fileNameForClass], [None] for a null string. *)
Variable fileNameForClass : AbstractMetaClass.t -> option string.
(** [generateClass] writing into a [FileOut] for the path, then
    [fileOut.done()]. *)
Variable writeClass : World -> string -> AbstractMetaClass.t -> World * bool.
Variable finishGeneration : World -> World.

(** [Generator::shouldGenerate] *)
Definition shouldGenerate (metaClass : AbstractMetaClass.t) : bool :=
  Translate.testFlag
    (TypeEntry.codeGeneration (AbstractMetaClass.typeEntry metaClass))
    GenerateTargetLang.

(** The argument of the [FileOut] constructor (line 186). *)
Definition filePath (d : GeneratorPrivate) (cls : AbstractMetaClass.t)
  (fileName : string) : string :=
  outDir d ++ "/" ++ subDirectoryForClass separator d cls ++ "/" ++ fileName.

(** One turn of the loop of [generate] (lines 178-191). *)
Definition generateOne (st : GeneratorPrivate * World)
  (cls : AbstractMetaClass.t) : GeneratorPrivate * World :=
  let '(d, w) := st in
  if negb (shouldGenerate cls) then st
  else
    match fileNameForClass cls with
    | None => st
    | Some fileName =>
        let '(w, done) := writeClass w (filePath d cls fileName) cls in
        let written :=
          if done then increment (numGeneratedWritten d)
          else numGeneratedWritten d in
        (mkPrivate (apiextractor d) (outDir d) (licenseComment d)
                   (packageName d) (increment (numGenerated d)) written, w)
    end.

(** The loop of [generate]. *)
Definition generateLoop (st : GeneratorPrivate * World)
  (classes : list AbstractMetaClass.t) : GeneratorPrivate * World :=
  fold_left generateOne classes st.

(** [Generator::generate] *)
Definition generate (st : GeneratorPrivate * World)
  (classes : list AbstractMetaClass.t) : GeneratorPrivate * World :=
  let '(d, w) := generateLoop st classes in
  (d, finishGeneration w).

(** The classes the loop writes: those that pass both tests. *)
Definition considered (cls : AbstractMetaClass.t) : bool :=
  shouldGenerate cls
  && match fileNameForClass cls with Some _ => true | None => false end.

(** The answer of [fileOut.done()] in one turn of the loop, if the
    turn gets that far. *)
Definition doneAnswer (st : GeneratorPrivate * World)
  (cls : AbstractMetaClass.t) : list bool :=
  if shouldGenerate cls then
    match fileNameForClass cls with
    | Some fileName =>
        [snd (writeClass (snd st) (filePath (fst st) cls fileName) cls)]
    | None => []
    end
  else [].

(** The answers of [fileOut.done()] during the loop, in order: one for
    each class that is written. *)
Fixpoint doneAnswers (st : GeneratorPrivate * World)
  (classes : list AbstractMetaClass.t) : list bool :=
  match classes with
  | [] => []
  | cls :: rest => doneAnswer st cls ++ doneAnswers (generateOne st cls) rest
  end%list.

End Generate.

End Driver.

(* ================================================================== *)
(** * Target names *)
(* ================================================================== *)

Module FullName.

(** What [getClassTargetFullName_] reads of its argument (a class or an
    enum) and of the classes around it: the name, the package and the
    enclosing class, null for a class at the top. *)
Inductive t := mk {
  name : string;
  package : string;
  enclosingClass : option t
}.

(** The [while] loop of lines 546-550, entered with a context that is
    not null: each enclosing class puts its name and a dot in front of
    [name]. *)
Fixpoint prependEnclosingOf (context : t) (name_ : string) : string :=
  let name_ := name context ++ "." ++ name_ in
  match enclosingClass context with
  | None => name_
  | Some outer => prependEnclosingOf outer name_
  end.

Definition prependEnclosing (context : option t) (name_ : string)
  : string :=
  match context with
  | None => name_
  | Some context => prependEnclosingOf context name_
  end.

(** [getClassTargetFullName] *)
Definition getClassTargetFullName (x : t) (includePackageName : bool)
  : string :=
  let name_ := prependEnclosing (enclosingClass x) (name x) in
  if includePackageName then package x ++ "." ++ name_ else name_.

(** The names of a class and of the classes around it, the outermost
    first. *)
Fixpoint namesOf (context : t) : list string :=
  (match enclosingClass context with
   | None => []
   | Some outer => namesOf outer
   end ++ [name context])%list.

End FullName.

(* ================================================================== *)
(** * Template substitution as a chain of replacements *)
(* ================================================================== *)

Module Chain.

Section Substitutions.

Variable cppSignature : AbstractMetaType.t -> string.
Variables EnumAsInts OriginalName ExcludeConst ExcludeReference : Z.
Variables NoOption SkipRemovedArguments SkipDefaultValues : Z.
Variables writeArgumentNames writeFunctionArguments :
  AbstractMetaFunction.t -> Z -> string.

(** The placeholders and what stands for them, in the order in which
    they are replaced: the name of the owner class if there is one, the
    arguments' names in the order of the arguments, the translated
    return type, the original function name, the argument names and the
    argument declarations. *)
Definition substitutions (func : AbstractMetaFunction.t)
  : list (string * string) :=
  (match AbstractMetaFunction.ownerClass func with
   | Some cpp_class => [("%TYPE", AbstractMetaClass.name cpp_class)]
   | None => []
   end
   ++ map (fun arg => (Template.positional arg, AbstractMetaArgument.name arg))
          (AbstractMetaFunction.arguments func)
   ++ [("%RETURN_TYPE",
        Translate.translateType cppSignature EnumAsInts OriginalName
          ExcludeConst ExcludeReference (AbstractMetaFunction.type func)
          (AbstractMetaFunction.ownerClass func) NoOption);
       ("%FUNCTION_NAME", AbstractMetaFunction.originalName func);
       ("%ARGUMENT_NAMES", writeArgumentNames func SkipRemovedArguments);
       ("%ARGUMENTS",
        writeFunctionArguments func
          (Z.lor SkipDefaultValues SkipRemovedArguments))])%list.

End Substitutions.

(** One replacement after the other, each in the whole text as the
    replacements before it left it. *)
Definition applyAll (substitutions : list (string * string)) (code : string)
  : string :=
  fold_left (fun code sub => QStr.replace (fst sub) (snd sub) code)
            substitutions code.

End Chain.

(* ================================================================== *)
(** * The specification's reading of two operations *)
(* ================================================================== *)

(** Definitions that follow the words of the specification, to be
    compared with the functions of the source. *)
Module Spec.

(** The bare container name: the canonical signature without a leading
    const qualifier and without a trailing reference marker. *)
Definition bareContainerName (signature : string) : string :=
  let s :=
    if QStr.startsWith signature "const " then QStr.remove 0 6 signature
    else signature in
  if QStr.endsWith s "&" then QStr.trimmed (QStr.chop 1 s) else s.

(** "Strip ... to get the bare container template name; if that stripped
    name still ends in a pointer marker, return the null-pointer literal
    instead; otherwise return a global-scope default-construction call on
    the bare name." *)
Definition containerConstructor (signature : string) : string :=
  let bare := bareContainerName signature in
  if QStr.endsWith bare "*" then "0" else "::" ++ bare ++ "()".

(** "A modified copy of the type with the requested qualifiers
    cleared": every field of the type as it is, but the const flag when
    [excludeConst] and the reference flag when [excludeReference]. *)
Definition cleared (excludeConst excludeReference : bool)
  (ty : AbstractMetaType.t) : AbstractMetaType.t :=
  AbstractMetaType.mk
    (AbstractMetaType.typeEntry ty)
    (AbstractMetaType.indirections ty)
    (if excludeReference then false else AbstractMetaType.isReference ty)
    (if excludeConst then false else AbstractMetaType.isConstant ty)
    (AbstractMetaType.isContainer ty)
    (AbstractMetaType.isNativePointer ty)
    (AbstractMetaType.isValuePointer ty)
    (AbstractMetaType.isObject ty)
    (AbstractMetaType.isQObject ty)
    (AbstractMetaType.isArray ty)
    (AbstractMetaType.isEnum ty)
    (AbstractMetaType.isFlags ty)
    (AbstractMetaType.arrayElementType ty)
    (AbstractMetaType.originalTemplateType ty)
    (AbstractMetaType.originalTypeDescription ty).

(** A line with the white space at its end removed. *)
Definition stripTrailing (line : string) : string :=
  QStr.reverse (QStr.skipSpaces (QStr.reverse line)).

(** The number of white-space characters a line starts with. *)
Fixpoint leadingRun (line : string) : nat :=
  match line with
  | EmptyString => 0
  | String c rest => if QStr.isSpace c then S (leadingRun rest) else 0
  end.

(** "Every non-blank line has its trailing whitespace stripped and
    exactly that many leading characters removed, clamped to the line's
    own run of leading whitespace; blank lines are emitted as empty
    output lines." *)
Definition reindentLine (width : nat) (line : string) : string :=
  if Format.emptyLine_exactMatch line then ""
  else
    let line := stripTrailing line in
    QStr.remove 0 (Z.of_nat (Nat.min width (leadingRun line))) line.

(** The width is that of the first line that is not blank. *)
Definition reindent (code : string) : list string :=
  let lst := QStr.split_lines code in
  map (reindentLine (Z.to_nat (Format.spacesToRemove lst))) lst.

(** "Replaces each namespace-separator dot with the platform path
    separator." *)
Fixpoint dotsToSeparator (separator : ascii) (package : string) : string :=
  match package with
  | EmptyString => EmptyString
  | String c rest =>
      String (if Ascii.eqb c "."%char then separator else c)
             (dotsToSeparator separator rest)
  end.

End Spec.

(* ================================================================== *)
(** * Sample metamodels, for the examples *)
(* ================================================================== *)

Module Sample.

Definition entry (address : N) (name : string) : TypeEntry.t :=
  TypeEntry.mk address TypeEntry.OtherType name name false 0
               false false false false false false false false "".

(** A class or struct entry. *)
Definition complexEntry (address : N) (name : string) : TypeEntry.t :=
  TypeEntry.mk address TypeEntry.OtherType name name false 1
               true false false false false false false false "".

(** A built-in primitive entry. *)
Definition primitiveEntry (address : N) (name : string) : TypeEntry.t :=
  TypeEntry.mk address TypeEntry.OtherType name name false 1
               false true true false false false false false "".

(** The type-system entry that names the package. *)
Definition packageEntry (address : N) (name : string) : TypeEntry.t :=
  TypeEntry.mk address TypeEntry.TypeSystemType name name true 1
               false false false false false false false false "".

(** A use of an entry: [constant] [reference], [indirections] stars,
    container or native pointer. *)
Definition use (e : TypeEntry.t) (indirections : Z)
  (reference constant container nativePointer object : bool)
  : AbstractMetaType.t :=
  AbstractMetaType.mk e indirections reference constant container
    nativePointer false object false false false false None None
    (TypeEntry.name e).

Fixpoint stars (n : nat) : string :=
  match n with
  | O => ""
  | S n' => String "*"%char (stars n')
  end.

(** A signature function in the shape of the extractor's: the const
    qualifier, the qualified name and, after a blank, the stars and the
    reference marker. *)
Definition cppSignature (ty : AbstractMetaType.t) : string :=
  (if AbstractMetaType.isConstant ty then "const " else "")
  ++ TypeEntry.qualifiedCppName (AbstractMetaType.typeEntry ty)
  ++ (if (0 <? AbstractMetaType.indirections ty)%Z
         || AbstractMetaType.isReference ty then " " else "")
  ++ stars (Z.to_nat (AbstractMetaType.indirections ty))
  ++ (if AbstractMetaType.isReference ty then "&" else "").

Definition Widget : TypeEntry.t := complexEntry 1 "Widget".
Definition Foo : TypeEntry.t := complexEntry 2 "Foo".
Definition int : TypeEntry.t := primitiveEntry 3 "int".
Definition Vector : TypeEntry.t := entry 4 "Vector<int>".

Definition WidgetClass : AbstractMetaClass.t :=
  AbstractMetaClass.mk "Widget" "Widget" "" Widget.
Definition FooClass : AbstractMetaClass.t :=
  AbstractMetaClass.mk "Foo" "Foo" "" Foo.

Definition argument (ty : AbstractMetaType.t) (name : string) (index : Z)
  (original effective : string) : AbstractMetaArgument.t :=
  AbstractMetaArgument.mk ty name index original effective.

Definition constructor (owner : AbstractMetaClass.t)
  (arguments : list AbstractMetaArgument.t) (private copy : bool)
  : AbstractMetaFunction.t :=
  AbstractMetaFunction.mk (Some owner) arguments None
    (AbstractMetaClass.name owner) false private copy.

Definition intValue : AbstractMetaType.t :=
  use int 0 false false false false false.

(** [Foo] declares a private [Foo(int)] and the copy constructor
    [Foo(const Foo&)]; [Widget] declares a public [Widget(int, int)] and
    a public [Widget()]. *)
Definition FooPrivate : AbstractMetaFunction.t :=
  constructor FooClass [argument intValue "x" 0 "" ""] true false.
Definition FooCopy : AbstractMetaFunction.t :=
  constructor FooClass
    [argument (use Foo 0 true true false false false) "other" 0 "" ""]
    false true.
Definition WidgetTwoInts : AbstractMetaFunction.t :=
  constructor WidgetClass
    [argument intValue "w" 0 "" ""; argument intValue "h" 1 "" ""]
    false false.
Definition WidgetDefault : AbstractMetaFunction.t :=
  constructor WidgetClass [] false false.

(** [Point] declares [Point(int, int)] only; [Line] declares
    [Line(Point, Point)] only. *)
Definition Point : TypeEntry.t := complexEntry 8 "Point".
Definition PointClass : AbstractMetaClass.t :=
  AbstractMetaClass.mk "Point" "Point" "" Point.
Definition PointTwoInts : AbstractMetaFunction.t :=
  constructor PointClass
    [argument intValue "x" 0 "" ""; argument intValue "y" 1 "" ""]
    false false.
Definition Line : TypeEntry.t := complexEntry 9 "Line".
Definition LineClass : AbstractMetaClass.t :=
  AbstractMetaClass.mk "Line" "Line" "" Line.
Definition pointValue : AbstractMetaType.t :=
  use Point 0 false false false false false.
Definition LineTwoPoints : AbstractMetaFunction.t :=
  constructor LineClass
    [argument pointValue "from" 0 "" ""; argument pointValue "to" 1 "" ""]
    false false.

Definition queryConstructors (c : AbstractMetaClass.t)
  : list AbstractMetaFunction.t :=
  if String.eqb (AbstractMetaClass.name c) "Foo" then [FooPrivate; FooCopy]
  else if String.eqb (AbstractMetaClass.name c) "Widget"
       then [WidgetTwoInts; WidgetDefault]
  else if String.eqb (AbstractMetaClass.name c) "Point" then [PointTwoInts]
  else if String.eqb (AbstractMetaClass.name c) "Line" then [LineTwoPoints]
  else [].

Definition findClass (e : TypeEntry.t) : option AbstractMetaClass.t :=
  if TypeEntry.same e Foo then Some FooClass
  else if TypeEntry.same e Widget then Some WidgetClass
  else if TypeEntry.same e Point then Some PointClass
  else if TypeEntry.same e Line then Some LineClass
  else None.

(** The instantiations [Vector<int>], [Vector<int> *&], [Widget *],
    [Widget **] (a native pointer) and [const Widget &]. *)
Definition VectorValue : AbstractMetaType.t :=
  use Vector 0 false false true false false.
Definition VectorPointerReference : AbstractMetaType.t :=
  use Vector 1 true false true false false.
Definition WidgetPointer : AbstractMetaType.t :=
  use Widget 1 false false false false true.
Definition WidgetPointerPointer : AbstractMetaType.t :=
  use Widget 2 false false false true false.
Definition ConstWidgetReference : AbstractMetaType.t :=
  use Widget 0 true true false false false.

(** [int n = 0] whose default the type system changed to [1], and
    [Foo *parent = 0] changed to [NULL], as arguments of a constructor
    of [Foo]. *)
Definition countArgument : AbstractMetaArgument.t :=
  argument intValue "n" 0 "0" "1".
Definition parentArgument : AbstractMetaArgument.t :=
  argument (use Foo 1 false false false false true) "parent" 0 "0" "NULL".

(** The recursive call of the synthesizer in this metamodel. *)
Definition recur : option AbstractMetaType.t -> option string :=
  Synth.minimalConstructor cppSignature findClass queryConstructors 1.

(** A function [resize(int w)] of [Widget] that returns [int], and a
    function [f(int x)] of a class whose name is the text [A%1]. *)
Definition WidgetResize : AbstractMetaFunction.t :=
  AbstractMetaFunction.mk (Some WidgetClass)
    [argument intValue "w" 0 "" ""] (Some intValue) "resize"
    false false false.
Definition OddClass : AbstractMetaClass.t :=
  AbstractMetaClass.mk "A%1" "A%1" "" (complexEntry 5 "A%1").
Definition OddFunction : AbstractMetaFunction.t :=
  AbstractMetaFunction.mk (Some OddClass)
    [argument intValue "x" 0 "" ""] None "f" false false false.

(** Writers that render the argument names, separated by commas. *)
Definition writeArgumentNames (func : AbstractMetaFunction.t) (options : Z)
  : string :=
  QStr.join ", "
    (map AbstractMetaArgument.name (AbstractMetaFunction.arguments func)).

(** Three lines: [    int x;] followed by two blanks, an empty line,
    and [      y]. *)
Definition code : string :=
  "    int x;  " ++ Format.endl ++ Format.endl ++ "      y".

(** A package entry [a.b.c] among the type entries, two classes that
    [generate] writes and one it skips, and a file sink that reports a
    change for [Widget] only. *)
Definition allEntries : list (list TypeEntry.t) :=
  [[Widget; int]; [packageEntry 6 "a.b.c"; Foo]].
Definition SkippedClass : AbstractMetaClass.t :=
  AbstractMetaClass.mk "Skipped" "Skipped" "" (entry 7 "Skipped").
Definition fileNameForClass (cls : AbstractMetaClass.t) : option string :=
  Some (AbstractMetaClass.name cls ++ "_wrapper.cpp").
Definition writeClass (w : list string) (path : string)
  (cls : AbstractMetaClass.t) : list string * bool :=
  ((w ++ [path])%list, String.eqb (AbstractMetaClass.name cls) "Widget").
Definition finishGeneration (w : list string) : list string := w.
Definition GenerateTargetLang : Z := 1.

(** The option values, one bit each. *)
Definition ExcludeConst : Z := 2.
Definition ExcludeReference : Z := 4.
Definition EnumAsInts : Z := 16.
Definition OriginalName : Z := 256.
Definition NoOption : Z := 0.
Definition SkipRemovedArguments : Z := 131072.
Definition SkipDefaultValues : Z := 4194304.

End Sample.

(* ================================================================== *)
(** * Shapes of inputs, for the statements below *)
(* ================================================================== *)

Module Shape.

(** A text without the character [%]. *)
Fixpoint noPercent (s : string) : bool :=
  match s with
  | EmptyString => true
  | String c rest => negb (Ascii.eqb c "%"%char) && noPercent rest
  end.

(** A text without the character [.]. *)
Fixpoint noDot (s : string) : bool :=
  match s with
  | EmptyString => true
  | String c rest => negb (Ascii.eqb c "."%char) && noDot rest
  end.

(** The number of line feeds in a text. *)
Fixpoint lineFeeds (s : string) : nat :=
  match s with
  | EmptyString => 0
  | String c rest =>
      (if Ascii.eqb c "010"%char then 1 else 0) + lineFeeds rest
  end.

(** An argument passed by value whose type is a built-in primitive
    other than the class's own entry, and which has no default value in
    the declaration. *)
Definition primitiveArgument (metaClass : AbstractMetaClass.t)
  (arg : AbstractMetaArgument.t) : bool :=
  let type := AbstractMetaArgument.type arg in
  let entry := AbstractMetaType.typeEntry type in
  negb (TypeEntry.same entry (AbstractMetaClass.typeEntry metaClass))
  && QStr.isEmpty (AbstractMetaArgument.originalDefaultValueExpression arg)
  && TypeEntry.isCppPrimitive entry
  && negb (TypeEntry.isComplex entry)
  && negb (AbstractMetaType.isReference type && Synth.isObjectType type)
  && negb (AbstractMetaType.isContainer type)
  && negb (Synth.isPointer type).

(** The zero-value cast of a built-in primitive. *)
Definition zeroCast (arg : AbstractMetaArgument.t) : string :=
  "((" ++ TypeEntry.qualifiedCppName
            (AbstractMetaType.typeEntry (AbstractMetaArgument.type arg))
       ++ ")0)".

(** A constructor that cannot be used because of its first argument: it
    has the class's own type, or it is a reference to an object type
    without a default value in the declaration. *)
Definition blockedArgument (metaClass : AbstractMetaClass.t)
  (arg : AbstractMetaArgument.t) : bool :=
  let type := AbstractMetaArgument.type arg in
  TypeEntry.same (AbstractMetaType.typeEntry type)
                 (AbstractMetaClass.typeEntry metaClass)
  || (QStr.isEmpty (AbstractMetaArgument.originalDefaultValueExpression arg)
      && AbstractMetaType.isReference type && Synth.isObjectType type).

Definition blocked (metaClass : AbstractMetaClass.t)
  (ctor : AbstractMetaFunction.t) : bool :=
  match AbstractMetaFunction.arguments ctor with
  | [] => false
  | arg :: _ => blockedArgument metaClass arg
  end.


End Shape.

(** Further sample data. *)
Module SampleMore.

(** [Outer], [Outer.Middle] and [Outer.Middle.Inner] of package
    [pkg.mod]. *)
Definition Outer : FullName.t := FullName.mk "Outer" "pkg.mod" None.
Definition Middle : FullName.t :=
  FullName.mk "Middle" "pkg.mod" (Some Outer).
Definition Inner : FullName.t :=
  FullName.mk "Inner" "pkg.mod" (Some Middle).

(** [Node] declares [Node(Node *parent)] and [Node(Widget &owner)],
    [Widget] being an object type there. *)
Definition Node : TypeEntry.t := Sample.complexEntry 10 "Node".
Definition NodeClass : AbstractMetaClass.t :=
  AbstractMetaClass.mk "Node" "Node" "" Node.
Definition NodeFromParent : AbstractMetaFunction.t :=
  Sample.constructor NodeClass
    [Sample.argument (Sample.use Node 1 false false false false true)
       "parent" 0 "" ""] false false.
Definition NodeFromOwner : AbstractMetaFunction.t :=
  Sample.constructor NodeClass
    [Sample.argument (Sample.use Sample.Widget 0 true false false false true)
       "owner" 0 "" "";
     Sample.argument Sample.intValue "n" 1 "" ""] false false.

Definition queryConstructors (c : AbstractMetaClass.t)
  : list AbstractMetaFunction.t :=
  if String.eqb (AbstractMetaClass.name c) "Node"
  then [NodeFromParent; NodeFromOwner]
  else Sample.queryConstructors c.

Definition findClass (e : TypeEntry.t) : option AbstractMetaClass.t :=
  if TypeEntry.same e Node then Some NodeClass else Sample.findClass e.

(** A global function [g(int n)], which has no owner class. *)
Definition GlobalFunction : AbstractMetaFunction.t :=
  AbstractMetaFunction.mk None [Sample.argument Sample.intValue "n" 0 "" ""]
    None "g" false false false.

(** A value pointer to [Widget], without indirection. *)
Definition WidgetValuePointer : AbstractMetaType.t :=
  AbstractMetaType.mk Sample.Widget 0 false false false false true false
    false false false false None None "Widget".

(** The private data after a [setup] that found the package [pkg.mod]. *)
Definition configured : Driver.GeneratorPrivate :=
  Driver.mkPrivate (Some 1%N) "out" "" "pkg.mod" 0 0.

(** A [doSetup] that notes the number of options it was given and
    accepts them. *)
Definition doSetup (w : list string) (args : list (string * string))
  : list string * bool :=
  ((w ++ ["doSetup"])%list, true).

(** A type whose original description is [int], and one whose original
    description is [Widget const]. *)
Definition describedInt : AbstractMetaType.t :=
  AbstractMetaType.mk Sample.int 0 false false false false false false
    false false false false None None " int ".
Definition describedConst : AbstractMetaType.t :=
  AbstractMetaType.mk Sample.Widget 0 false true false false false false
    false false false false None None "Widget const".

End SampleMore.

(* ================================================================== *)
(** * Facts about the string operations *)
(* ================================================================== *)

Lemma append_empty_r (s : string) : s ++ "" = s.
Proof. induction s as [|c s IH]; simpl; [reflexivity | now rewrite IH]. Qed.

Lemma arg_default_call (name : string) :
  QStr.arg "::%1()" name = "::" ++ name ++ "()".
Proof. reflexivity. Qed.

Lemma arg_native_cast (name : string) :
  QStr.arg "((%1*)0)" name = "((" ++ name ++ "*)0)".
Proof. reflexivity. Qed.

Lemma arg_scoped_cast (name : string) :
  QStr.arg "((::%1*)0)" name = "((::" ++ name ++ "*)0)".
Proof. reflexivity. Qed.

(* ================================================================== *)
(** * The synthesizer on classes *)
(* ================================================================== *)

Section MaxArgs.

(** When every constructor is skipped the loop leaves [maxArgs] alone. *)
Lemma maxArgsLoop_all_skipped (constructors : list AbstractMetaFunction.t) :
  Forall (fun ctor => Synth.skipped ctor = true) constructors ->
  forall maxArgs, Synth.maxArgsLoop constructors maxArgs = maxArgs.
Proof.
  induction 1 as [|ctor rest Hskip _ IH]; intro maxArgs; simpl.
  - reflexivity.
  - rewrite Hskip. apply IH.
Qed.

(** A candidate without arguments resets [maxArgs] and ends the loop. *)
Lemma maxArgsLoop_zero_argument (constructors : list AbstractMetaFunction.t) :
  Exists (fun ctor => Synth.skipped ctor = false
                      /\ AbstractMetaFunction.arguments ctor = [])
         constructors ->
  forall maxArgs, Synth.maxArgsLoop constructors maxArgs = 0.
Proof.
  induction 1 as [ctor rest [Hcand Hargs] | ctor rest _ IH];
    intro maxArgs; simpl.
  - now rewrite Hcand, Hargs.
  - destruct (Synth.skipped ctor); [apply IH|].
    destruct (List.length (AbstractMetaFunction.arguments ctor) =? 0);
      [reflexivity|].
    destruct (maxArgs <? _); apply IH.
Qed.

End MaxArgs.

Section ClassSynthesis.

Variable cppSignature : AbstractMetaType.t -> string.
Variable findClass : TypeEntry.t -> option AbstractMetaClass.t.
Variable queryConstructors :
  AbstractMetaClass.t -> list AbstractMetaFunction.t.

Local Abbreviation minimalConstructorClass :=
  (Synth.minimalConstructorClass cppSignature findClass queryConstructors).

(** C1, what the code does.  For a class without a declared default
    constructor whose constructors are all private, copy or user-added
    constructors, [maxArgs] keeps its initial value 0, the value that
    also marks a candidate without arguments, and the class overload
    returns the default-construction call [::Class()] instead of the
    empty string. *)
Theorem minimalConstructorClass_without_candidate
  (fuel : nat) (metaClass : AbstractMetaClass.t) :
  TypeEntry.hasDefaultConstructor (AbstractMetaClass.typeEntry metaClass)
    = false ->
  Forall (fun ctor => Synth.skipped ctor = true)
         (queryConstructors metaClass) ->
  minimalConstructorClass fuel (Some metaClass)
  = Some ("::" ++ AbstractMetaClass.qualifiedCppName metaClass ++ "()").
Proof.
  intros Hdefault Hskipped.
  unfold Synth.minimalConstructorClass, Synth.minimalConstructorClassWith.
  rewrite Hdefault, (maxArgsLoop_all_skipped _ Hskipped).
  reflexivity.
Qed.

(** C3.  For a class without a declared default constructor, a candidate
    constructor (not user-added, not private, not a copy constructor)
    that takes no argument makes the class overload return [::Class()],
    whatever the other constructors are. *)
Theorem minimalConstructorClass_zero_argument_candidate
  (fuel : nat) (metaClass : AbstractMetaClass.t) :
  TypeEntry.hasDefaultConstructor (AbstractMetaClass.typeEntry metaClass)
    = false ->
  Exists (fun ctor => Synth.skipped ctor = false
                      /\ AbstractMetaFunction.arguments ctor = [])
         (queryConstructors metaClass) ->
  minimalConstructorClass fuel (Some metaClass)
  = Some ("::" ++ AbstractMetaClass.qualifiedCppName metaClass ++ "()").
Proof.
  intros Hdefault Hcandidate.
  unfold Synth.minimalConstructorClass, Synth.minimalConstructorClassWith.
  rewrite Hdefault, (maxArgsLoop_zero_argument _ Hcandidate).
  reflexivity.
Qed.

End ClassSynthesis.

(** [Foo] has a private constructor and a copy constructor only: the
    class overload answers [::Foo()]. *)
Lemma minimalConstructorClass_without_candidate_witness :
  TypeEntry.hasDefaultConstructor
    (AbstractMetaClass.typeEntry Sample.FooClass) = false
  /\ Forall (fun ctor => Synth.skipped ctor = true)
            (Sample.queryConstructors Sample.FooClass)
  /\ Synth.minimalConstructorClass Sample.cppSignature Sample.findClass
       Sample.queryConstructors 0 (Some Sample.FooClass)
     = Some "::Foo()".
Proof.
  assert (H1 : TypeEntry.hasDefaultConstructor
                 (AbstractMetaClass.typeEntry Sample.FooClass) = false)
    by reflexivity.
  assert (H2 : Forall (fun ctor => Synth.skipped ctor = true)
                      (Sample.queryConstructors Sample.FooClass))
    by (repeat constructor).
  split; [exact H1 | split; [exact H2 |]].
  exact (minimalConstructorClass_without_candidate
           Sample.cppSignature Sample.findClass Sample.queryConstructors
           0 Sample.FooClass H1 H2).
Defined.

(** [Widget] has [Widget(int, int)] and [Widget()]: the answer is
    [::Widget()]. *)
Lemma minimalConstructorClass_zero_argument_candidate_witness :
  TypeEntry.hasDefaultConstructor
    (AbstractMetaClass.typeEntry Sample.WidgetClass) = false
  /\ Exists (fun ctor => Synth.skipped ctor = false
                         /\ AbstractMetaFunction.arguments ctor = [])
            (Sample.queryConstructors Sample.WidgetClass)
  /\ Synth.minimalConstructorClass Sample.cppSignature Sample.findClass
       Sample.queryConstructors 0 (Some Sample.WidgetClass)
     = Some "::Widget()".
Proof.
  assert (H1 : TypeEntry.hasDefaultConstructor
                 (AbstractMetaClass.typeEntry Sample.WidgetClass) = false)
    by reflexivity.
  assert (H2 : Exists (fun ctor => Synth.skipped ctor = false
                         /\ AbstractMetaFunction.arguments ctor = [])
                      (Sample.queryConstructors Sample.WidgetClass))
    by (apply Exists_cons_tl, Exists_cons_hd; split; reflexivity).
  split; [exact H1 | split; [exact H2 |]].
  exact (minimalConstructorClass_zero_argument_candidate
           Sample.cppSignature Sample.findClass Sample.queryConstructors
           0 Sample.WidgetClass H1 H2).
Defined.

(* ================================================================== *)
(** * The synthesizer on type instantiations *)
(* ================================================================== *)

Section TypeSynthesis.

Variable cppSignature : AbstractMetaType.t -> string.
Variable findClass : TypeEntry.t -> option AbstractMetaClass.t.
Variable queryConstructors :
  AbstractMetaClass.t -> list AbstractMetaFunction.t.

Local Abbreviation minimalConstructor :=
  (Synth.minimalConstructor cppSignature findClass queryConstructors).

(** What the container branch computes.  For a container instantiation
    that the first test (a reference to an object type) lets through, the pointer
    marker is looked for at the end of the canonical signature itself:
    if it is there the result is [0]; otherwise the leading const
    qualifier and the trailing reference marker are stripped and the
    result is the global-scope default-construction call on what is
    left.  A signature [Vector<int>] gives [::Vector<int>()]. *)
Theorem minimalConstructor_container
  (fuel : nat) (type : AbstractMetaType.t) :
  AbstractMetaType.isContainer type = true ->
  AbstractMetaType.isReference type && Synth.isObjectType type = false ->
  minimalConstructor fuel (Some type)
  = Some (if QStr.endsWith (cppSignature type) "*" then "0"
          else "::" ++ Spec.bareContainerName (cppSignature type) ++ "()")
  /\ (cppSignature type = "Vector<int>" ->
      minimalConstructor fuel (Some type) = Some "::Vector<int>()").
Proof.
  intros Hcontainer Hguard.
  assert (Hcode :
    minimalConstructor fuel (Some type)
    = Some (if QStr.endsWith (cppSignature type) "*" then "0"
            else "::" ++ Spec.bareContainerName (cppSignature type) ++ "()")).
  { destruct fuel; simpl; rewrite Hguard, Hcontainer;
      (destruct (QStr.endsWith (cppSignature type) "*"); [reflexivity|]);
      unfold Spec.bareContainerName; now rewrite arg_default_call. }
  split; [exact Hcode|].
  intro Hsig. rewrite Hcode, Hsig. reflexivity.
Qed.

(** C4, as the code has it.  For an instantiation that is not a
    container, is not a reference to an object type and has at least one
    indirection, the result is a null-pointer cast to the qualified name
    of its entry: without the global-scope qualifier when the
    instantiation is a native pointer, with it otherwise: for [Widget],
    the cast of [0] to [Widget *] and the cast of [0] to [::Widget *]. *)
Theorem minimalConstructor_pointer
  (fuel : nat) (type : AbstractMetaType.t) :
  AbstractMetaType.isContainer type = false ->
  AbstractMetaType.isReference type && Synth.isObjectType type = false ->
  (1 <= AbstractMetaType.indirections type)%Z ->
  TypeEntry.qualifiedCppName (AbstractMetaType.typeEntry type) = "Widget" ->
  minimalConstructor fuel (Some type)
  = Some (if AbstractMetaType.isNativePointer type
          then "((Widget*)0)" else "((::Widget*)0)").
Proof.
  intros Hcontainer Hguard Hdepth Hname.
  assert (Hpointer : Synth.isPointer type = true).
  { unfold Synth.isPointer.
    replace (0 <? AbstractMetaType.indirections type)%Z with true
      by (symmetry; apply Z.ltb_lt; lia).
    reflexivity. }
  destruct fuel; simpl; rewrite Hguard, Hcontainer, Hpointer, Hname;
    destruct (AbstractMetaType.isNativePointer type); reflexivity.
Qed.

End TypeSynthesis.

(** C2, on the container [Vector<int> *&].  The specification strips
    the reference marker first and answers [0] for a name that still
    ends in the pointer marker, as the code does for [Vector<int> *].
    The code looks for the pointer marker before it strips: on
    [Vector<int> *&] it does not find it, strips the reference marker
    and returns a default-construction call on the pointer's name. *)
Lemma minimalConstructor_container_counterexample :
  Synth.minimalConstructor Sample.cppSignature Sample.findClass
    Sample.queryConstructors 0
    (Some (Sample.use Sample.Vector 1 false false true false false))
  = Some "0"
  /\ AbstractMetaType.isContainer Sample.VectorPointerReference = true
  /\ Sample.cppSignature Sample.VectorPointerReference = "Vector<int> *&"
  /\ Spec.containerConstructor
       (Sample.cppSignature Sample.VectorPointerReference) = "0"
  /\ Synth.minimalConstructor Sample.cppSignature Sample.findClass
       Sample.queryConstructors 0 (Some Sample.VectorPointerReference)
     = Some "::Vector<int> *()"
  /\ Synth.minimalConstructor Sample.cppSignature Sample.findClass
       Sample.queryConstructors 0 (Some Sample.VectorPointerReference)
     <> Some (Spec.containerConstructor
                (Sample.cppSignature Sample.VectorPointerReference)).
Proof. repeat split; try reflexivity. discriminate. Qed.

Lemma minimalConstructor_container_witness :
  AbstractMetaType.isContainer Sample.VectorValue = true
  /\ AbstractMetaType.isReference Sample.VectorValue
     && Synth.isObjectType Sample.VectorValue = false
  /\ Sample.cppSignature Sample.VectorValue = "Vector<int>"
  /\ Synth.minimalConstructor Sample.cppSignature Sample.findClass
       Sample.queryConstructors 0 (Some Sample.VectorValue)
     = Some "::Vector<int>()".
Proof.
  assert (H1 : AbstractMetaType.isContainer Sample.VectorValue = true)
    by reflexivity.
  assert (H2 : AbstractMetaType.isReference Sample.VectorValue
               && Synth.isObjectType Sample.VectorValue = false)
    by reflexivity.
  assert (H3 : Sample.cppSignature Sample.VectorValue = "Vector<int>")
    by reflexivity.
  split; [exact H1 | split; [exact H2 | split; [exact H3 |]]].
  exact (proj2 (minimalConstructor_container
                  Sample.cppSignature Sample.findClass
                  Sample.queryConstructors 0 Sample.VectorValue H1 H2) H3).
Defined.

(** C4, the claim as the specification words it fails on [Widget **], a
    native pointer: the cast carries no global-scope qualifier. *)
Lemma minimalConstructor_pointer_counterexample :
  AbstractMetaType.isContainer Sample.WidgetPointerPointer = false
  /\ (1 <= AbstractMetaType.indirections Sample.WidgetPointerPointer)%Z
  /\ TypeEntry.qualifiedCppName
       (AbstractMetaType.typeEntry Sample.WidgetPointerPointer) = "Widget"
  /\ Synth.minimalConstructor Sample.cppSignature Sample.findClass
       Sample.queryConstructors 0 (Some Sample.WidgetPointerPointer)
     = Some "((Widget*)0)"
  /\ Synth.minimalConstructor Sample.cppSignature Sample.findClass
       Sample.queryConstructors 0 (Some Sample.WidgetPointerPointer)
     <> Some "((::Widget*)0)".
Proof.
  repeat split; try reflexivity; [discriminate | discriminate].
Qed.

Lemma minimalConstructor_pointer_witness :
  AbstractMetaType.isContainer Sample.WidgetPointer = false
  /\ AbstractMetaType.isReference Sample.WidgetPointer
     && Synth.isObjectType Sample.WidgetPointer = false
  /\ (1 <= AbstractMetaType.indirections Sample.WidgetPointer)%Z
  /\ TypeEntry.qualifiedCppName
       (AbstractMetaType.typeEntry Sample.WidgetPointer) = "Widget"
  /\ Synth.minimalConstructor Sample.cppSignature Sample.findClass
       Sample.queryConstructors 0 (Some Sample.WidgetPointer)
     = Some "((::Widget*)0)".
Proof.
  assert (H1 : AbstractMetaType.isContainer Sample.WidgetPointer = false)
    by reflexivity.
  assert (H2 : AbstractMetaType.isReference Sample.WidgetPointer
               && Synth.isObjectType Sample.WidgetPointer = false)
    by reflexivity.
  assert (H3 : (1 <= AbstractMetaType.indirections Sample.WidgetPointer)%Z)
    by (simpl; lia).
  assert (H4 : TypeEntry.qualifiedCppName
                 (AbstractMetaType.typeEntry Sample.WidgetPointer) = "Widget")
    by reflexivity.
  repeat (split; [assumption|]).
  exact (minimalConstructor_pointer
           Sample.cppSignature Sample.findClass Sample.queryConstructors
           0 Sample.WidgetPointer H1 H2 H3 H4).
Defined.

(* ================================================================== *)
(** * Arguments with a default value, in the first pass *)
(* ================================================================== *)

Section DefaultValues.

Variable recur : option AbstractMetaType.t -> option string.
Variable metaClass : AbstractMetaClass.t.

(** C5, as the code has it.  When the argument loop of the first pass
    reaches, with the list [args] built so far, an argument whose type
    entry is not the class's own and whose original default value is not
    empty, the loop ends there whatever arguments follow: with the
    effective default value appended to [args] when that value is not
    empty and differs from the original one, with [args] as it is when
    the effective value is empty or equal to the original one. *)
Theorem firstPassArgs_default_value
  (arg : AbstractMetaArgument.t) (rest : list AbstractMetaArgument.t)
  (args : list string) :
  TypeEntry.same
    (AbstractMetaType.typeEntry (AbstractMetaArgument.type arg))
    (AbstractMetaClass.typeEntry metaClass) = false ->
  AbstractMetaArgument.originalDefaultValueExpression arg <> "" ->
  (AbstractMetaArgument.defaultValueExpression arg <> "" ->
   AbstractMetaArgument.defaultValueExpression arg
     <> AbstractMetaArgument.originalDefaultValueExpression arg ->
   Synth.firstPassArgs recur metaClass (arg :: rest) args
   = Some (args ++ [AbstractMetaArgument.defaultValueExpression arg])%list)
  /\ (AbstractMetaArgument.defaultValueExpression arg = ""
      \/ AbstractMetaArgument.defaultValueExpression arg
         = AbstractMetaArgument.originalDefaultValueExpression arg ->
      Synth.firstPassArgs recur metaClass (arg :: rest) args = Some args).
Proof.
  intros Hother Horiginal. cbn -[String.eqb]. rewrite Hother.
  destruct (AbstractMetaArgument.originalDefaultValueExpression arg)
    as [|c original] eqn:Eoriginal; [contradiction|]. cbn -[String.eqb].
  split.
  - intros Hnonempty Hdiffers.
    destruct (AbstractMetaArgument.defaultValueExpression arg)
      as [|d effective] eqn:Eeffective; [contradiction|]. cbn -[String.eqb].
    destruct (String.eqb_spec (String d effective) (String c original))
      as [Heq | Hneq]; [contradiction | reflexivity].
  - intros [Hempty | Hequal].
    + rewrite Hempty. reflexivity.
    + rewrite Hequal. rewrite String.eqb_refl, andb_false_r. reflexivity.
Qed.

End DefaultValues.

(** C5, the claim as the specification words it fails on an argument of
    the class's own type: [Foo *parent = 0], changed to [NULL], in a
    constructor of [Foo].  The test on the type comes first; it empties
    the list and ends the loop, and [NULL] is not appended. *)
Lemma firstPassArgs_default_value_counterexample :
  AbstractMetaArgument.originalDefaultValueExpression Sample.parentArgument
    <> ""
  /\ AbstractMetaArgument.defaultValueExpression Sample.parentArgument <> ""
  /\ AbstractMetaArgument.defaultValueExpression Sample.parentArgument
     <> AbstractMetaArgument.originalDefaultValueExpression
          Sample.parentArgument
  /\ Synth.firstPassArgs Sample.recur Sample.FooClass
       [Sample.parentArgument] ["((int)0)"]
     = Some []
  /\ Synth.firstPassArgs Sample.recur Sample.FooClass
       [Sample.parentArgument] ["((int)0)"]
     <> Some (["((int)0)"]
              ++ [AbstractMetaArgument.defaultValueExpression
                    Sample.parentArgument])%list.
Proof. repeat split; try reflexivity; discriminate. Qed.

(** [Foo(int n = 0)] with the default changed to [1]: the first pass
    stops at [n] with the argument list [1]. *)
Lemma firstPassArgs_default_value_witness :
  TypeEntry.same
    (AbstractMetaType.typeEntry
       (AbstractMetaArgument.type Sample.countArgument))
    (AbstractMetaClass.typeEntry Sample.FooClass) = false
  /\ AbstractMetaArgument.originalDefaultValueExpression Sample.countArgument
     <> ""
  /\ Synth.firstPassArgs Sample.recur Sample.FooClass
       [Sample.countArgument; Sample.parentArgument] []
     = Some ["1"].
Proof.
  assert (H1 : TypeEntry.same
                 (AbstractMetaType.typeEntry
                    (AbstractMetaArgument.type Sample.countArgument))
                 (AbstractMetaClass.typeEntry Sample.FooClass) = false)
    by reflexivity.
  assert (H2 : AbstractMetaArgument.originalDefaultValueExpression
                 Sample.countArgument <> "")
    by discriminate.
  split; [exact H1 | split; [exact H2 |]].
  apply (proj1 (firstPassArgs_default_value Sample.recur Sample.FooClass
                  Sample.countArgument [Sample.parentArgument] [] H1 H2));
    discriminate.
Defined.

(* ================================================================== *)
(** * The type translator *)
(* ================================================================== *)

Lemma testFlag_lor_l (a b : Z) :
  a <> 0%Z -> Translate.testFlag (Z.lor a b) a = true.
Proof.
  intro Ha. unfold Translate.testFlag.
  replace (Z.land (Z.lor a b) a) with a.
  - apply negb_true_iff, Z.eqb_neq, Ha.
  - apply Z.bits_inj'. intros n _.
    rewrite Z.land_spec, Z.lor_spec.
    now destruct (Z.testbit a n), (Z.testbit b n).
Qed.

Lemma testFlag_lor_r (a b : Z) :
  b <> 0%Z -> Translate.testFlag (Z.lor a b) b = true.
Proof. rewrite Z.lor_comm. apply testFlag_lor_l. Qed.

Lemma copyCleared_cleared (ExcludeConst ExcludeReference : Z)
  (cType : AbstractMetaType.t) (options : Z) :
  Translate.copyCleared ExcludeConst ExcludeReference cType options
  = Spec.cleared (Translate.testFlag options ExcludeConst)
                 (Translate.testFlag options ExcludeReference) cType.
Proof.
  unfold Translate.copyCleared, Spec.cleared.
  destruct cType; simpl.
  destruct (Translate.testFlag options ExcludeConst),
           (Translate.testFlag options ExcludeReference); reflexivity.
Qed.

Section TranslatorFacts.

Variable cppSignature : AbstractMetaType.t -> string.
Variables EnumAsInts OriginalName ExcludeConst ExcludeReference : Z.

Local Abbreviation translateType :=
  (Translate.translateType cppSignature EnumAsInts OriginalName
     ExcludeConst ExcludeReference).

(** The body of [translateType] on the type it renders. *)
Lemma translateType_resolved (cType : AbstractMetaType.t)
  (context : option AbstractMetaClass.t) (options : Z) :
  AbstractMetaType.isArray (Translate.resolved cType context) = false ->
  translateType (Some cType) context options
  = let rendered := Translate.resolved cType context in
    if Translate.testFlag options EnumAsInts
       && (AbstractMetaType.isEnum rendered || AbstractMetaType.isFlags rendered)
    then "int"
    else if Translate.testFlag options OriginalName
    then Translate.originalName ExcludeConst ExcludeReference rendered options
    else if Translate.testFlag options ExcludeConst
            || Translate.testFlag options ExcludeReference
    then Translate.excluding cppSignature ExcludeConst ExcludeReference
           rendered options
    else cppSignature rendered.
Proof.
  intro Harray. unfold Translate.translateType.
  destruct cType; unfold Translate.resolved in *; simpl in *.
  destruct context as [context|]; simpl in *.
  - destruct (TypeEntry.isGenericClass (AbstractMetaClass.typeEntry context)).
    + destruct originalTemplateType as [original|]; simpl in *;
        now rewrite Harray.
    + now rewrite Harray.
  - now rewrite Harray.
Qed.

(** C6.  Let the rendered type (the type itself, or inside a generic
    class the template type it came from) be no array and, if
    [EnumAsInts] is set, no enum or flags type.  Without [OriginalName]
    and with [ExcludeConst] or [ExcludeReference], [translateType] gives
    the canonical signature of the copy whose const flag is cleared if
    [ExcludeConst] is set and whose reference flag is cleared if
    [ExcludeReference] is set, with [::] in front unless the entry is
    void or a built-in primitive.  In particular a [const Widget&], whose
    copy without both qualifiers has the signature [Widget], translates
    to [::Widget] under [ExcludeConst | ExcludeReference]. *)
Theorem translateType_excluding_qualifiers
  (cType : AbstractMetaType.t) (context : option AbstractMetaClass.t)
  (options : Z) :
  AbstractMetaType.isArray (Translate.resolved cType context) = false ->
  Translate.testFlag options EnumAsInts
  && (AbstractMetaType.isEnum (Translate.resolved cType context)
      || AbstractMetaType.isFlags (Translate.resolved cType context))
  = false ->
  Translate.testFlag options OriginalName = false ->
  Translate.testFlag options ExcludeConst
  || Translate.testFlag options ExcludeReference = true ->
  translateType (Some cType) context options
  = (if TypeEntry.isVoid
          (AbstractMetaType.typeEntry (Translate.resolved cType context))
        || TypeEntry.isCppPrimitive
             (AbstractMetaType.typeEntry (Translate.resolved cType context))
     then "" else "::")
    ++ cppSignature
         (Spec.cleared (Translate.testFlag options ExcludeConst)
                       (Translate.testFlag options ExcludeReference)
                       (Translate.resolved cType context))
  /\ (context = None ->
      options = Z.lor ExcludeConst ExcludeReference ->
      ExcludeConst <> 0%Z -> ExcludeReference <> 0%Z ->
      TypeEntry.isVoid (AbstractMetaType.typeEntry cType) = false ->
      TypeEntry.isCppPrimitive (AbstractMetaType.typeEntry cType) = false ->
      cppSignature (Spec.cleared true true cType) = "Widget" ->
      translateType (Some cType) context options = "::Widget").
Proof.
  set (rendered := Translate.resolved cType context).
  intros Harray Henum Horiginal Hexclude.
  assert (Hcode :
    translateType (Some cType) context options
    = (if TypeEntry.isVoid (AbstractMetaType.typeEntry rendered)
          || TypeEntry.isCppPrimitive (AbstractMetaType.typeEntry rendered)
       then "" else "::")
      ++ cppSignature
           (Spec.cleared (Translate.testFlag options ExcludeConst)
              (Translate.testFlag options ExcludeReference) rendered)).
  { rewrite (translateType_resolved _ _ _ Harray). cbv zeta.
    fold rendered. rewrite Henum, Horiginal, Hexclude.
    unfold Translate.excluding. rewrite copyCleared_cleared.
    simpl AbstractMetaType.typeEntry.
    destruct (TypeEntry.isVoid (AbstractMetaType.typeEntry rendered)),
             (TypeEntry.isCppPrimitive (AbstractMetaType.typeEntry rendered));
      reflexivity. }
  split; [exact Hcode|].
  intros Hcontext Hoptions Hconst Hreference Hvoid Hprimitive Hsignature.
  rewrite Hcode. subst context options rendered.
  simpl Translate.resolved.
  rewrite Hvoid, Hprimitive.
  rewrite (testFlag_lor_l _ _ Hconst), (testFlag_lor_r _ _ Hreference).
  now rewrite Hsignature.
Qed.

End TranslatorFacts.

(** [const Widget &] under [ExcludeConst | ExcludeReference]. *)
Lemma translateType_excluding_qualifiers_witness :
  AbstractMetaType.isConstant Sample.ConstWidgetReference = true
  /\ AbstractMetaType.isReference Sample.ConstWidgetReference = true
  /\ Sample.cppSignature Sample.ConstWidgetReference = "const Widget &"
  /\ Translate.translateType Sample.cppSignature Sample.EnumAsInts
       Sample.OriginalName Sample.ExcludeConst Sample.ExcludeReference
       (Some Sample.ConstWidgetReference) None
       (Z.lor Sample.ExcludeConst Sample.ExcludeReference)
     = "::Widget".
Proof.
  repeat (split; [reflexivity|]).
  refine (proj2 (translateType_excluding_qualifiers
                   Sample.cppSignature Sample.EnumAsInts Sample.OriginalName
                   Sample.ExcludeConst Sample.ExcludeReference
                   Sample.ConstWidgetReference None
                   (Z.lor Sample.ExcludeConst Sample.ExcludeReference)
                   _ _ _ _) _ _ _ _ _ _ _);
    try reflexivity; discriminate.
Defined.

(* ================================================================== *)
(** * Template substitution *)
(* ================================================================== *)

Lemma contains_tail (c : ascii) (s p : string) :
  QStr.contains (String c s) p = false -> QStr.contains s p = false.
Proof.
  simpl. intro H. apply orb_false_iff in H. destruct H as [_ H].
  destruct s; exact H.
Qed.

Lemma contains_prefix (s p : string) :
  QStr.contains s p = false -> prefix p s = false.
Proof.
  destruct s; simpl; intro H; apply orb_false_iff in H; apply H.
Qed.

(** A pattern that does not occur is replaced nowhere. *)
Lemma replace_absent (before after s : string) :
  QStr.contains s before = false -> QStr.replace before after s = s.
Proof.
  destruct before as [|b before].
  - intro H. apply contains_prefix in H. destruct s; discriminate.
  - unfold QStr.replace. induction s as [|c s IH]; [reflexivity|].
    intro H. cbn [QStr.replaceFrom].
    rewrite (contains_prefix _ _ H).
    f_equal. apply IH. exact (contains_tail _ _ _ H).
Qed.

(** A text that is the pattern becomes the replacement. *)
Lemma replace_whole (c : ascii) (before after : string) :
  QStr.replace (String c before) after (String c before) = after.
Proof.
  unfold QStr.replace. cbn [QStr.replaceFrom].
  assert (Hprefix : forall s, prefix s s = true).
  { induction s as [|a s IH]; [reflexivity|].
    simpl. destruct (ascii_dec a a); [exact IH | contradiction]. }
  rewrite Hprefix.
  assert (Hskip : forall s n, String.length s <= n ->
                              QStr.replaceFrom (String c before) after n s = "").
  { induction s as [|a s IH]; intros n Hn; [reflexivity|].
    destruct n; simpl in *; [lia|]. apply IH. lia. }
  rewrite Hskip; [apply append_empty_r | simpl; lia].
Qed.

Section TemplateFacts.

Variable cppSignature : AbstractMetaType.t -> string.
Variables EnumAsInts OriginalName ExcludeConst ExcludeReference : Z.
Variables NoOption SkipRemovedArguments SkipDefaultValues : Z.
Variables writeArgumentNames writeFunctionArguments :
  AbstractMetaFunction.t -> Z -> string.

Local Abbreviation replaceTemplateVariables :=
  (Template.replaceTemplateVariables cppSignature EnumAsInts OriginalName
     ExcludeConst ExcludeReference NoOption SkipRemovedArguments
     SkipDefaultValues writeArgumentNames writeFunctionArguments).

Local Abbreviation replaceTemplateValues :=
  (Template.replaceTemplateValues cppSignature EnumAsInts OriginalName
     ExcludeConst ExcludeReference NoOption SkipRemovedArguments
     SkipDefaultValues writeArgumentNames writeFunctionArguments).

Lemma replaceArguments_absent (arguments : list AbstractMetaArgument.t)
  (code : string) :
  Forall (fun p => QStr.contains code p = false)
         (map Template.positional arguments) ->
  Template.replaceArguments arguments code = code.
Proof.
  induction arguments as [|arg rest IH];
    cbn [Template.replaceArguments map]; intro H; [reflexivity|].
  inversion H as [|p ps Hp Hps]; subst.
  rewrite (replace_absent _ _ _ Hp). apply IH, Hps.
Qed.

Lemma replaceTemplateValues_absent (func : AbstractMetaFunction.t)
  (code : string) :
  Forall (fun p => QStr.contains code p = false)
         ["%RETURN_TYPE"; "%FUNCTION_NAME"; "%ARGUMENT_NAMES"; "%ARGUMENTS"] ->
  replaceTemplateValues func code = code.
Proof.
  intro H.
  inversion H as [|? ? Hreturn H1]; subst.
  inversion H1 as [|? ? Hname H2]; subst.
  inversion H2 as [|? ? Hnames H3]; subst.
  inversion H3 as [|? ? Harguments _]; subst.
  unfold Template.replaceTemplateValues.
  rewrite (replace_absent _ _ _ Hreturn), (replace_absent _ _ _ Hname).
  rewrite Hnames, Harguments. reflexivity.
Qed.

Lemma replaceArguments_chain (arguments : list AbstractMetaArgument.t) :
  forall code,
  Template.replaceArguments arguments code
  = Chain.applyAll
      (map (fun arg => (Template.positional arg, AbstractMetaArgument.name arg))
           arguments) code.
Proof.
  unfold Chain.applyAll.
  induction arguments as [|arg rest IH]; intro code; [reflexivity|].
  cbn [Template.replaceArguments map fold_left fst snd]. apply IH.
Qed.

(** Asking first whether the placeholder occurs changes nothing. *)
Lemma replace_if_contained (before after code : string) :
  (if QStr.contains code before then QStr.replace before after code else code)
  = QStr.replace before after code.
Proof.
  destruct (QStr.contains code before) eqn:E; [reflexivity|].
  symmetry. now apply replace_absent.
Qed.

(** C7, as the code has it.  [replaceTemplateVariables] leaves a code
    without any of the function's placeholders as it is.  It replaces
    one placeholder after the other in the whole text, so what an
    earlier replacement put in is searched by the later ones: the
    template [%TYPE] expands to the expansion of the class name, not to
    the class name as it stands.  The replacements are, in this order:
    the owner class name for [%TYPE], each argument's name for its
    position, the translated return type, the original function name,
    the argument names and the argument declarations. *)
Theorem replaceTemplateVariables_passes
  (code : string) (func : AbstractMetaFunction.t) :
  (Forall (fun p => QStr.contains code p = false)
          (Template.placeholders func) ->
   replaceTemplateVariables code func = code)
  /\ (forall cpp_class,
        AbstractMetaFunction.ownerClass func = Some cpp_class ->
        QStr.contains (AbstractMetaClass.name cpp_class) "%TYPE" = false ->
        replaceTemplateVariables "%TYPE" func
        = replaceTemplateVariables (AbstractMetaClass.name cpp_class) func)
  /\ replaceTemplateVariables code func
     = Chain.applyAll
         (Chain.substitutions cppSignature EnumAsInts OriginalName
            ExcludeConst ExcludeReference NoOption SkipRemovedArguments
            SkipDefaultValues writeArgumentNames writeFunctionArguments func)
         code.
Proof.
  split; [|split].
  - unfold Template.placeholders. intro H.
    inversion H as [|? ? Htype Hrest]; subst.
    apply Forall_app in Hrest. destruct Hrest as [Hpositional Hvalues].
    unfold Template.replaceTemplateVariables.
    replace (match AbstractMetaFunction.ownerClass func with
             | Some cpp_class =>
                 QStr.replace "%TYPE" (AbstractMetaClass.name cpp_class) code
             | None => code
             end) with code
      by (destruct (AbstractMetaFunction.ownerClass func);
          [now rewrite (replace_absent _ _ _ Htype) | reflexivity]).
    rewrite (replaceArguments_absent _ _ Hpositional).
    apply replaceTemplateValues_absent, Hvalues.
  - intros cpp_class Howner Habsent.
    unfold Template.replaceTemplateVariables.
    rewrite Howner, replace_whole, (replace_absent _ _ _ Habsent).
    reflexivity.
  - unfold Template.replaceTemplateVariables, Template.replaceTemplateValues,
      Chain.substitutions, Chain.applyAll.
    rewrite !replace_if_contained, !fold_left_app.
    cbn [fold_left fst snd].
    rewrite replaceArguments_chain. unfold Chain.applyAll.
    destruct (AbstractMetaFunction.ownerClass func); reflexivity.
Qed.

End TemplateFacts.

(** C7, the claim as the specification words it fails for a class named
    [A%1] and a first argument named [x]: the placeholder [%1] that the
    replacement of [%TYPE] brings in is replaced in its turn. *)
Lemma replaceTemplateVariables_counterexample :
  AbstractMetaFunction.ownerClass Sample.OddFunction = Some Sample.OddClass
  /\ AbstractMetaClass.name Sample.OddClass = "A%1"
  /\ Template.replaceTemplateVariables Sample.cppSignature Sample.EnumAsInts
       Sample.OriginalName Sample.ExcludeConst Sample.ExcludeReference
       Sample.NoOption Sample.SkipRemovedArguments Sample.SkipDefaultValues
       Sample.writeArgumentNames Sample.writeArgumentNames
       "%TYPE" Sample.OddFunction
     = "Ax"
  /\ Template.replaceTemplateVariables Sample.cppSignature Sample.EnumAsInts
       Sample.OriginalName Sample.ExcludeConst Sample.ExcludeReference
       Sample.NoOption Sample.SkipRemovedArguments Sample.SkipDefaultValues
       Sample.writeArgumentNames Sample.writeArgumentNames
       "%TYPE" Sample.OddFunction
     <> AbstractMetaClass.name Sample.OddClass.
Proof. repeat split; try reflexivity. discriminate. Qed.

(** [Widget::resize(int w)]: the code [return 0;] is left as it is, and
    the template [%TYPE] becomes [Widget]. *)
Lemma replaceTemplateVariables_passes_witness :
  Forall (fun p => QStr.contains "return 0;" p = false)
         (Template.placeholders Sample.WidgetResize)
  /\ Template.replaceTemplateVariables Sample.cppSignature Sample.EnumAsInts
       Sample.OriginalName Sample.ExcludeConst Sample.ExcludeReference
       Sample.NoOption Sample.SkipRemovedArguments Sample.SkipDefaultValues
       Sample.writeArgumentNames Sample.writeArgumentNames
       "return 0;" Sample.WidgetResize
     = "return 0;"
  /\ Template.replaceTemplateVariables Sample.cppSignature Sample.EnumAsInts
       Sample.OriginalName Sample.ExcludeConst Sample.ExcludeReference
       Sample.NoOption Sample.SkipRemovedArguments Sample.SkipDefaultValues
       Sample.writeArgumentNames Sample.writeArgumentNames
       "%TYPE" Sample.WidgetResize
     = Template.replaceTemplateVariables Sample.cppSignature Sample.EnumAsInts
         Sample.OriginalName Sample.ExcludeConst Sample.ExcludeReference
         Sample.NoOption Sample.SkipRemovedArguments Sample.SkipDefaultValues
         Sample.writeArgumentNames Sample.writeArgumentNames
         "Widget" Sample.WidgetResize.
Proof.
  assert (H : Forall (fun p => QStr.contains "return 0;" p = false)
                     (Template.placeholders Sample.WidgetResize))
    by (repeat constructor).
  split; [exact H | split].
  - exact (proj1 (replaceTemplateVariables_passes
                    Sample.cppSignature Sample.EnumAsInts
                    Sample.OriginalName Sample.ExcludeConst
                    Sample.ExcludeReference Sample.NoOption
                    Sample.SkipRemovedArguments Sample.SkipDefaultValues
                    Sample.writeArgumentNames Sample.writeArgumentNames
                    "return 0;" Sample.WidgetResize) H).
  - exact (proj1 (proj2 (replaceTemplateVariables_passes
                    Sample.cppSignature Sample.EnumAsInts
                    Sample.OriginalName Sample.ExcludeConst
                    Sample.ExcludeReference Sample.NoOption
                    Sample.SkipRemovedArguments Sample.SkipDefaultValues
                    Sample.writeArgumentNames Sample.writeArgumentNames
                    "return 0;" Sample.WidgetResize))
                 Sample.WidgetClass eq_refl eq_refl).
Defined.

(* ================================================================== *)
(** * The code reindenter *)
(* ================================================================== *)

(** The condition of the [while] loop reads the terminating NUL, which
    is no white space: the loop body never runs. *)
Lemma chopLoop_keeps_line (n : nat) (line : string) :
  Format.chopLoop n line = line.
Proof. destruct n; reflexivity. Qed.

(** The [for] loop counts the white space at the start of the line, up
    to [n] characters. *)
Lemma limitLoop_clamped (n : nat) (line : string) :
  Format.limitLoop n line = Nat.min n (Spec.leadingRun line).
Proof.
  revert line. induction n as [|n IH]; intros [|c rest]; simpl;
    try reflexivity.
  destruct (QStr.isSpace c); [now rewrite IH | reflexivity].
Qed.

(** One output line for each input line, in the same order. *)
Lemma formatCodeLines_length (code indentor : string) :
  List.length (Format.formatCodeLines code indentor)
  = List.length (QStr.split_lines code).
Proof. unfold Format.formatCodeLines. apply length_map. Qed.

(** A line of white space only gives an empty output line. *)
Lemma formatLine_blank (toRemove : Z) (indentor line : string) :
  Format.emptyLine_exactMatch line = true ->
  Format.formatLine toRemove indentor line = "".
Proof.
  intro H. unfold Format.formatLine. rewrite H.
  now rewrite andb_false_r.
Qed.

(** Any other line keeps everything after the removed indentation, the
    white space at its end included. *)
Lemma formatLine_not_blank (toRemove : Z) (indentor line : string) :
  Format.emptyLine_exactMatch line = false ->
  Format.formatLine toRemove indentor line
  = indentor
    ++ QStr.remove 0
         (Z.of_nat (Nat.min (Z.to_nat toRemove) (Spec.leadingRun line))) line.
Proof.
  intro H. unfold Format.formatLine. rewrite H.
  destruct line as [|c rest]; [discriminate|].
  cbn [QStr.isEmpty negb andb].
  now rewrite chopLoop_keeps_line, limitLoop_clamped.
Qed.

(** On a line without white space at its end the function does what the
    specification says, when nothing is written for the indentor. *)
Lemma formatLine_without_trailing_space (toRemove : Z) (line : string) :
  Spec.stripTrailing line = line ->
  Format.formatLine toRemove "" line
  = Spec.reindentLine (Z.to_nat toRemove) line.
Proof.
  intro Hstripped. unfold Spec.reindentLine.
  destruct (Format.emptyLine_exactMatch line) eqn:Hblank.
  - now apply formatLine_blank.
  - rewrite Hstripped. now rewrite formatLine_not_blank.
Qed.

(** C8, on the code [    int x;  ], an empty line, [      y].  The width
    is 4; the output has three lines, the second one empty, the third
    one without its first four blanks; but the first one keeps the two
    blanks at its end, which the specification strips. *)
Theorem formatCode_keeps_trailing_spaces :
  QStr.split_lines Sample.code = ["    int x;  "; ""; "      y"]
  /\ Format.spacesToRemove (QStr.split_lines Sample.code) = 4%Z
  /\ Format.formatCodeLines Sample.code "" = ["int x;  "; ""; "  y"]
  /\ Spec.reindent Sample.code = ["int x;"; ""; "  y"]
  /\ Format.formatCodeLines Sample.code "" <> Spec.reindent Sample.code.
Proof. repeat split; try reflexivity. discriminate. Qed.

(* ================================================================== *)
(** * The generation driver *)
(* ================================================================== *)

Lemma increment_in_range (z : Z) :
  (Driver.INT_MIN <= z < Driver.INT_MAX)%Z -> Driver.increment z = (z + 1)%Z.
Proof.
  unfold Driver.INT_MIN, Driver.INT_MAX, Driver.increment, Driver.wrap_int.
  intro H. rewrite Z.mod_small; lia.
Qed.

Lemma count_true_bounds (l : list bool) :
  (0 <= Driver.count_true l <= Z.of_nat (List.length l))%Z.
Proof.
  unfold Driver.count_true.
  pose proof (filter_length_le (fun b : bool => b) l). lia.
Qed.

Lemma count_true_app (l1 l2 : list bool) :
  Driver.count_true (l1 ++ l2)
  = (Driver.count_true l1 + Driver.count_true l2)%Z.
Proof.
  unfold Driver.count_true. rewrite filter_app, length_app. lia.
Qed.

Section DriverFacts.

Variable separator : ascii.
Variable GenerateTargetLang : Z.
Variable World : Type.
Variable fileNameForClass : AbstractMetaClass.t -> option string.
Variable writeClass : World -> string -> AbstractMetaClass.t -> World * bool.
Variable finishGeneration : World -> World.

Local Abbreviation generateOne :=
  (Driver.generateOne separator GenerateTargetLang World fileNameForClass
     writeClass).
Local Abbreviation generateLoop :=
  (Driver.generateLoop separator GenerateTargetLang World fileNameForClass
     writeClass).
Local Abbreviation generate :=
  (Driver.generate separator GenerateTargetLang World fileNameForClass
     writeClass finishGeneration).
Local Abbreviation considered :=
  (Driver.considered GenerateTargetLang fileNameForClass).
Local Abbreviation doneAnswer :=
  (Driver.doneAnswer separator GenerateTargetLang World fileNameForClass
     writeClass).
Local Abbreviation doneAnswers :=
  (Driver.doneAnswers separator GenerateTargetLang World fileNameForClass
     writeClass).

(** One turn of the loop: a class that passes both tests adds one to
    [numGenerated], and one to [numGeneratedWritten] if [done()] answers
    true; any other class changes nothing. *)
Lemma generateOne_counters (st : Driver.GeneratorPrivate * World)
  (cls : AbstractMetaClass.t) :
  (Driver.INT_MIN <= Driver.numGeneratedWritten (fst st)
   <= Driver.numGenerated (fst st))%Z ->
  (Driver.numGenerated (fst st) < Driver.INT_MAX)%Z ->
  Driver.numGenerated (fst (generateOne st cls))
  = (Driver.numGenerated (fst st) + (if considered cls then 1 else 0))%Z
  /\ Driver.numGeneratedWritten (fst (generateOne st cls))
     = (Driver.numGeneratedWritten (fst st)
        + Driver.count_true (doneAnswer st cls))%Z
  /\ List.length (doneAnswer st cls) = (if considered cls then 1 else 0).
Proof.
  destruct st as [d w]. cbn [fst]. intros Hinv Hmax.
  unfold Driver.generateOne, Driver.doneAnswer, Driver.considered.
  destruct (Driver.shouldGenerate GenerateTargetLang cls); cbn [negb andb].
  - destruct (fileNameForClass cls) as [fileName|]; cbn [fst snd].
    + destruct (writeClass w _ cls) as [w' done].
      cbn [fst snd Driver.numGenerated Driver.numGeneratedWritten].
      rewrite (increment_in_range (Driver.numGenerated d))
        by (unfold Driver.INT_MIN in *; lia).
      destruct done; unfold Driver.count_true; cbn [filter List.length].
      * rewrite (increment_in_range (Driver.numGeneratedWritten d)) by lia.
        repeat split; lia.
      * repeat split; lia.
    + unfold Driver.count_true. simpl. repeat split; lia.
  - unfold Driver.count_true. simpl. repeat split; lia.
Qed.

(** The counters after the loop, counted from the classes. *)
Lemma generateLoop_counters (classes : list AbstractMetaClass.t) :
  forall st : Driver.GeneratorPrivate * World,
  (Driver.INT_MIN <= Driver.numGeneratedWritten (fst st)
   <= Driver.numGenerated (fst st))%Z ->
  (Driver.numGenerated (fst st) + Z.of_nat (List.length classes)
   <= Driver.INT_MAX)%Z ->
  Driver.numGenerated (fst (generateLoop st classes))
  = (Driver.numGenerated (fst st)
     + Z.of_nat (List.length (filter considered classes)))%Z
  /\ Driver.numGeneratedWritten (fst (generateLoop st classes))
     = (Driver.numGeneratedWritten (fst st)
        + Driver.count_true (doneAnswers st classes))%Z
  /\ List.length (doneAnswers st classes)
     = List.length (filter considered classes).
Proof.
  induction classes as [|cls rest IH]; intros st Hinv Hmax.
  - unfold Driver.count_true. simpl. repeat split; lia.
  - cbn [List.length] in Hmax.
    destruct (generateOne_counters st cls Hinv ltac:(lia)) as (Hg & Hw & Hl).
    pose proof (count_true_bounds (doneAnswer st cls)) as Hb.
    assert (Hstep : (if considered cls then 1 else 0) <= 1)
      by (destruct (considered cls); lia).
    assert (HgZ : (Driver.numGenerated (fst (generateOne st cls))
                   <= Driver.numGenerated (fst st) + 1)%Z)
      by (rewrite Hg; destruct (considered cls); lia).
    assert (HwZ : (Driver.count_true (doneAnswer st cls)
                   <= (if considered cls then 1 else 0))%Z)
      by (destruct (considered cls); lia).
    destruct (IH (generateOne st cls)) as (Hg' & Hw' & Hl').
    + rewrite Hg, Hw. destruct (considered cls); lia.
    + lia.
    + unfold Driver.generateLoop in *.
      cbn [fold_left Driver.doneAnswers filter].
      rewrite Hg', Hw', Hg, Hw, count_true_app, length_app, Hl, Hl'.
      destruct (considered cls); cbn [List.length]; repeat split; lia.
Qed.

(** C9.  From a state in which the written counter does not exceed the
    considered counter, and with room in an [int] for one increment per
    class, [generate] adds to [numGenerated] the number of classes that
    pass [shouldGenerate] and have a file name, and to
    [numGeneratedWritten] the number of those for which [done()]
    answered true.  So neither counter decreases, at any point of the
    loop, and [numGeneratedAndWritten] is at most [numGenerated]
    afterwards. *)
Theorem generate_counters
  (st : Driver.GeneratorPrivate * World)
  (classes : list AbstractMetaClass.t) :
  (Driver.INT_MIN <= Driver.numGeneratedWritten (fst st)
   <= Driver.numGenerated (fst st))%Z ->
  (Driver.numGenerated (fst st) + Z.of_nat (List.length classes)
   <= Driver.INT_MAX)%Z ->
  Driver.numGenerated (fst (generate st classes))
  = (Driver.numGenerated (fst st)
     + Z.of_nat (List.length (filter considered classes)))%Z
  /\ Driver.numGeneratedWritten (fst (generate st classes))
     = (Driver.numGeneratedWritten (fst st)
        + Driver.count_true (doneAnswers st classes))%Z
  /\ List.length (doneAnswers st classes)
     = List.length (filter considered classes)
  /\ (Driver.numGeneratedWritten (fst (generate st classes))
      <= Driver.numGenerated (fst (generate st classes)))%Z
  /\ (forall before after, classes = (before ++ after)%list ->
      (Driver.numGenerated (fst st)
       <= Driver.numGenerated (fst (generateLoop st before))
       <= Driver.numGenerated (fst (generateLoop st classes)))%Z
      /\ (Driver.numGeneratedWritten (fst st)
          <= Driver.numGeneratedWritten (fst (generateLoop st before))
          <= Driver.numGeneratedWritten (fst (generateLoop st classes)))%Z).
Proof.
  intros Hinv Hmax.
  assert (Hfinish : fst (generate st classes) = fst (generateLoop st classes)).
  { unfold Driver.generate.
    now destruct (generateLoop st classes). }
  rewrite Hfinish.
  destruct (generateLoop_counters classes st Hinv Hmax) as (Hg & Hw & Hl).
  pose proof (count_true_bounds (doneAnswers st classes)) as Hb.
  split; [exact Hg | split; [exact Hw | split; [exact Hl | split; [lia|]]]].
  intros before after Hsplit. subst classes.
  rewrite length_app in Hmax.
  destruct (generateLoop_counters before st Hinv ltac:(lia))
    as (Hg1 & Hw1 & Hl1).
  pose proof (count_true_bounds (doneAnswers st before)) as Hb1.
  pose proof (filter_length_le considered before) as Hf1.
  assert (Hsplit2 : generateLoop st (before ++ after)%list
                    = generateLoop (generateLoop st before) after)
    by (unfold Driver.generateLoop; apply fold_left_app).
  destruct (generateLoop_counters after (generateLoop st before)
              ltac:(lia) ltac:(lia)) as (Hg2 & Hw2 & Hl2).
  pose proof (count_true_bounds
                (doneAnswers (generateLoop st before) after)) as Hb2.
  rewrite Hsplit2. lia.
Qed.

End DriverFacts.

(** A fresh generator, the classes [Widget], [Skipped] and [Foo]: two
    classes are written and the sink reports a change for one. *)
Lemma generate_counters_witness :
  (Driver.INT_MIN <= Driver.numGeneratedWritten Driver.Generator
   <= Driver.numGenerated Driver.Generator)%Z
  /\ (Driver.numGenerated Driver.Generator
      + Z.of_nat (List.length [Sample.WidgetClass; Sample.SkippedClass;
                               Sample.FooClass])
      <= Driver.INT_MAX)%Z
  /\ Driver.numGenerated
       (fst (Driver.generate "/"%char Sample.GenerateTargetLang (list string)
               Sample.fileNameForClass Sample.writeClass
               Sample.finishGeneration (Driver.Generator, [])
               [Sample.WidgetClass; Sample.SkippedClass; Sample.FooClass]))
     = 2%Z
  /\ Driver.numGeneratedWritten
       (fst (Driver.generate "/"%char Sample.GenerateTargetLang (list string)
               Sample.fileNameForClass Sample.writeClass
               Sample.finishGeneration (Driver.Generator, [])
               [Sample.WidgetClass; Sample.SkippedClass; Sample.FooClass]))
     = 1%Z.
Proof.
  assert (H1 : (Driver.INT_MIN <= Driver.numGeneratedWritten Driver.Generator
                <= Driver.numGenerated Driver.Generator)%Z)
    by (vm_compute; split; discriminate).
  assert (H2 : (Driver.numGenerated Driver.Generator
                + Z.of_nat (List.length [Sample.WidgetClass;
                                         Sample.SkippedClass; Sample.FooClass])
                <= Driver.INT_MAX)%Z)
    by (vm_compute; discriminate).
  destruct (generate_counters "/"%char Sample.GenerateTargetLang (list string)
              Sample.fileNameForClass Sample.writeClass
              Sample.finishGeneration (Driver.Generator, [])
              [Sample.WidgetClass; Sample.SkippedClass; Sample.FooClass]
              H1 H2) as (Hg & Hw & _).
  exact (conj H1 (conj H2 (conj Hg Hw))).
Defined.

(* ================================================================== *)
(** * The directory of a package *)
(* ================================================================== *)

(** Replacing the text [.] by a one-character text changes each dot and
    nothing else. *)
Lemma replace_dot (separator : ascii) (package : string) :
  QStr.replace "." (String separator "") package
  = Spec.dotsToSeparator separator package.
Proof.
  unfold QStr.replace.
  induction package as [|c rest IH]; [reflexivity|].
  cbn [QStr.replaceFrom Spec.dotsToSeparator prefix].
  destruct (ascii_dec "." c) as [Heq | Hneq].
  - subst c. replace (prefix "" rest) with true by (now destruct rest).
    cbn. now rewrite IH.
  - rewrite IH. destruct (Ascii.eqb_spec c "."); [congruence | reflexivity].
Qed.

Lemma dotsToSeparator_not_empty (separator : ascii) (package : string) :
  package <> "" -> Spec.dotsToSeparator separator package <> "".
Proof. destruct package; [contradiction | discriminate]. Qed.

(** What [setup] finds is a type-system entry flagged for generation. *)
Lemma entryFound_is_package (values : list (list TypeEntry.t))
  (entry : TypeEntry.t) :
  Driver.entryFound values = Some entry ->
  TypeEntry.type entry = TypeEntry.TypeSystemType
  /\ TypeEntry.generateCode entry = true.
Proof.
  assert (Hlist : forall l, Driver.findInEntryList l = Some entry ->
            TypeEntry.type entry = TypeEntry.TypeSystemType
            /\ TypeEntry.generateCode entry = true).
  { induction l as [|e l IH]; simpl; [discriminate|].
    destruct (TypeEntry.isTypeSystemType e && TypeEntry.generateCode e)
      eqn:He; [|exact IH].
    intro H. injection H as ->. apply andb_true_iff in He.
    destruct He as [Ht Hg]. split; [|exact Hg].
    unfold TypeEntry.isTypeSystemType in Ht.
    now destruct (TypeEntry.type entry). }
  induction values as [|l values IH]; simpl; [discriminate|].
  destruct (Driver.findInEntryList l) eqn:El; [|exact IH].
  intro H. inversion H; subst. exact (Hlist _ El).
Qed.

Lemma append_cancel_l (a b c : string) : a ++ b = a ++ c -> b = c.
Proof.
  induction a as [|x a IH]; simpl; intro H; [exact H|].
  injection H as H. now apply IH.
Qed.

Lemma string_length_app (a b : string) :
  String.length (a ++ b) = String.length a + String.length b.
Proof. induction a as [|x a IH]; simpl; [reflexivity | now rewrite IH]. Qed.

Section PathFacts.

Variable separator : ascii.
Variable GenerateTargetLang : Z.
Variable World : Type.
Variable fileNameForClass : AbstractMetaClass.t -> option string.
Variable writeClass : World -> string -> AbstractMetaClass.t -> World * bool.
Variable finishGeneration : World -> World.
Variable doSetup : World -> list (string * string) -> World * bool.

Local Abbreviation setup := (Driver.setup World doSetup).
Local Abbreviation generate :=
  (Driver.generate separator GenerateTargetLang World fileNameForClass
     writeClass finishGeneration).

(** C10.  For the empty package name [subDirectoryForPackage] takes the
    generator's package name and replaces each dot in it by the path
    separator.  After a [setup] that found its type-system entry, that
    name is the entry's: a class with an empty package gets the
    directory of the entry's name, which is not the empty path when the
    name is not empty.  The file of such a class is then written, by
    [generate], to the output directory, a slash, that directory, a
    slash and the file name, which is not the path of a file at the
    output root when the entry's name is not empty. *)
Theorem subDirectoryForPackage_empty
  (d : Driver.GeneratorPrivate) (w : World) (extractor : N)
  (values : list (list TypeEntry.t)) (args : list (string * string))
  (entry : TypeEntry.t) (clazz : AbstractMetaClass.t) :
  Driver.entryFound values = Some entry ->
  AbstractMetaClass.package clazz = "" ->
  Driver.subDirectoryForPackage separator d ""
  = Spec.dotsToSeparator separator (Driver.packageName d)
  /\ Driver.packageName
       (fst (Driver.after (setup (d, w) extractor values args)))
     = TypeEntry.name entry
  /\ Driver.subDirectoryForPackage separator
       (fst (Driver.after (setup (d, w) extractor values args))) ""
     = Spec.dotsToSeparator separator (TypeEntry.name entry)
  /\ Driver.subDirectoryForClass separator
       (fst (Driver.after (setup (d, w) extractor values args))) clazz
     = Spec.dotsToSeparator separator (TypeEntry.name entry)
  /\ (TypeEntry.name entry <> "" ->
      Driver.subDirectoryForClass separator
        (fst (Driver.after (setup (d, w) extractor values args))) clazz
      <> "")
  /\ (forall fileName,
        Driver.filePath separator
          (fst (Driver.after (setup (d, w) extractor values args)))
          clazz fileName
        = Driver.outDir d ++ "/"
          ++ Spec.dotsToSeparator separator (TypeEntry.name entry)
          ++ "/" ++ fileName)
  /\ (forall fileName,
        Driver.shouldGenerate GenerateTargetLang clazz = true ->
        fileNameForClass clazz = Some fileName ->
        snd (generate (Driver.after (setup (d, w) extractor values args))
                      [clazz])
        = finishGeneration
            (fst (writeClass
                    (snd (Driver.after (setup (d, w) extractor values args)))
                    (Driver.outDir d ++ "/"
                     ++ Spec.dotsToSeparator separator (TypeEntry.name entry)
                     ++ "/" ++ fileName)
                    clazz)))
  /\ (TypeEntry.name entry <> "" ->
      forall fileName,
        Driver.filePath separator
          (fst (Driver.after (setup (d, w) extractor values args)))
          clazz fileName
        <> Driver.outDir d ++ "/" ++ "" ++ "/" ++ fileName).
Proof.
  intros Hfound Hpackage.
  set (configured := fst (Driver.after (setup (d, w) extractor values args))).
  assert (Hname : Driver.packageName configured = TypeEntry.name entry).
  { unfold configured, Driver.setup. rewrite Hfound.
    now destruct (doSetup w args). }
  assert (Hout : Driver.outDir configured = Driver.outDir d).
  { unfold configured, Driver.setup. rewrite Hfound.
    now destruct (doSetup w args). }
  assert (Hempty : forall d', Driver.subDirectoryForPackage separator d' ""
                     = Spec.dotsToSeparator separator (Driver.packageName d'))
    by (intro d'; unfold Driver.subDirectoryForPackage; cbn [QStr.isEmpty];
        apply replace_dot).
  assert (Hclass :
    Driver.subDirectoryForClass separator configured clazz
    = Spec.dotsToSeparator separator (TypeEntry.name entry))
    by (unfold Driver.subDirectoryForClass; now rewrite Hpackage, Hempty, Hname).
  assert (Hpath : forall fileName,
    Driver.filePath separator configured clazz fileName
    = Driver.outDir d ++ "/"
      ++ Spec.dotsToSeparator separator (TypeEntry.name entry)
      ++ "/" ++ fileName)
    by (intro fileName; unfold Driver.filePath; now rewrite Hclass, Hout).
  split; [apply Hempty|].
  split; [exact Hname|].
  split; [now rewrite Hempty, Hname|].
  split; [exact Hclass|].
  split; [intro Hnonempty; rewrite Hclass;
          now apply dotsToSeparator_not_empty|].
  split; [exact Hpath|].
  split.
  - intros fileName Hshould Hfile.
    rewrite <- Hpath. fold configured.
    destruct (Driver.after (setup (d, w) extractor values args))
      as [d' w'] eqn:Eafter.
    unfold configured. cbn [fst snd].
    unfold Driver.generate, Driver.generateLoop. cbn [fold_left].
    unfold Driver.generateOne. rewrite Hshould, Hfile. cbn [negb].
    now destruct (writeClass w' (Driver.filePath separator d' clazz fileName)
                    clazz).
  - intros Hnonempty fileName. rewrite Hpath. intro Hsame.
    apply append_cancel_l in Hsame.
    change ("/" ++ Spec.dotsToSeparator separator (TypeEntry.name entry)
            ++ "/" ++ fileName)
      with (String "/" (Spec.dotsToSeparator separator (TypeEntry.name entry)
                        ++ "/" ++ fileName)) in Hsame.
    change ("/" ++ "" ++ "/" ++ fileName)
      with (String "/" ("/" ++ fileName)) in Hsame.
    injection Hsame as Hsame.
    apply (f_equal String.length) in Hsame.
    rewrite string_length_app in Hsame.
    apply (dotsToSeparator_not_empty separator _ Hnonempty).
    destruct (Spec.dotsToSeparator separator (TypeEntry.name entry));
      [reflexivity | cbn [String.length] in Hsame; lia].
Qed.

End PathFacts.

(** The type entries hold the package entry [a.b.c]: the file of
    [Widget], whose package is empty, is written to
    [out/a/b/c/Widget_wrapper.cpp]. *)
Lemma subDirectoryForPackage_empty_witness :
  Driver.entryFound Sample.allEntries = Some (Sample.packageEntry 6 "a.b.c")
  /\ AbstractMetaClass.package Sample.WidgetClass = ""
  /\ Driver.subDirectoryForClass "/"%char
       (fst (Driver.after
               (Driver.setup (list string) SampleMore.doSetup
                  (SampleMore.configured, []) 7 Sample.allEntries [])))
       Sample.WidgetClass
     = "a/b/c"
  /\ snd (Driver.generate "/"%char Sample.GenerateTargetLang (list string)
            Sample.fileNameForClass Sample.writeClass Sample.finishGeneration
            (Driver.after
               (Driver.setup (list string) SampleMore.doSetup
                  (SampleMore.configured, []) 7 Sample.allEntries []))
            [Sample.WidgetClass])
     = ["doSetup"; "out/a/b/c/Widget_wrapper.cpp"].
Proof.
  assert (H1 : Driver.entryFound Sample.allEntries
               = Some (Sample.packageEntry 6 "a.b.c")) by reflexivity.
  assert (H2 : AbstractMetaClass.package Sample.WidgetClass = "")
    by reflexivity.
  split; [exact H1 | split; [exact H2 |]].
  destruct (subDirectoryForPackage_empty "/"%char Sample.GenerateTargetLang
              (list string) Sample.fileNameForClass Sample.writeClass
              Sample.finishGeneration SampleMore.doSetup
              SampleMore.configured [] 7%N Sample.allEntries []
              (Sample.packageEntry 6 "a.b.c") Sample.WidgetClass H1 H2)
    as (_ & _ & _ & Hclass & _ & _ & Hgenerate & _).
  split; [exact Hclass|].
  exact (Hgenerate "Widget_wrapper.cpp" eq_refl eq_refl).
Defined.

(* ================================================================== *)
(** * The embedding at work *)
(* ================================================================== *)

Example arg_one_marker :
  QStr.arg "((%1*)0)" "Widget" = "((Widget*)0)".
Proof. reflexivity. Qed.

Example arg_two_markers :
  QStr.arg (QStr.arg "::%1(%2)" "Point") "((int)0), ((int)0)"
  = "::Point(((int)0), ((int)0))".
Proof. reflexivity. Qed.

Example split_lines_keeps_empty_parts :
  QStr.split_lines ("a" ++ String "010" ("" ++ String "010" "b"))
  = ["a"; ""; "b"].
Proof. reflexivity. Qed.

Example replace_all_occurrences :
  QStr.replace "%1" "x" "f(%1, %1)" = "f(x, x)".
Proof. reflexivity. Qed.

Example number_examples :
  QStr.number 0 = "0" /\ QStr.number 12 = "12" /\ QStr.number (-3) = "-3".
Proof. repeat split; reflexivity. Qed.

Example trimmed_example : QStr.trimmed "  a b  " = "a b".
Proof. reflexivity. Qed.

Example lastIndexOf_example :
  QStr.lastIndexOf "const" "const T const" = 8%Z
  /\ QStr.lastIndexOf "const" "int" = (-1)%Z.
Proof. split; reflexivity. Qed.

Example minimalConstructor_primitive :
  Synth.minimalConstructorEntry (Some Sample.int) = "((int)0)".
Proof. reflexivity. Qed.

(** A class whose only constructor takes two [int]: the first pass
    builds both arguments, in order. *)
Example minimalConstructorClass_two_ints :
  Synth.minimalConstructorClass Sample.cppSignature Sample.findClass
    Sample.queryConstructors 0 (Some Sample.PointClass)
  = Some "::Point(((int)0), ((int)0))".
Proof. reflexivity. Qed.

(** A class whose only constructor takes two [Point] by value: the first
    pass keeps it for the second one, which asks for a [Point] twice. *)
Example minimalConstructorClass_second_pass :
  Synth.minimalConstructorClass Sample.cppSignature Sample.findClass
    Sample.queryConstructors 1 (Some Sample.LineClass)
  = Some "::Line(::Point(((int)0), ((int)0)), ::Point(((int)0), ((int)0)))"
  /\ Synth.minimalConstructorClass Sample.cppSignature Sample.findClass
       Sample.queryConstructors 0 (Some Sample.LineClass)
     = None.
Proof. split; reflexivity. Qed.

Example translateType_no_option :
  Translate.translateType Sample.cppSignature Sample.EnumAsInts
    Sample.OriginalName Sample.ExcludeConst Sample.ExcludeReference
    (Some Sample.ConstWidgetReference) None Sample.NoOption
  = "const Widget &".
Proof. reflexivity. Qed.

Example formatCode_stream :
  Format.formatCode "" Sample.code ""
  = "int x;  " ++ Format.endl ++ Format.endl ++ "  y" ++ Format.endl.
Proof. reflexivity. Qed.

Example replaceTemplateVariables_example :
  Template.replaceTemplateVariables Sample.cppSignature Sample.EnumAsInts
    Sample.OriginalName Sample.ExcludeConst Sample.ExcludeReference
    Sample.NoOption Sample.SkipRemovedArguments Sample.SkipDefaultValues
    Sample.writeArgumentNames Sample.writeArgumentNames
    "%RETURN_TYPE %TYPE::%FUNCTION_NAME(%ARGUMENT_NAMES) uses %1"
    Sample.WidgetResize
  = "int Widget::resize(w) uses w".
Proof. reflexivity. Qed.

(* ================================================================== *)
(** * More about the synthesizer *)
(* ================================================================== *)

(** ** Place markers and texts without [%] *)

Lemma escapeAt_other (c : ascii) (rest : string) :
  Ascii.eqb c "%"%char = false -> QStr.escapeAt (String c rest) = None.
Proof.
  destruct c as [[] [] [] [] [] [] [] []]; intro H;
    first [discriminate H | reflexivity].
Qed.

Lemma minEscape_noPercent (name rest : string) :
  Shape.noPercent name = true ->
  QStr.minEscape (name ++ rest) = QStr.minEscape rest.
Proof.
  induction name as [|c name IH]; intro H; [reflexivity|].
  cbn [Shape.noPercent] in H. apply andb_true_iff in H.
  destruct H as [Hc Hname]. apply negb_true_iff in Hc.
  cbn [append QStr.minEscape].
  rewrite (escapeAt_other _ _ Hc). now apply IH.
Qed.

Lemma replaceEscapes_noPercent (n : nat) (a name rest : string) :
  Shape.noPercent name = true ->
  QStr.replaceEscapes n a 0 (name ++ rest)
  = name ++ QStr.replaceEscapes n a 0 rest.
Proof.
  induction name as [|c name IH]; intro H; [reflexivity|].
  cbn [Shape.noPercent] in H. apply andb_true_iff in H.
  destruct H as [Hc Hname]. apply negb_true_iff in Hc.
  cbn [append QStr.replaceEscapes].
  rewrite (escapeAt_other _ _ Hc). now rewrite IH.
Qed.

Lemma append_assoc (a b c : string) : (a ++ b) ++ c = a ++ b ++ c.
Proof. induction a as [|x a IH]; simpl; [reflexivity | now rewrite IH]. Qed.

(** With a class name free of [%] the two calls of [arg] fill the two
    markers of the format. *)
Lemma constructorCall_noPercent (metaClass : AbstractMetaClass.t)
  (args : list string) :
  Shape.noPercent (AbstractMetaClass.qualifiedCppName metaClass) = true ->
  Synth.constructorCall metaClass args
  = "::" ++ AbstractMetaClass.qualifiedCppName metaClass
    ++ "(" ++ QStr.join ", " args ++ ")".
Proof.
  intro Hname. unfold Synth.constructorCall.
  set (name := AbstractMetaClass.qualifiedCppName metaClass) in *.
  set (joined := QStr.join ", " args).
  change (QStr.arg "::%1(%2)" name) with (("::" ++ name) ++ "(%2)").
  assert (Hscoped : Shape.noPercent ("::" ++ name) = true) by exact Hname.
  unfold QStr.arg.
  rewrite (minEscape_noPercent _ _ Hscoped).
  change (QStr.minEscape "(%2)") with (Some 2). cbv beta iota.
  rewrite (replaceEscapes_noPercent _ _ _ _ Hscoped).
  change (QStr.replaceEscapes 2 joined 0 "(%2)") with ("(" ++ joined ++ ")").
  now rewrite append_assoc.
Qed.

(** [arg] leaves a leading [::] in place. *)
Lemma arg_keeps_scope (rest a : string) :
  QStr.startsWith (QStr.arg (String ":" (String ":" rest)) a) "::" = true.
Proof.
  unfold QStr.arg.
  assert (Hempty : forall s, prefix "" s = true) by (now intros []).
  destruct (QStr.minEscape (String ":" (String ":" rest)));
    [cbn [QStr.replaceEscapes QStr.escapeAt]|];
    unfold QStr.startsWith; simpl; apply Hempty.
Qed.

Lemma startsWith_scope (s : string) :
  QStr.startsWith s "::" = true -> exists rest, s = String ":" (String ":" rest).
Proof.
  unfold QStr.startsWith.
  destruct s as [|c [|d rest]]; cbn [prefix]; intro H; try discriminate H.
  - destruct (ascii_dec ":" c); discriminate H.
  - destruct (ascii_dec ":" c) as [<-|]; [|discriminate H].
    destruct (ascii_dec ":" d) as [<-|]; [|discriminate H].
    now exists rest.
Qed.

Lemma constructorCall_scoped (metaClass : AbstractMetaClass.t)
  (args : list string) :
  QStr.startsWith (Synth.constructorCall metaClass args) "::" = true.
Proof.
  unfold Synth.constructorCall.
  destruct (startsWith_scope _
              (arg_keeps_scope "%1(%2)"
                 (AbstractMetaClass.qualifiedCppName metaClass)))
    as [rest Hrest].
  change (QStr.arg "::%1(%2)" (AbstractMetaClass.qualifiedCppName metaClass))
    with (QStr.arg (String ":" (String ":" "%1(%2)"))
            (AbstractMetaClass.qualifiedCppName metaClass)).
  rewrite Hrest. apply arg_keeps_scope.
Qed.

(** ** Type entries *)

(** X1.  The entry overload fails exactly on the entries that are
    neither a primitive (built-in or user-defined), nor an enum, nor a
    flags type; a null entry fails too. *)
Theorem minimalConstructorEntry_fails (type : TypeEntry.t) :
  Synth.minimalConstructorEntry None = ""
  /\ (Synth.minimalConstructorEntry (Some type) = ""
      <-> TypeEntry.isCppPrimitive type = false
          /\ TypeEntry.isEnum type = false
          /\ TypeEntry.isFlags type = false
          /\ TypeEntry.isPrimitive type = false).
Proof.
  split; [reflexivity|]. unfold Synth.minimalConstructorEntry.
  destruct (TypeEntry.isCppPrimitive type).
  { split; [discriminate | intros (H & _); discriminate]. }
  destruct (TypeEntry.isEnum type); cbn [orb].
  { split; [discriminate | intros (_ & H & _); discriminate]. }
  destruct (TypeEntry.isFlags type); cbn [orb].
  { split; [discriminate | intros (_ & _ & H & _); discriminate]. }
  destruct (TypeEntry.isPrimitive type).
  - split; [|intros (_ & _ & _ & H); discriminate].
    destruct (TypeEntry.defaultConstructor type) eqn:E; cbn [QStr.isEmpty];
      discriminate.
  - split; [now repeat split | reflexivity].
Qed.

(** ** Type instantiations and classes *)

Section SynthesizerMore.

Variable cppSignature : AbstractMetaType.t -> string.
Variable findClass : TypeEntry.t -> option AbstractMetaClass.t.
Variable queryConstructors :
  AbstractMetaClass.t -> list AbstractMetaFunction.t.

Local Abbreviation minimalConstructor :=
  (Synth.minimalConstructor cppSignature findClass queryConstructors).
Local Abbreviation minimalConstructorClass :=
  (Synth.minimalConstructorClass cppSignature findClass queryConstructors).
Local Abbreviation minimalConstructorClassWith :=
  (Synth.minimalConstructorClassWith queryConstructors).

(** The type overload rejects a reference to an object type before it
    looks at anything else. *)
Lemma minimalConstructor_rejected (fuel : nat) (type : AbstractMetaType.t) :
  AbstractMetaType.isReference type && Synth.isObjectType type = true ->
  minimalConstructor fuel (Some type) = Some "".
Proof. intro H. destruct fuel; simpl; now rewrite H. Qed.

(** X2.  A pointer shape that is no container and no reference to an
    object type never fails and never looks a class up: for any number
    of indirections, also for a value pointer without indirection, the
    result is the cast of 0 to a pointer to the entry's qualified name,
    with the global-scope qualifier unless the type is a native
    pointer. *)
Theorem minimalConstructor_pointer_shape
  (fuel : nat) (type : AbstractMetaType.t) :
  AbstractMetaType.isContainer type = false ->
  AbstractMetaType.isReference type && Synth.isObjectType type = false ->
  Synth.isPointer type = true ->
  minimalConstructor fuel (Some type)
  = Some ((if AbstractMetaType.isNativePointer type then "((" else "((::")
          ++ TypeEntry.qualifiedCppName (AbstractMetaType.typeEntry type)
          ++ "*)0)").
Proof.
  intros Hcontainer Hguard Hpointer.
  destruct fuel; simpl; rewrite Hguard, Hcontainer, Hpointer;
    destruct (AbstractMetaType.isNativePointer type); reflexivity.
Qed.

(** *** More budget, same result *)

Section Budget.

Variables recur recur' : option AbstractMetaType.t -> option string.
Hypothesis extends : forall type r, recur type = Some r -> recur' type = Some r.
Variable metaClass : AbstractMetaClass.t.

Lemma firstPassArgs_extends (arguments : list AbstractMetaArgument.t) :
  forall args r,
  Synth.firstPassArgs recur metaClass arguments args = Some r ->
  Synth.firstPassArgs recur' metaClass arguments args = Some r.
Proof.
  induction arguments as [|arg rest IH]; intros args r; cbn -[String.eqb];
    [trivial|].
  destruct (TypeEntry.same _ _); [trivial|].
  destruct (negb (QStr.isEmpty _)); [trivial|].
  destruct (_ || _ || Synth.isPointer _); [|trivial].
  destruct (recur (Some (AbstractMetaArgument.type arg))) as [argValue|]
    eqn:E; [|discriminate].
  rewrite (extends _ _ E).
  destruct (QStr.isEmpty argValue); [trivial | apply IH].
Qed.

Lemma firstPassCount_extends (i : nat)
  (constructors : list AbstractMetaFunction.t) :
  forall candidates r,
  Synth.firstPassCount recur metaClass i constructors candidates = Some r ->
  Synth.firstPassCount recur' metaClass i constructors candidates = Some r.
Proof.
  induction constructors as [|ctor rest IH]; intros candidates r; simpl;
    [trivial|].
  destruct (Synth.skipped ctor); [apply IH|].
  destruct (negb _); [apply IH|].
  destruct (Synth.firstPassArgs recur metaClass _ []) as [args|] eqn:E;
    [|discriminate].
  rewrite (firstPassArgs_extends _ _ _ E).
  destruct args; [apply IH | trivial].
Qed.

Lemma firstPass_extends (counts : list nat)
  (constructors : list AbstractMetaFunction.t) :
  forall candidates r,
  Synth.firstPass recur metaClass counts constructors candidates = Some r ->
  Synth.firstPass recur' metaClass counts constructors candidates = Some r.
Proof.
  induction counts as [|i more IH]; intros candidates r; simpl; [trivial|].
  destruct (Synth.firstPassCount recur metaClass i constructors candidates)
    as [[call|pool]|] eqn:E; [| |discriminate];
    rewrite (firstPassCount_extends _ _ _ _ E); [trivial | apply IH].
Qed.

Lemma secondPassArgs_extends (arguments : list AbstractMetaArgument.t) :
  forall args r,
  Synth.secondPassArgs recur metaClass arguments args = Some r ->
  Synth.secondPassArgs recur' metaClass arguments args = Some r.
Proof.
  induction arguments as [|arg rest IH]; intros args r; simpl; [trivial|].
  destruct (TypeEntry.same _ _); [trivial|].
  destruct (recur (Some (AbstractMetaArgument.type arg))) as [argValue|]
    eqn:E; [|discriminate].
  rewrite (extends _ _ E).
  destruct (QStr.isEmpty argValue); [trivial | apply IH].
Qed.

Lemma secondPass_extends (candidates : list AbstractMetaFunction.t) :
  forall r,
  Synth.secondPass recur metaClass candidates = Some r ->
  Synth.secondPass recur' metaClass candidates = Some r.
Proof.
  induction candidates as [|ctor rest IH]; intro r; simpl; [trivial|].
  destruct (Synth.secondPassArgs recur metaClass _ []) as [args|] eqn:E;
    [|discriminate].
  rewrite (secondPassArgs_extends _ _ _ E).
  destruct args; [apply IH | trivial].
Qed.

End Budget.

Lemma minimalConstructorClassWith_extends
  (recur recur' : option AbstractMetaType.t -> option string) :
  (forall type r, recur type = Some r -> recur' type = Some r) ->
  forall metaClass r,
  minimalConstructorClassWith recur metaClass = Some r ->
  minimalConstructorClassWith recur' metaClass = Some r.
Proof.
  intros extends [metaClass|] r; [|trivial].
  unfold Synth.minimalConstructorClassWith.
  destruct (TypeEntry.hasDefaultConstructor _); [trivial|].
  destruct (Synth.maxArgsLoop _ 0 =? 0); [trivial|].
  destruct (Synth.firstPass recur metaClass _ _ [])
    as [[call|pool]|] eqn:E; [| |discriminate];
    rewrite (firstPass_extends _ _ extends _ _ _ _ _ E); [trivial|].
  apply secondPass_extends, extends.
Qed.

Lemma minimalConstructor_step (fuel : nat) :
  forall type r,
  minimalConstructor fuel type = Some r ->
  minimalConstructor (S fuel) type = Some r.
Proof.
  induction fuel as [|fuel IH]; intros [type|] r; try (simpl; trivial; fail).
  - simpl.
    destruct (_ && _); [trivial|].
    destruct (AbstractMetaType.isContainer type); [trivial|].
    destruct (AbstractMetaType.isNativePointer type); [trivial|].
    destruct (Synth.isPointer type); [trivial|].
    destruct (TypeEntry.isComplex _); [|trivial].
    destruct (QStr.isEmpty _); [discriminate | trivial].
  - change (minimalConstructor (S (S fuel)) (Some type))
      with (match Some type with
            | None => Some ""
            | Some type =>
                if AbstractMetaType.isReference type && Synth.isObjectType type
                then Some ""
                else if AbstractMetaType.isContainer type then
                  let ctor := cppSignature type in
                  if QStr.endsWith ctor "*" then Some "0"
                  else
                    let ctor :=
                      if QStr.startsWith ctor "const "
                      then QStr.remove 0 6 ctor else ctor in
                    let ctor :=
                      if QStr.endsWith ctor "&"
                      then QStr.trimmed (QStr.chop 1 ctor) else ctor in
                    Some (QStr.arg "::%1()" ctor)
                else if AbstractMetaType.isNativePointer type then
                  Some (QStr.arg "((%1*)0)"
                          (TypeEntry.qualifiedCppName
                             (AbstractMetaType.typeEntry type)))
                else if Synth.isPointer type then
                  Some (QStr.arg "((::%1*)0)"
                          (TypeEntry.qualifiedCppName
                             (AbstractMetaType.typeEntry type)))
                else if TypeEntry.isComplex (AbstractMetaType.typeEntry type)
                then
                  let cType := AbstractMetaType.typeEntry type in
                  let ctor := TypeEntry.defaultConstructor cType in
                  if QStr.isEmpty ctor then
                    minimalConstructorClassWith (minimalConstructor (S fuel))
                      (findClass cType)
                  else Some ctor
                else Some (Synth.minimalConstructorEntry
                             (Some (AbstractMetaType.typeEntry type)))
            end).
    cbn [Synth.minimalConstructor]. cbv zeta.
    destruct (_ && _); [trivial|].
    destruct (AbstractMetaType.isContainer type); [trivial|].
    destruct (AbstractMetaType.isNativePointer type); [trivial|].
    destruct (Synth.isPointer type); [trivial|].
    destruct (TypeEntry.isComplex _); [|trivial].
    destruct (QStr.isEmpty _); [|trivial].
    apply minimalConstructorClassWith_extends, IH.
Qed.

(** The recursion budget only decides whether a result is reached,
    never which one: what the type overload and the class overload
    return within some budget they return within every larger one. *)
Theorem minimalConstructor_budget (fuel fuel' : nat) :
  fuel <= fuel' ->
  (forall type r,
     minimalConstructor fuel type = Some r ->
     minimalConstructor fuel' type = Some r)
  /\ (forall metaClass r,
        minimalConstructorClass fuel metaClass = Some r ->
        minimalConstructorClass fuel' metaClass = Some r).
Proof.
  intro Hle.
  assert (Htype : forall type r,
            minimalConstructor fuel type = Some r ->
            minimalConstructor fuel' type = Some r).
  { induction Hle as [|fuel' _ IH]; intros type r H; [exact H|].
    apply minimalConstructor_step, IH, H. }
  split; [exact Htype|].
  intros metaClass r. unfold Synth.minimalConstructorClass.
  apply minimalConstructorClassWith_extends, Htype.
Qed.

End SynthesizerMore.

Section ClassSynthesisMore.

Variable cppSignature : AbstractMetaType.t -> string.
Variable findClass : TypeEntry.t -> option AbstractMetaClass.t.
Variable queryConstructors :
  AbstractMetaClass.t -> list AbstractMetaFunction.t.

Local Abbreviation minimalConstructor :=
  (Synth.minimalConstructor cppSignature findClass queryConstructors).
Local Abbreviation minimalConstructorClass :=
  (Synth.minimalConstructorClass cppSignature findClass queryConstructors).

(** *** What a call looks like *)

Lemma firstPassCount_returns
  (recur : option AbstractMetaType.t -> option string)
  (metaClass : AbstractMetaClass.t) (i : nat)
  (constructors : list AbstractMetaFunction.t) :
  forall candidates call,
  Synth.firstPassCount recur metaClass i constructors candidates
  = Some (Synth.Return call) ->
  exists args, call = Synth.constructorCall metaClass args.
Proof.
  induction constructors as [|ctor rest IH]; intros candidates call; simpl;
    [discriminate|].
  destruct (Synth.skipped ctor); [apply IH|].
  destruct (negb _); [apply IH|].
  destruct (Synth.firstPassArgs recur metaClass _ []) as [[|a args]|];
    [apply IH | | discriminate].
  intro H. injection H as <-. now exists (a :: args).
Qed.

Lemma firstPass_returns
  (recur : option AbstractMetaType.t -> option string)
  (metaClass : AbstractMetaClass.t) (counts : list nat)
  (constructors : list AbstractMetaFunction.t) :
  forall candidates call,
  Synth.firstPass recur metaClass counts constructors candidates
  = Some (Synth.Return call) ->
  exists args, call = Synth.constructorCall metaClass args.
Proof.
  induction counts as [|i more IH]; intros candidates call; simpl;
    [discriminate|].
  destruct (Synth.firstPassCount recur metaClass i constructors candidates)
    as [[call'|pool]|] eqn:E; [| apply IH | discriminate].
  intro H. injection H as <-. exact (firstPassCount_returns _ _ _ _ _ _ E).
Qed.

Lemma secondPass_returns
  (recur : option AbstractMetaType.t -> option string)
  (metaClass : AbstractMetaClass.t)
  (candidates : list AbstractMetaFunction.t) :
  forall r,
  Synth.secondPass recur metaClass candidates = Some r ->
  r = "" \/ exists args, r = Synth.constructorCall metaClass args.
Proof.
  induction candidates as [|ctor rest IH]; intro r; simpl.
  - intro H. injection H as <-. now left.
  - destruct (Synth.secondPassArgs recur metaClass _ []) as [[|a args]|];
      [apply IH | | discriminate].
    intro H. injection H as <-. right. now exists (a :: args).
Qed.

(** X4.  Without a declared default constructor, whatever the class
    overload returns is either the empty string, its failure value, or
    an expression that starts with the global-scope qualifier [::]. *)
Theorem minimalConstructorClass_scoped
  (fuel : nat) (metaClass : AbstractMetaClass.t) (r : string) :
  TypeEntry.hasDefaultConstructor (AbstractMetaClass.typeEntry metaClass)
    = false ->
  minimalConstructorClass fuel (Some metaClass) = Some r ->
  r = "" \/ QStr.startsWith r "::" = true.
Proof.
  intro Hdefault.
  unfold Synth.minimalConstructorClass, Synth.minimalConstructorClassWith.
  rewrite Hdefault.
  destruct (Synth.maxArgsLoop _ 0 =? 0).
  - intro H. injection H as <-. right. apply arg_keeps_scope.
  - destruct (Synth.firstPass _ metaClass _ _ []) as [[call|pool]|] eqn:E;
      [| | discriminate].
    + intro H. injection H as <-.
      destruct (firstPass_returns _ _ _ _ _ _ E) as [args ->].
      right. apply constructorCall_scoped.
    + intro H. destruct (secondPass_returns _ _ _ _ H) as [-> | [args ->]];
        [now left | right; apply constructorCall_scoped].
Qed.

(** *** Constructors that cannot be used *)

Lemma maxArgsLoop_positive (constructors : list AbstractMetaFunction.t) :
  Forall (fun ctor => Synth.skipped ctor = true
                      \/ AbstractMetaFunction.arguments ctor <> [])
         constructors ->
  forall maxArgs,
  (0 < maxArgs
   \/ Exists (fun ctor => Synth.skipped ctor = false) constructors) ->
  0 < Synth.maxArgsLoop constructors maxArgs.
Proof.
  induction 1 as [|ctor rest Hctor _ IH]; intros maxArgs Hmax; simpl.
  - destruct Hmax as [H|H]; [exact H | inversion H].
  - destruct (Synth.skipped ctor) eqn:Hskip.
    + apply IH. destruct Hmax as [H|H]; [now left|].
      inversion H; subst; [congruence | now right].
    + destruct Hctor as [Hs|Hargs]; [discriminate|].
      destruct (AbstractMetaFunction.arguments ctor) as [|a l];
        [contradiction|].
      cbn [List.length Nat.eqb].
      destruct (maxArgs <? S (List.length l)) eqn:Hlt; apply IH; left;
        [lia|].
      apply Nat.ltb_ge in Hlt. lia.
Qed.

Section Blocked.

Variable fuel : nat.
Variable metaClass : AbstractMetaClass.t.

Lemma firstPassArgs_blocked (arg : AbstractMetaArgument.t)
  (rest : list AbstractMetaArgument.t) :
  Shape.blockedArgument metaClass arg = true ->
  Synth.firstPassArgs (minimalConstructor fuel) metaClass (arg :: rest) []
  = Some [].
Proof.
  unfold Shape.blockedArgument. intro H. cbn -[String.eqb].
  destruct (TypeEntry.same _ _); [reflexivity|].
  cbn [orb] in H. apply andb_true_iff in H. destruct H as [H Hobject].
  apply andb_true_iff in H. destruct H as [Hempty Hreference].
  rewrite Hempty. cbn [negb].
  rewrite minimalConstructor_rejected by now rewrite Hreference, Hobject.
  now destruct (_ || _ || Synth.isPointer _).
Qed.

Lemma secondPassArgs_blocked (arg : AbstractMetaArgument.t)
  (rest : list AbstractMetaArgument.t) :
  Shape.blockedArgument metaClass arg = true ->
  Synth.secondPassArgs (minimalConstructor fuel) metaClass (arg :: rest) []
  = Some [].
Proof.
  unfold Shape.blockedArgument. intro H. simpl Synth.secondPassArgs.
  destruct (TypeEntry.same _ _); [reflexivity|].
  cbn [orb] in H. apply andb_true_iff in H. destruct H as [H Hobject].
  apply andb_true_iff in H. destruct H as [_ Hreference].
  now rewrite minimalConstructor_rejected by now rewrite Hreference, Hobject.
Qed.

Lemma firstPassCount_blocked (i : nat)
  (constructors : list AbstractMetaFunction.t) :
  Forall (fun ctor => Synth.skipped ctor = true
                      \/ Shape.blocked metaClass ctor = true) constructors ->
  forall candidates,
  Forall (fun ctor => Shape.blocked metaClass ctor = true) candidates ->
  exists pool,
    Synth.firstPassCount (minimalConstructor fuel) metaClass i constructors
      candidates = Some (Synth.Candidates pool)
    /\ Forall (fun ctor => Shape.blocked metaClass ctor = true) pool.
Proof.
  induction 1 as [|ctor rest Hctor _ IH]; intros candidates Hpool; simpl.
  - now exists candidates.
  - destruct (Synth.skipped ctor) eqn:Hskip; [now apply IH|].
    destruct Hctor as [Hs|Hblocked]; [discriminate|].
    destruct (negb _); [now apply IH|].
    unfold Shape.blocked in Hblocked.
    destruct (AbstractMetaFunction.arguments ctor) as [|arg args] eqn:Hargs;
      [discriminate|].
    rewrite (firstPassArgs_blocked _ _ Hblocked).
    apply IH. apply Forall_app. split; [exact Hpool|].
    constructor; [|constructor]. unfold Shape.blocked. now rewrite Hargs.
Qed.

Lemma firstPass_blocked (counts : list nat)
  (constructors : list AbstractMetaFunction.t) :
  Forall (fun ctor => Synth.skipped ctor = true
                      \/ Shape.blocked metaClass ctor = true) constructors ->
  forall candidates,
  Forall (fun ctor => Shape.blocked metaClass ctor = true) candidates ->
  exists pool,
    Synth.firstPass (minimalConstructor fuel) metaClass counts constructors
      candidates = Some (Synth.Candidates pool)
    /\ Forall (fun ctor => Shape.blocked metaClass ctor = true) pool.
Proof.
  intro Hctors.
  induction counts as [|i more IH]; intros candidates Hpool; simpl.
  - now exists candidates.
  - destruct (firstPassCount_blocked i _ Hctors _ Hpool) as (pool & -> & Hp).
    now apply IH.
Qed.

Lemma secondPass_blocked (candidates : list AbstractMetaFunction.t) :
  Forall (fun ctor => Shape.blocked metaClass ctor = true) candidates ->
  Synth.secondPass (minimalConstructor fuel) metaClass candidates = Some "".
Proof.
  induction 1 as [|ctor rest Hblocked _ IH]; simpl; [reflexivity|].
  unfold Shape.blocked in Hblocked.
  destruct (AbstractMetaFunction.arguments ctor) as [|arg args];
    [discriminate|].
  now rewrite (secondPassArgs_blocked _ _ Hblocked).
Qed.

End Blocked.

(** X5.  A class without a declared default constructor fails, within
    any budget, when it has a candidate constructor and the first
    argument of every candidate has the class's own type or is a
    reference to an object type without a declared default value: no
    candidate survives either pass. *)
Theorem minimalConstructorClass_blocked
  (fuel : nat) (metaClass : AbstractMetaClass.t) :
  TypeEntry.hasDefaultConstructor (AbstractMetaClass.typeEntry metaClass)
    = false ->
  Forall (fun ctor => Synth.skipped ctor = true
                      \/ Shape.blocked metaClass ctor = true)
         (queryConstructors metaClass) ->
  Exists (fun ctor => Synth.skipped ctor = false)
         (queryConstructors metaClass) ->
  minimalConstructorClass fuel (Some metaClass) = Some "".
Proof.
  intros Hdefault Hblocked Hcandidate.
  unfold Synth.minimalConstructorClass, Synth.minimalConstructorClassWith.
  rewrite Hdefault.
  assert (Hmax : 0 < Synth.maxArgsLoop (queryConstructors metaClass) 0).
  { apply maxArgsLoop_positive; [|now right].
    eapply Forall_impl; [|exact Hblocked].
    intros ctor [Hs|Hb]; [now left | right].
    unfold Shape.blocked in Hb.
    now destruct (AbstractMetaFunction.arguments ctor). }
  destruct (Synth.maxArgsLoop (queryConstructors metaClass) 0 =? 0) eqn:E;
    [apply Nat.eqb_eq in E; lia|].
  destruct (firstPass_blocked fuel metaClass
              (seq 1 (Synth.maxArgsLoop (queryConstructors metaClass) 0))
              _ Hblocked [] (Forall_nil _)) as (pool & -> & Hpool).
  now apply secondPass_blocked.
Qed.

End ClassSynthesisMore.

Section PrimitiveConstructor.

Variable cppSignature : AbstractMetaType.t -> string.
Variable findClass : TypeEntry.t -> option AbstractMetaClass.t.
Variable queryConstructors :
  AbstractMetaClass.t -> list AbstractMetaFunction.t.

Local Abbreviation minimalConstructor :=
  (Synth.minimalConstructor cppSignature findClass queryConstructors).
Local Abbreviation minimalConstructorClass :=
  (Synth.minimalConstructorClass cppSignature findClass queryConstructors).

Variable fuel : nat.
Variable metaClass : AbstractMetaClass.t.

Lemma minimalConstructor_primitiveArgument (arg : AbstractMetaArgument.t) :
  Shape.primitiveArgument metaClass arg = true ->
  minimalConstructor fuel (Some (AbstractMetaArgument.type arg))
  = Some (Shape.zeroCast arg).
Proof.
  unfold Shape.primitiveArgument. intro H.
  repeat (apply andb_true_iff in H; destruct H as [H ?]).
  repeat match goal with
         | Hn : negb _ = true |- _ => apply negb_true_iff in Hn
         end.
  assert (Hnative : AbstractMetaType.isNativePointer
                      (AbstractMetaArgument.type arg) = false).
  { match goal with
    | Hp : Synth.isPointer _ = false |- _ =>
        unfold Synth.isPointer in Hp; apply orb_false_iff in Hp;
        destruct Hp as [Hp _]; apply orb_false_iff in Hp; apply Hp
    end. }
  destruct fuel; simpl;
    repeat match goal with Hc : _ = false |- _ => rewrite Hc; clear Hc end;
    unfold Synth.minimalConstructorEntry;
    match goal with Hp : TypeEntry.isCppPrimitive _ = true |- _ => rewrite Hp end;
    reflexivity.
Qed.

Lemma firstPassArgs_primitive (arguments : list AbstractMetaArgument.t) :
  forallb (Shape.primitiveArgument metaClass) arguments = true ->
  forall args,
  Synth.firstPassArgs (minimalConstructor fuel) metaClass arguments args
  = Some (args ++ map Shape.zeroCast arguments)%list.
Proof.
  induction arguments as [|arg rest IH]; intros H args.
  - simpl. now rewrite app_nil_r.
  - cbn [forallb] in H. apply andb_true_iff in H. destruct H as [Harg Hrest].
    cbn -[String.eqb Synth.minimalConstructor].
    rewrite (minimalConstructor_primitiveArgument _ Harg).
    unfold Shape.primitiveArgument in Harg.
    repeat (apply andb_true_iff in Harg; destruct Harg as [Harg ?]).
    repeat match goal with
           | Hn : negb _ = true |- _ => apply negb_true_iff in Hn
           end.
    match goal with Hs : TypeEntry.same _ _ = false |- _ => rewrite Hs end.
    match goal with Hd : QStr.isEmpty _ = true |- _ => rewrite Hd end.
    match goal with Hp : TypeEntry.isCppPrimitive _ = true |- _ => rewrite Hp end.
    cbn [negb orb]. unfold Shape.zeroCast at 1. cbn [append QStr.isEmpty].
    rewrite (IH Hrest). cbn [map]. now rewrite <- app_assoc.
Qed.

Lemma maxArgsLoop_skip (skippedOnes rest : list AbstractMetaFunction.t) :
  Forall (fun ctor => Synth.skipped ctor = true) skippedOnes ->
  forall maxArgs,
  Synth.maxArgsLoop (skippedOnes ++ rest) maxArgs
  = Synth.maxArgsLoop rest maxArgs.
Proof.
  induction 1 as [|ctor l Hskip _ IH]; intro maxArgs; simpl;
    [reflexivity | now rewrite Hskip].
Qed.

Lemma firstPassCount_skip
  (recur : option AbstractMetaType.t -> option string) (i : nat)
  (skippedOnes rest : list AbstractMetaFunction.t) :
  Forall (fun ctor => Synth.skipped ctor = true) skippedOnes ->
  forall candidates,
  Synth.firstPassCount recur metaClass i (skippedOnes ++ rest) candidates
  = Synth.firstPassCount recur metaClass i rest candidates.
Proof.
  induction 1 as [|ctor l Hskip _ IH]; intro candidates; simpl;
    [reflexivity | now rewrite Hskip].
Qed.

(** X6.  Let a class without a declared default constructor have one
    candidate constructor only (every other constructor being private,
    a copy constructor or user-added), with at least one argument, every
    argument a built-in primitive passed by value without a declared
    default value, and let the class name hold no [%].  The class
    overload returns, within any budget, the call of that constructor
    on the zero-value casts of its argument types, in the order of the
    arguments. *)
Theorem minimalConstructorClass_primitive_arguments
  (before after : list AbstractMetaFunction.t)
  (ctor : AbstractMetaFunction.t) :
  TypeEntry.hasDefaultConstructor (AbstractMetaClass.typeEntry metaClass)
    = false ->
  queryConstructors metaClass = (before ++ ctor :: after)%list ->
  Forall (fun c => Synth.skipped c = true) before ->
  Forall (fun c => Synth.skipped c = true) after ->
  Synth.skipped ctor = false ->
  AbstractMetaFunction.arguments ctor <> [] ->
  forallb (Shape.primitiveArgument metaClass)
          (AbstractMetaFunction.arguments ctor) = true ->
  Shape.noPercent (AbstractMetaClass.qualifiedCppName metaClass) = true ->
  minimalConstructorClass fuel (Some metaClass)
  = Some ("::" ++ AbstractMetaClass.qualifiedCppName metaClass ++ "("
          ++ QStr.join ", "
               (map Shape.zeroCast (AbstractMetaFunction.arguments ctor))
          ++ ")").
Proof.
  intros Hdefault Hctors Hbefore Hafter Hcandidate Hnonempty Hprimitive Hname.
  unfold Synth.minimalConstructorClass, Synth.minimalConstructorClassWith.
  rewrite Hdefault, Hctors.
  set (n := List.length (AbstractMetaFunction.arguments ctor)).
  assert (Hn : 0 < n)
    by (unfold n; destruct (AbstractMetaFunction.arguments ctor);
        [contradiction | simpl; lia]).
  assert (Hmax : Synth.maxArgsLoop (before ++ ctor :: after) 0 = n).
  { rewrite (maxArgsLoop_skip _ _ Hbefore). cbn [Synth.maxArgsLoop].
    rewrite Hcandidate. fold n.
    destruct (n =? 0) eqn:E0; [apply Nat.eqb_eq in E0; lia|].
    destruct (0 <? n) eqn:E1; [|apply Nat.ltb_ge in E1; lia].
    apply maxArgsLoop_all_skipped, Hafter. }
  rewrite Hmax.
  destruct (n =? 0) eqn:E0; [apply Nat.eqb_eq in E0; lia|].
  assert (Hcount : forall i,
    Synth.firstPassCount (minimalConstructor fuel) metaClass i
      (before ++ ctor :: after) []
    = if i =? n
      then Some (Synth.Return
                   (Synth.constructorCall metaClass
                      (map Shape.zeroCast
                         (AbstractMetaFunction.arguments ctor))))
      else Some (Synth.Candidates [])).
  { intro i. rewrite (firstPassCount_skip _ _ _ _ Hbefore).
    cbn [Synth.firstPassCount]. rewrite Hcandidate. fold n.
    rewrite (Nat.eqb_sym n i).
    assert (Hrest : forall pool,
              Synth.firstPassCount (minimalConstructor fuel) metaClass i
                after pool = Some (Synth.Candidates pool)).
    { intro pool.
      rewrite <- (app_nil_r after), (firstPassCount_skip _ _ _ _ Hafter).
      reflexivity. }
    destruct (i =? n); cbn [negb]; [|apply Hrest].
    rewrite (firstPassArgs_primitive _ Hprimitive). cbn [app].
    destruct (AbstractMetaFunction.arguments ctor); [contradiction|].
    reflexivity. }
  assert (Hpass : forall counts, In n counts ->
    Synth.firstPass (minimalConstructor fuel) metaClass counts
      (before ++ ctor :: after) []
    = Some (Synth.Return
              (Synth.constructorCall metaClass
                 (map Shape.zeroCast (AbstractMetaFunction.arguments ctor))))).
  { induction counts as [|i more IH]; intro Hin; [contradiction|].
    cbn [Synth.firstPass]. rewrite Hcount.
    destruct (i =? n) eqn:E; [reflexivity|].
    apply IH. destruct Hin as [->|Hin]; [|exact Hin].
    rewrite Nat.eqb_refl in E. discriminate. }
  rewrite Hpass by (apply in_seq; lia).
  now rewrite (constructorCall_noPercent _ _ Hname).
Qed.

End PrimitiveConstructor.

Lemma minimalConstructor_pointer_shape_witness :
  AbstractMetaType.isContainer SampleMore.WidgetValuePointer = false
  /\ AbstractMetaType.isReference SampleMore.WidgetValuePointer
     && Synth.isObjectType SampleMore.WidgetValuePointer = false
  /\ Synth.isPointer SampleMore.WidgetValuePointer = true
  /\ Synth.minimalConstructor Sample.cppSignature Sample.findClass
       Sample.queryConstructors 0 (Some SampleMore.WidgetValuePointer)
     = Some "((::Widget*)0)".
Proof.
  assert (H1 : AbstractMetaType.isContainer SampleMore.WidgetValuePointer
               = false) by reflexivity.
  assert (H2 : AbstractMetaType.isReference SampleMore.WidgetValuePointer
               && Synth.isObjectType SampleMore.WidgetValuePointer = false)
    by reflexivity.
  assert (H3 : Synth.isPointer SampleMore.WidgetValuePointer = true)
    by reflexivity.
  repeat (split; [assumption|]).
  exact (minimalConstructor_pointer_shape Sample.cppSignature
           Sample.findClass Sample.queryConstructors 0
           SampleMore.WidgetValuePointer H1 H2 H3).
Defined.

(** [Line(Point, Point)] needs one level of recursion; with two the
    result is the same. *)
Lemma minimalConstructor_budget_witness :
  1 <= 2
  /\ Synth.minimalConstructorClass Sample.cppSignature Sample.findClass
       Sample.queryConstructors 1 (Some Sample.LineClass)
     = Some "::Line(::Point(((int)0), ((int)0)), ::Point(((int)0), ((int)0)))"
  /\ Synth.minimalConstructorClass Sample.cppSignature Sample.findClass
       Sample.queryConstructors 2 (Some Sample.LineClass)
     = Some "::Line(::Point(((int)0), ((int)0)), ::Point(((int)0), ((int)0)))".
Proof.
  assert (H1 : 1 <= 2) by lia.
  assert (H2 : Synth.minimalConstructorClass Sample.cppSignature
                 Sample.findClass Sample.queryConstructors 1
                 (Some Sample.LineClass)
               = Some "::Line(::Point(((int)0), ((int)0)), ::Point(((int)0), ((int)0)))")
    by reflexivity.
  split; [exact H1 | split; [exact H2 |]].
  exact (proj2 (minimalConstructor_budget Sample.cppSignature
                  Sample.findClass Sample.queryConstructors 1 2 H1)
               (Some Sample.LineClass) _ H2).
Defined.

Lemma minimalConstructorClass_scoped_witness :
  TypeEntry.hasDefaultConstructor
    (AbstractMetaClass.typeEntry Sample.PointClass) = false
  /\ Synth.minimalConstructorClass Sample.cppSignature Sample.findClass
       Sample.queryConstructors 0 (Some Sample.PointClass)
     = Some "::Point(((int)0), ((int)0))"
  /\ ("::Point(((int)0), ((int)0))" = ""
      \/ QStr.startsWith "::Point(((int)0), ((int)0))" "::" = true).
Proof.
  assert (H1 : TypeEntry.hasDefaultConstructor
                 (AbstractMetaClass.typeEntry Sample.PointClass) = false)
    by reflexivity.
  assert (H2 : Synth.minimalConstructorClass Sample.cppSignature
                 Sample.findClass Sample.queryConstructors 0
                 (Some Sample.PointClass)
               = Some "::Point(((int)0), ((int)0))") by reflexivity.
  split; [exact H1 | split; [exact H2 |]].
  exact (minimalConstructorClass_scoped Sample.cppSignature Sample.findClass
           Sample.queryConstructors 0 Sample.PointClass _ H1 H2).
Defined.

(** [Node(Node *parent)] and [Node(Widget &owner, int n)]: no
    constructor can be used. *)
Lemma minimalConstructorClass_blocked_witness :
  TypeEntry.hasDefaultConstructor
    (AbstractMetaClass.typeEntry SampleMore.NodeClass) = false
  /\ Forall (fun ctor => Synth.skipped ctor = true
                         \/ Shape.blocked SampleMore.NodeClass ctor = true)
            (SampleMore.queryConstructors SampleMore.NodeClass)
  /\ Exists (fun ctor => Synth.skipped ctor = false)
            (SampleMore.queryConstructors SampleMore.NodeClass)
  /\ Synth.minimalConstructorClass Sample.cppSignature SampleMore.findClass
       SampleMore.queryConstructors 3 (Some SampleMore.NodeClass)
     = Some "".
Proof.
  assert (H1 : TypeEntry.hasDefaultConstructor
                 (AbstractMetaClass.typeEntry SampleMore.NodeClass) = false)
    by reflexivity.
  assert (H2 : Forall (fun ctor => Synth.skipped ctor = true
                         \/ Shape.blocked SampleMore.NodeClass ctor = true)
                      (SampleMore.queryConstructors SampleMore.NodeClass))
    by (repeat constructor).
  assert (H3 : Exists (fun ctor => Synth.skipped ctor = false)
                      (SampleMore.queryConstructors SampleMore.NodeClass))
    by (apply Exists_cons_hd; reflexivity).
  repeat (split; [assumption|]).
  exact (minimalConstructorClass_blocked Sample.cppSignature
           SampleMore.findClass SampleMore.queryConstructors 3
           SampleMore.NodeClass H1 H2 H3).
Defined.

Lemma minimalConstructorClass_primitive_arguments_witness :
  Sample.queryConstructors Sample.PointClass = ([] ++ [Sample.PointTwoInts])%list
  /\ forallb (Shape.primitiveArgument Sample.PointClass)
             (AbstractMetaFunction.arguments Sample.PointTwoInts) = true
  /\ Shape.noPercent (AbstractMetaClass.qualifiedCppName Sample.PointClass)
     = true
  /\ Synth.minimalConstructorClass Sample.cppSignature Sample.findClass
       Sample.queryConstructors 0 (Some Sample.PointClass)
     = Some "::Point(((int)0), ((int)0))".
Proof.
  assert (H1 : Sample.queryConstructors Sample.PointClass
               = ([] ++ [Sample.PointTwoInts])%list) by reflexivity.
  assert (H2 : forallb (Shape.primitiveArgument Sample.PointClass)
                 (AbstractMetaFunction.arguments Sample.PointTwoInts) = true)
    by reflexivity.
  assert (H3 : Shape.noPercent
                 (AbstractMetaClass.qualifiedCppName Sample.PointClass) = true)
    by reflexivity.
  repeat (split; [assumption|]).
  exact (minimalConstructorClass_primitive_arguments Sample.cppSignature
           Sample.findClass Sample.queryConstructors 0 Sample.PointClass
           [] [] Sample.PointTwoInts eq_refl H1 (Forall_nil _) (Forall_nil _)
           eq_refl ltac:(discriminate) H2 H3).
Defined.

(* ================================================================== *)
(** * More about the type translator *)
(* ================================================================== *)

Lemma testFlag_empty (flag : Z) : Translate.testFlag 0 flag = false.
Proof. unfold Translate.testFlag. now rewrite Z.land_0_l. Qed.

Lemma reverse_append (a b : string) :
  QStr.reverse (a ++ b) = QStr.reverse b ++ QStr.reverse a.
Proof.
  induction a as [|c a IH]; simpl.
  - now rewrite append_empty_r.
  - now rewrite IH, append_assoc.
Qed.

Lemma length_append (a b : string) :
  String.length (a ++ b) = String.length a + String.length b.
Proof. induction a as [|c a IH]; simpl; [reflexivity | now rewrite IH]. Qed.

Lemma substring_whole (s : string) : substring 0 (String.length s) s = s.
Proof. induction s as [|c s IH]; simpl; [reflexivity | now rewrite IH]. Qed.

Lemma substring_nothing (s : string) : substring 0 0 s = "".
Proof. now destruct s. Qed.

Lemma substring_prefix (a b : string) :
  substring 0 (String.length a) (a ++ b) = a.
Proof.
  induction a as [|c a IH]; simpl; [apply substring_nothing | now rewrite IH].
Qed.

Lemma substring_skip (a b : string) (k n : nat) :
  substring (String.length a + k) n (a ++ b) = substring k n b.
Proof. induction a as [|c a IH]; simpl; [reflexivity | exact IH]. Qed.

Lemma lastIndexOf_const_at_end (base : string) :
  QStr.lastIndexOf "const" (base ++ "const") = Z.of_nat (String.length base).
Proof.
  induction base as [|c base IH]; [reflexivity|].
  cbn [append QStr.lastIndexOf String.length]. rewrite IH.
  destruct (0 <=? Z.of_nat (String.length base))%Z eqn:E;
    [lia | apply Z.leb_gt in E; lia].
Qed.

Section TranslatorMore.

Variable cppSignature : AbstractMetaType.t -> string.
Variables EnumAsInts OriginalName ExcludeConst ExcludeReference : Z.

Local Abbreviation translateType :=
  (Translate.translateType cppSignature EnumAsInts OriginalName
     ExcludeConst ExcludeReference).

(** X7.  With the empty option set, whatever values the option constants
    have, a type that is no array renders as its canonical signature
    (inside a generic class, as that of the template type it came from),
    and an array renders as its element type followed by [[]]. *)
Theorem translateType_without_options
  (cType : AbstractMetaType.t) (context : option AbstractMetaClass.t) :
  (AbstractMetaType.isArray (Translate.resolved cType context) = false ->
   translateType (Some cType) context 0
   = cppSignature (Translate.resolved cType context))
  /\ (AbstractMetaType.isArray (Translate.resolved cType context) = true ->
      translateType (Some cType) context 0
      = translateType
          (AbstractMetaType.arrayElementType
             (Translate.resolved cType context)) context 0 ++ "[]").
Proof.
  split; intro Harray.
  - rewrite (translateType_resolved _ _ _ _ _ _ _ _ Harray). cbv zeta.
    now rewrite !testFlag_empty.
  - unfold Translate.translateType.
    destruct cType; unfold Translate.resolved in *; simpl in *.
    destruct context as [context|]; simpl in *.
    + destruct (TypeEntry.isGenericClass
                  (AbstractMetaClass.typeEntry context)).
      * destruct originalTemplateType as [original|]; simpl in *;
          rewrite Harray;
          [destruct (AbstractMetaType.arrayElementType original)
          | destruct arrayElementType]; reflexivity.
      * rewrite Harray. destruct arrayElementType; reflexivity.
    + rewrite Harray. destruct arrayElementType; reflexivity.
Qed.

(** X8.  Under [OriginalName] and [ExcludeConst] (without
    [ExcludeReference]), when the trimmed original description does not
    hold the word [const]: a description of more than five characters is
    returned as it is, a shorter one loses its last character, because
    the position -1 of the failed search passes the test on the position
    and [remove] counts it from the end. *)
Theorem translateType_original_name_without_const
  (cType : AbstractMetaType.t) (context : option AbstractMetaClass.t)
  (options : Z) :
  AbstractMetaType.isArray (Translate.resolved cType context) = false ->
  Translate.testFlag options EnumAsInts
  && (AbstractMetaType.isEnum (Translate.resolved cType context)
      || AbstractMetaType.isFlags (Translate.resolved cType context))
  = false ->
  Translate.testFlag options OriginalName = true ->
  Translate.testFlag options ExcludeConst = true ->
  Translate.testFlag options ExcludeReference = false ->
  QStr.lastIndexOf "const"
    (QStr.trimmed (AbstractMetaType.originalTypeDescription
                     (Translate.resolved cType context))) = (-1)%Z ->
  translateType (Some cType) context options
  = let s := QStr.trimmed (AbstractMetaType.originalTypeDescription
                             (Translate.resolved cType context)) in
    if String.length s <=? 5 then QStr.chop 1 s else s.
Proof.
  intros Harray Henum Horiginal Hconst Hreference Hindex.
  rewrite (translateType_resolved _ _ _ _ _ _ _ _ Harray). cbv zeta.
  rewrite Henum, Horiginal. unfold Translate.originalName.
  rewrite Hreference, Hconst. cbn [andb]. rewrite Hindex.
  set (s := QStr.trimmed _).
  destruct (String.length s <=? 5) eqn:Hshort.
  - apply Nat.leb_le in Hshort.
    replace (Z.of_nat (String.length s) - (5 + 1) <=? -1)%Z with true
      by (symmetry; apply Z.leb_le; lia).
    unfold QStr.remove, QStr.chop. cbn [Z.ltb Z.compare].
    destruct s as [|c s']; [reflexivity|].
    cbn [String.length] in *.
    replace (-1 + Z.of_nat (S (String.length s')) <? 0)%Z with false
      by (symmetry; apply Z.ltb_ge; lia).
    replace (Z.of_nat (S (String.length s'))
             <=? -1 + Z.of_nat (S (String.length s')))%Z with false
      by (symmetry; apply Z.leb_gt; lia).
    cbn [orb].
    replace (Z.of_nat (S (String.length s'))
             - (-1 + Z.of_nat (S (String.length s'))) <=? 5)%Z with true
      by (symmetry; apply Z.leb_le; lia).
    f_equal. lia.
  - apply Nat.leb_gt in Hshort.
    replace (Z.of_nat (String.length s) - (5 + 1) <=? -1)%Z with false
      by (symmetry; apply Z.leb_gt; lia).
    reflexivity.
Qed.

(** X9.  Under [OriginalName] and [ExcludeConst], a trimmed original
    description that ends in the word [const] is returned without that
    word; what stands before it, a blank included, is kept. *)
Theorem translateType_original_name_trailing_const
  (cType : AbstractMetaType.t) (context : option AbstractMetaClass.t)
  (options : Z) (base : string) :
  AbstractMetaType.isArray (Translate.resolved cType context) = false ->
  Translate.testFlag options EnumAsInts
  && (AbstractMetaType.isEnum (Translate.resolved cType context)
      || AbstractMetaType.isFlags (Translate.resolved cType context))
  = false ->
  Translate.testFlag options OriginalName = true ->
  Translate.testFlag options ExcludeConst = true ->
  QStr.trimmed (AbstractMetaType.originalTypeDescription
                  (Translate.resolved cType context)) = base ++ "const" ->
  translateType (Some cType) context options = base.
Proof.
  intros Harray Henum Horiginal Hconst Hdescription.
  rewrite (translateType_resolved _ _ _ _ _ _ _ _ Harray). cbv zeta.
  rewrite Henum, Horiginal. unfold Translate.originalName.
  rewrite Hdescription, Hconst.
  assert (Hend : QStr.endsWith (base ++ "const") "&" = false).
  { unfold QStr.endsWith. rewrite reverse_append. reflexivity. }
  rewrite Hend, andb_false_r, lastIndexOf_const_at_end, length_append.
  cbn [String.length].
  replace (Z.of_nat (String.length base + 5) - (5 + 1)
           <=? Z.of_nat (String.length base))%Z with true
    by (symmetry; apply Z.leb_le; lia).
  assert (Hlt : (Z.of_nat (String.length base) <? 0)%Z = false)
    by (apply Z.ltb_ge; lia).
  assert (Hle : (Z.of_nat (String.length base + 5)
                 <=? Z.of_nat (String.length base))%Z = false)
    by (apply Z.leb_gt; lia).
  assert (Hcut : (Z.of_nat (String.length base + 5)
                  - Z.of_nat (String.length base) <=? 5)%Z = true)
    by (apply Z.leb_le; lia).
  unfold QStr.remove. rewrite length_append. cbn [String.length]. cbv zeta.
  rewrite !Hlt, Hle, Hcut. cbn [orb].
  rewrite Nat2Z.id. apply substring_prefix.
Qed.

End TranslatorMore.

Lemma translateType_without_options_witness :
  AbstractMetaType.isArray
    (Translate.resolved Sample.ConstWidgetReference None) = false
  /\ Translate.translateType Sample.cppSignature Sample.EnumAsInts
       Sample.OriginalName Sample.ExcludeConst Sample.ExcludeReference
       (Some Sample.ConstWidgetReference) None 0
     = "const Widget &".
Proof.
  assert (H : AbstractMetaType.isArray
                (Translate.resolved Sample.ConstWidgetReference None) = false)
    by reflexivity.
  split; [exact H|].
  exact (proj1 (translateType_without_options Sample.cppSignature
                  Sample.EnumAsInts Sample.OriginalName Sample.ExcludeConst
                  Sample.ExcludeReference Sample.ConstWidgetReference None) H).
Defined.

(** The description [int] under [OriginalName | ExcludeConst] comes out
    as [in]. *)
Lemma translateType_original_name_without_const_witness :
  QStr.lastIndexOf "const"
    (QStr.trimmed (AbstractMetaType.originalTypeDescription
                     (Translate.resolved SampleMore.describedInt None)))
  = (-1)%Z
  /\ Translate.translateType Sample.cppSignature Sample.EnumAsInts
       Sample.OriginalName Sample.ExcludeConst Sample.ExcludeReference
       (Some SampleMore.describedInt) None
       (Z.lor Sample.OriginalName Sample.ExcludeConst)
     = "in".
Proof.
  assert (H : QStr.lastIndexOf "const"
                (QStr.trimmed (AbstractMetaType.originalTypeDescription
                   (Translate.resolved SampleMore.describedInt None)))
              = (-1)%Z) by reflexivity.
  split; [exact H|].
  exact (translateType_original_name_without_const Sample.cppSignature
           Sample.EnumAsInts Sample.OriginalName Sample.ExcludeConst
           Sample.ExcludeReference SampleMore.describedInt None
           (Z.lor Sample.OriginalName Sample.ExcludeConst)
           eq_refl eq_refl eq_refl eq_refl eq_refl H).
Defined.

(** The description [Widget const] comes out as [Widget] and a blank. *)
Lemma translateType_original_name_trailing_const_witness :
  QStr.trimmed (AbstractMetaType.originalTypeDescription
                  (Translate.resolved SampleMore.describedConst None))
  = "Widget " ++ "const"
  /\ Translate.translateType Sample.cppSignature Sample.EnumAsInts
       Sample.OriginalName Sample.ExcludeConst Sample.ExcludeReference
       (Some SampleMore.describedConst) None
       (Z.lor Sample.OriginalName Sample.ExcludeConst)
     = "Widget ".
Proof.
  assert (H : QStr.trimmed (AbstractMetaType.originalTypeDescription
                (Translate.resolved SampleMore.describedConst None))
              = "Widget " ++ "const") by reflexivity.
  split; [exact H|].
  exact (translateType_original_name_trailing_const Sample.cppSignature
           Sample.EnumAsInts Sample.OriginalName Sample.ExcludeConst
           Sample.ExcludeReference SampleMore.describedConst None
           (Z.lor Sample.OriginalName Sample.ExcludeConst) "Widget "
           eq_refl eq_refl eq_refl eq_refl H).
Defined.

(* ================================================================== *)
(** * Module, package and target names *)
(* ================================================================== *)

Lemma lastIndexOf_noDot (s : string) :
  Shape.noDot s = true -> QStr.lastIndexOf "." s = (-1)%Z.
Proof.
  induction s as [|c s IH]; [reflexivity|].
  cbn [Shape.noDot]. intro H. apply andb_true_iff in H.
  destruct H as [Hc Hs]. apply negb_true_iff in Hc.
  cbn [QStr.lastIndexOf prefix]. rewrite (IH Hs). cbn [Z.leb Z.compare].
  destruct (ascii_dec "." c) as [<-|]; [discriminate Hc | reflexivity].
Qed.

Lemma lastIndexOf_last_dot (a b : string) :
  Shape.noDot b = true ->
  QStr.lastIndexOf "." (a ++ String "." b) = Z.of_nat (String.length a).
Proof.
  intro Hb. induction a as [|c a IH].
  - cbn [append QStr.lastIndexOf prefix String.length].
    rewrite (lastIndexOf_noDot _ Hb). cbn [Z.leb Z.compare].
    destruct (ascii_dec "." "."); [now destruct b | contradiction].
  - cbn [append QStr.lastIndexOf String.length]. rewrite IH.
    destruct (0 <=? Z.of_nat (String.length a))%Z eqn:E;
      [lia | apply Z.leb_gt in E; lia].
Qed.

(** X10.  [moduleName] is the part of the package name after its last
    dot: the whole name when it has no dot, and [b] for a package name
    [a.b] in which [b] has no dot (the empty name when the package name
    ends in a dot). *)
Theorem moduleName_after_last_dot (d : Driver.GeneratorPrivate) :
  (Shape.noDot (Driver.packageName d) = true ->
   Driver.moduleName d = Driver.packageName d)
  /\ (forall a b,
        Driver.packageName d = a ++ "." ++ b ->
        Shape.noDot b = true ->
        Driver.moduleName d = b).
Proof.
  unfold Driver.moduleName. split.
  - intro H. rewrite (lastIndexOf_noDot _ H).
    unfold QStr.remove. cbn [Z.add Z.ltb Z.compare Z.pos_sub].
    destruct (Driver.packageName d) as [|c s]; [reflexivity|].
    cbn [String.length].
    replace (Z.of_nat (S (String.length s)) <=? 0)%Z with false
      by (symmetry; apply Z.leb_gt; lia).
    replace (Z.of_nat (S (String.length s)) - 0 <=? 0)%Z with false
      by (symmetry; apply Z.leb_gt; lia).
    reflexivity.
  - intros a b Hname Hb. rewrite Hname.
    change (a ++ "." ++ b) with (a ++ String "." b).
    rewrite (lastIndexOf_last_dot _ _ Hb).
    unfold QStr.remove. rewrite length_append. cbn [String.length].
    cbn [Z.ltb Z.compare]. cbv zeta.
    replace (Z.of_nat (String.length a + S (String.length b)) <=? 0)%Z
      with false by (symmetry; apply Z.leb_gt; lia).
    cbn [orb].
    destruct (Z.of_nat (String.length a + S (String.length b)) - 0
              <=? Z.of_nat (String.length a) + 1)%Z eqn:Eall.
    + apply Z.leb_le in Eall.
      destruct b; [apply substring_nothing | cbn [String.length] in Eall; lia].
    + apply Z.leb_gt in Eall.
      replace (0 <? Z.of_nat (String.length a) + 1)%Z with true
        by (symmetry; apply Z.ltb_lt; lia).
      rewrite substring_nothing. cbn [append Z.to_nat].
      replace (Z.to_nat (0 + (Z.of_nat (String.length a) + 1)))
        with (String.length a + 1) by lia.
      replace (Z.to_nat (Z.of_nat (String.length a + S (String.length b)) - 0
                         - (Z.of_nat (String.length a) + 1)))
        with (String.length b) by lia.
      rewrite substring_skip. cbn [substring]. apply substring_whole.
Qed.

Lemma moduleName_after_last_dot_witness :
  Driver.packageName SampleMore.configured = "pkg" ++ "." ++ "mod"
  /\ Shape.noDot "mod" = true
  /\ Driver.moduleName SampleMore.configured = "mod".
Proof.
  assert (H1 : Driver.packageName SampleMore.configured
               = "pkg" ++ "." ++ "mod") by reflexivity.
  assert (H2 : Shape.noDot "mod" = true) by reflexivity.
  split; [exact H1 | split; [exact H2 |]].
  exact (proj2 (moduleName_after_last_dot SampleMore.configured)
               "pkg" "mod" H1 H2).
Defined.

Lemma concat_last (names : list string) (a name : string) :
  concat "." ((names ++ [a]) ++ [name]) = concat "." (names ++ [a ++ "." ++ name]).
Proof.
  induction names as [|x names IH]; [reflexivity|].
  cbn [app]. cbn [app] in IH.
  destruct names as [|y names]; [reflexivity|].
  cbn [app concat] in *. now rewrite IH.
Qed.

Lemma prependEnclosingOf_names :
  forall (context : FullName.t) (name : string),
  FullName.prependEnclosingOf context name
  = concat "." (FullName.namesOf context ++ [name]).
Proof.
  fix IH 1. intros [own package [outer|]] name.
  - cbn [FullName.prependEnclosingOf FullName.namesOf
         FullName.enclosingClass FullName.name].
    rewrite IH. symmetry. apply concat_last.
  - reflexivity.
Qed.

(** X11.  The full target name of a class or an enum is the names of
    its enclosing classes, from the outermost to the innermost, and its
    own name, joined by dots; with the package name asked for, the
    package and a dot come in front, also when the package is empty. *)
Theorem getClassTargetFullName_path (x : FullName.t) :
  FullName.getClassTargetFullName x false = concat "." (FullName.namesOf x)
  /\ FullName.getClassTargetFullName x true
     = FullName.package x ++ "." ++ concat "." (FullName.namesOf x).
Proof.
  assert (H : FullName.prependEnclosing (FullName.enclosingClass x)
                (FullName.name x)
              = concat "." (FullName.namesOf x)).
  { destruct x as [own package [outer|]]; [|reflexivity].
    cbn [FullName.prependEnclosing FullName.namesOf FullName.enclosingClass
         FullName.name].
    apply prependEnclosingOf_names. }
  unfold FullName.getClassTargetFullName. now rewrite H.
Qed.

Example getClassTargetFullName_nested :
  FullName.getClassTargetFullName SampleMore.Inner false = "Outer.Middle.Inner"
  /\ FullName.getClassTargetFullName SampleMore.Inner true
     = "pkg.mod.Outer.Middle.Inner".
Proof. split; reflexivity. Qed.

Lemma dotsToSeparator_length (separator : ascii) (package : string) :
  String.length (Spec.dotsToSeparator separator package)
  = String.length package.
Proof. induction package as [|c s IH]; simpl; [reflexivity | now rewrite IH]. Qed.

Lemma dotsToSeparator_noDot (separator : ascii) (package : string) :
  separator <> "."%char ->
  Shape.noDot (Spec.dotsToSeparator separator package) = true.
Proof.
  intro Hsep. induction package as [|c s IH]; [reflexivity|].
  cbn [Spec.dotsToSeparator Shape.noDot]. rewrite IH, andb_true_r.
  apply negb_true_iff.
  destruct (Ascii.eqb_spec c "."); apply Ascii.eqb_neq; assumption.
Qed.

(** X12.  For a package name that is not empty [subDirectoryForPackage]
    does not look at the generator's own package name: the result is
    the given name with each dot replaced by the separator, of the same
    length, and without any dot left when the separator is not a dot. *)
Theorem subDirectoryForPackage_given
  (separator : ascii) (d : Driver.GeneratorPrivate) (package : string) :
  package <> "" ->
  Driver.subDirectoryForPackage separator d package
  = Spec.dotsToSeparator separator package
  /\ String.length (Driver.subDirectoryForPackage separator d package)
     = String.length package
  /\ (separator <> "."%char ->
      Shape.noDot (Driver.subDirectoryForPackage separator d package) = true).
Proof.
  intro Hpackage.
  assert (H : Driver.subDirectoryForPackage separator d package
              = Spec.dotsToSeparator separator package).
  { unfold Driver.subDirectoryForPackage.
    destruct package; [contradiction|]. cbn [QStr.isEmpty].
    apply replace_dot. }
  rewrite H. split; [reflexivity | split].
  - apply dotsToSeparator_length.
  - apply dotsToSeparator_noDot.
Qed.

Lemma subDirectoryForPackage_given_witness :
  "a.b.c" <> ""
  /\ Driver.subDirectoryForPackage "/"%char SampleMore.configured "a.b.c"
     = "a/b/c".
Proof.
  assert (H : "a.b.c" <> "") by discriminate.
  split; [exact H|].
  exact (proj1 (subDirectoryForPackage_given "/"%char SampleMore.configured
                  "a.b.c" H)).
Defined.

(* ================================================================== *)
(** * More about [setup] and [generate] *)
(* ================================================================== *)




Section SetupFacts.

Variable World : Type.
Variable doSetup : World -> list (string * string) -> World * bool.

Local Abbreviation setup := (Driver.setup World doSetup).


End SetupFacts.


Section DriverMore.

Variable separator : ascii.
Variable GenerateTargetLang : Z.
Variable World : Type.
Variable fileNameForClass : AbstractMetaClass.t -> option string.
Variable writeClass : World -> string -> AbstractMetaClass.t -> World * bool.
Variable finishGeneration : World -> World.

Local Abbreviation generateOne :=
  (Driver.generateOne separator GenerateTargetLang World fileNameForClass
     writeClass).
Local Abbreviation generateLoop :=
  (Driver.generateLoop separator GenerateTargetLang World fileNameForClass
     writeClass).
Local Abbreviation generate :=
  (Driver.generate separator GenerateTargetLang World fileNameForClass
     writeClass finishGeneration).
Local Abbreviation considered :=
  (Driver.considered GenerateTargetLang fileNameForClass).

Lemma generateOne_configuration (st : Driver.GeneratorPrivate * World)
  (cls : AbstractMetaClass.t) :
  Driver.outDir (fst (generateOne st cls)) = Driver.outDir (fst st)
  /\ Driver.licenseComment (fst (generateOne st cls))
     = Driver.licenseComment (fst st)
  /\ Driver.packageName (fst (generateOne st cls))
     = Driver.packageName (fst st)
  /\ Driver.apiextractor (fst (generateOne st cls))
     = Driver.apiextractor (fst st).
Proof.
  destruct st as [d w]. unfold Driver.generateOne.
  destruct (negb _); [now repeat split|].
  destruct (fileNameForClass cls); [|now repeat split].
  destruct (writeClass w _ cls). now repeat split.
Qed.

(** X14.  [generate] never changes the output directory, the license
    comment or the package name, whatever the classes and whatever the
    hooks do to the world outside; nor does it change the pointer to
    the extractor. *)
Theorem generate_configuration
  (classes : list AbstractMetaClass.t)
  (st : Driver.GeneratorPrivate * World) :
  Driver.outDir (fst (generate st classes)) = Driver.outDir (fst st)
  /\ Driver.licenseComment (fst (generate st classes))
     = Driver.licenseComment (fst st)
  /\ Driver.packageName (fst (generate st classes))
     = Driver.packageName (fst st)
  /\ Driver.apiextractor (fst (generate st classes))
     = Driver.apiextractor (fst st).
Proof.
  assert (Hloop : forall st,
    Driver.outDir (fst (generateLoop st classes)) = Driver.outDir (fst st)
    /\ Driver.licenseComment (fst (generateLoop st classes))
       = Driver.licenseComment (fst st)
    /\ Driver.packageName (fst (generateLoop st classes))
       = Driver.packageName (fst st)
    /\ Driver.apiextractor (fst (generateLoop st classes))
       = Driver.apiextractor (fst st)).
  { unfold Driver.generateLoop.
    induction classes as [|cls rest IH]; intro st0; [now repeat split|].
    cbn [fold_left].
    destruct (IH (generateOne st0 cls)) as (H1 & H2 & H3 & H4).
    destruct (generateOne_configuration st0 cls) as (G1 & G2 & G3 & G4).
    rewrite H1, H2, H3, H4. now repeat split. }
  unfold Driver.generate.
  destruct (Hloop st) as (H1 & H2 & H3 & H4).
  destruct (generateLoop st classes) as [d w]. now repeat split.
Qed.

(** X15.  When no class passes both tests (every class is refused by
    [shouldGenerate] or has a null file name) [generate] writes nothing:
    the private data are unchanged and the world is changed by
    [finishGeneration] only. *)
Theorem generate_nothing_considered
  (classes : list AbstractMetaClass.t)
  (st : Driver.GeneratorPrivate * World) :
  forallb (fun cls => negb (considered cls)) classes = true ->
  generate st classes = (fst st, finishGeneration (snd st)).
Proof.
  intro H.
  assert (Hloop : generateLoop st classes = st).
  { unfold Driver.generateLoop. revert st.
    induction classes as [|cls rest IH]; intro st; [reflexivity|].
    cbn [forallb] in H. apply andb_true_iff in H. destruct H as [Hcls Hrest].
    cbn [fold_left].
    assert (Hone : generateOne st cls = st).
    { destruct st as [d w]. unfold Driver.generateOne.
      apply negb_true_iff in Hcls. unfold Driver.considered in Hcls.
      destruct (Driver.shouldGenerate GenerateTargetLang cls);
        [|reflexivity].
      cbn [negb]. destruct (fileNameForClass cls); [discriminate|reflexivity]. }
    rewrite Hone. now apply IH. }
  unfold Driver.generate. rewrite Hloop. now destruct st.
Qed.

End DriverMore.

Lemma generate_nothing_considered_witness :
  forallb (fun cls => negb (Driver.considered Sample.GenerateTargetLang
                              Sample.fileNameForClass cls))
          [Sample.SkippedClass] = true
  /\ Driver.generate "/"%char Sample.GenerateTargetLang (list string)
       Sample.fileNameForClass Sample.writeClass Sample.finishGeneration
       (Driver.Generator, []) [Sample.SkippedClass]
     = (Driver.Generator, []).
Proof.
  assert (H : forallb (fun cls => negb (Driver.considered
                         Sample.GenerateTargetLang Sample.fileNameForClass cls))
                      [Sample.SkippedClass] = true) by reflexivity.
  split; [exact H|].
  exact (generate_nothing_considered "/"%char Sample.GenerateTargetLang
           (list string) Sample.fileNameForClass Sample.writeClass
           Sample.finishGeneration [Sample.SkippedClass]
           (Driver.Generator, []) H).
Defined.

(* ================================================================== *)
(** * More about the reindenter *)
(* ================================================================== *)

Lemma split_lines_length (code : string) :
  List.length (QStr.split_lines code) = S (Shape.lineFeeds code).
Proof.
  induction code as [|c code IH]; [reflexivity|].
  cbn [QStr.split_lines Shape.lineFeeds].
  destruct (Ascii.eqb c "010"); cbn [List.length]; [now rewrite IH|].
  destruct (QStr.split_lines code); [discriminate IH | exact IH].
Qed.

(** The list of lines has one line more than the code has line
    feeds. *)
Theorem formatCodeLines_count (code indentor : string) :
  List.length (Format.formatCodeLines code indentor)
  = S (Shape.lineFeeds code).
Proof.
  unfold Format.formatCodeLines. rewrite length_map. apply split_lines_length.
Qed.

Lemma leadingRun_length (line : string) :
  Format.emptyLine_exactMatch line = false ->
  Spec.leadingRun line < String.length line.
Proof.
  induction line as [|c line IH]; [discriminate|].
  cbn [Format.emptyLine_exactMatch Spec.leadingRun String.length].
  destruct (QStr.isSpace c); cbn [andb]; [|lia].
  intro H. specialize (IH H). lia.
Qed.

Lemma substring_split (line : string) :
  forall k, k <= String.length line ->
  line = substring 0 k line ++ substring k (String.length line - k) line.
Proof.
  induction line as [|c line IH]; intros k Hk.
  - destruct k; reflexivity.
  - destruct k as [|k].
    + cbn [substring append Nat.sub String.length].
      now rewrite substring_whole.
    + cbn [substring append Nat.sub String.length] in *.
      f_equal. apply IH. lia.
Qed.

Lemma substring_spaces (line : string) :
  forall k, k <= Spec.leadingRun line ->
  Format.emptyLine_exactMatch (substring 0 k line) = true
  /\ String.length (substring 0 k line) = k.
Proof.
  induction line as [|c line IH]; intros k Hk.
  - cbn [Spec.leadingRun] in Hk. now replace k with 0 by lia.
  - destruct k as [|k]; [now split|].
    cbn [Spec.leadingRun] in Hk.
    destruct (QStr.isSpace c) eqn:Hc; [|lia].
    cbn [substring Format.emptyLine_exactMatch String.length]. rewrite Hc.
    destruct (IH k ltac:(lia)) as [H1 H2]. now rewrite H1, H2.
Qed.

Lemma remove_front (line : string) (k : nat) :
  k < String.length line ->
  QStr.remove 0 (Z.of_nat k) line
  = substring k (String.length line - k) line.
Proof.
  intro Hk. unfold QStr.remove. cbn [Z.ltb Z.compare]. cbv zeta.
  replace (Z.of_nat (String.length line) <=? 0)%Z with false
    by (symmetry; apply Z.leb_gt; lia).
  cbn [orb].
  replace (Z.of_nat (String.length line) - 0 <=? Z.of_nat k)%Z with false
    by (symmetry; apply Z.leb_gt; lia).
  destruct k as [|k].
  - cbn [Z.of_nat Z.ltb Z.compare]. rewrite Nat.sub_0_r.
    now rewrite substring_whole.
  - replace (0 <? Z.of_nat (S k))%Z with true
      by (symmetry; apply Z.ltb_lt; lia).
    rewrite substring_nothing. cbn [append Z.to_nat].
    f_equal; lia.
Qed.

(** X17.  [formatCode] never removes anything but white space from the
    front of a line: what it writes for a line that is not blank is the
    indentor followed by the line without a first part that is made of
    white space only and is no longer than the width to remove. *)
Theorem formatLine_removes_spaces_only
  (toRemove : Z) (indentor line : string) :
  Format.emptyLine_exactMatch line = false ->
  exists removed kept,
    line = removed ++ kept
    /\ Format.formatLine toRemove indentor line = indentor ++ kept
    /\ Format.emptyLine_exactMatch removed = true
    /\ String.length removed <= Z.to_nat toRemove.
Proof.
  intro Hline.
  set (k := Nat.min (Z.to_nat toRemove) (Spec.leadingRun line)).
  pose proof (leadingRun_length _ Hline) as Hrun.
  assert (Hk : k < String.length line) by (unfold k; lia).
  exists (substring 0 k line), (substring k (String.length line - k) line).
  destruct (substring_spaces line k ltac:(unfold k; lia)) as [Hspaces Hlen].
  repeat split.
  - apply substring_split. lia.
  - rewrite (formatLine_not_blank _ _ _ Hline). fold k.
    now rewrite (remove_front _ _ Hk).
  - exact Hspaces.
  - rewrite Hlen. unfold k. lia.
Qed.

Lemma formatLine_removes_spaces_only_witness :
  Format.emptyLine_exactMatch "      y" = false
  /\ exists removed kept,
       "      y" = removed ++ kept
       /\ Format.formatLine 4 "" "      y" = "" ++ kept
       /\ Format.emptyLine_exactMatch removed = true
       /\ String.length removed <= Z.to_nat 4.
Proof.
  assert (H : Format.emptyLine_exactMatch "      y" = false) by reflexivity.
  split; [exact H|].
  exact (formatLine_removes_spaces_only 4 "" "      y" H).
Defined.

(** *** The width comes from the first line that is not blank *)

Lemma allSpaces_append (a b : string) :
  Format.emptyLine_exactMatch (a ++ b)
  = Format.emptyLine_exactMatch a && Format.emptyLine_exactMatch b.
Proof.
  induction a as [|c a IH]; [reflexivity|].
  cbn [append Format.emptyLine_exactMatch]. rewrite IH. apply andb_assoc.
Qed.

Lemma allSpaces_reverse (s : string) :
  Format.emptyLine_exactMatch (QStr.reverse s)
  = Format.emptyLine_exactMatch s.
Proof.
  induction s as [|c s IH]; [reflexivity|].
  cbn [QStr.reverse Format.emptyLine_exactMatch].
  rewrite allSpaces_append, IH. cbn [Format.emptyLine_exactMatch].
  rewrite andb_true_r. apply andb_comm.
Qed.

Lemma isEmpty_skipSpaces (s : string) :
  QStr.isEmpty (QStr.skipSpaces s) = Format.emptyLine_exactMatch s.
Proof.
  induction s as [|c s IH]; [reflexivity|].
  cbn [QStr.skipSpaces Format.emptyLine_exactMatch].
  destruct (QStr.isSpace c); [exact IH | reflexivity].
Qed.

Lemma allSpaces_skipSpaces (s : string) :
  Format.emptyLine_exactMatch (QStr.skipSpaces s)
  = Format.emptyLine_exactMatch s.
Proof.
  induction s as [|c s IH]; [reflexivity|].
  cbn [QStr.skipSpaces]. destruct (QStr.isSpace c) eqn:Hc.
  - cbn [Format.emptyLine_exactMatch]. now rewrite Hc.
  - reflexivity.
Qed.

Lemma isEmpty_reverse (s : string) :
  QStr.isEmpty (QStr.reverse s) = QStr.isEmpty s.
Proof.
  destruct s as [|c s]; [reflexivity|]. cbn [QStr.reverse QStr.isEmpty].
  now destruct (QStr.reverse s).
Qed.

(** The two tests for a blank line agree. *)
Lemma trimmed_isEmpty (line : string) :
  QStr.isEmpty (QStr.trimmed line) = Format.emptyLine_exactMatch line.
Proof.
  unfold QStr.trimmed.
  now rewrite isEmpty_reverse, isEmpty_skipSpaces, allSpaces_reverse,
    allSpaces_skipSpaces.
Qed.

Lemma indexOfNonSpace_leadingRun (line : string) :
  Format.emptyLine_exactMatch line = false ->
  QStr.indexOfNonSpace line = Z.of_nat (Spec.leadingRun line).
Proof.
  induction line as [|c line IH]; [discriminate|].
  cbn [Format.emptyLine_exactMatch QStr.indexOfNonSpace Spec.leadingRun].
  destruct (QStr.isSpace c); cbn [andb]; [|reflexivity].
  intro H. rewrite (IH H).
  destruct (Z.of_nat (Spec.leadingRun line) <? 0)%Z eqn:E;
    [apply Z.ltb_lt in E; lia | lia].
Qed.

Lemma leadingRun_append (removed kept : string) :
  Format.emptyLine_exactMatch removed = true ->
  Spec.leadingRun (removed ++ kept)
  = String.length removed + Spec.leadingRun kept.
Proof.
  induction removed as [|c removed IH]; [reflexivity|].
  cbn [Format.emptyLine_exactMatch append Spec.leadingRun String.length].
  destruct (QStr.isSpace c); cbn [andb]; [|discriminate].
  intro H. now rewrite (IH H).
Qed.

(** X18.  The width [formatCode] removes is the number of white-space
    characters at the start of the first line that is not blank, and
    that line is written without any white space at its start (when the
    indentor writes nothing). *)
Theorem formatCode_first_line_flush
  (blanks rest : list string) (line : string) :
  forallb Format.emptyLine_exactMatch blanks = true ->
  Format.emptyLine_exactMatch line = false ->
  Format.spacesToRemove (blanks ++ line :: rest)
  = Z.of_nat (Spec.leadingRun line)
  /\ Spec.leadingRun
       (Format.formatLine (Format.spacesToRemove (blanks ++ line :: rest))
          "" line) = 0.
Proof.
  intros Hblanks Hline.
  assert (Hwidth : Format.spacesToRemove (blanks ++ line :: rest)
                   = Z.of_nat (Spec.leadingRun line)).
  { induction blanks as [|b blanks IH]; cbn [app Format.spacesToRemove].
    - rewrite trimmed_isEmpty, Hline. cbn [negb].
      rewrite (indexOfNonSpace_leadingRun _ Hline).
      destruct (Z.of_nat (Spec.leadingRun line) =? -1)%Z eqn:E;
        [apply Z.eqb_eq in E; lia | reflexivity].
    - cbn [forallb] in Hblanks. apply andb_true_iff in Hblanks.
      destruct Hblanks as [Hb Hblanks].
      rewrite trimmed_isEmpty, Hb. cbn [negb]. now apply IH. }
  split; [exact Hwidth|]. rewrite Hwidth.
  pose proof (leadingRun_length _ Hline) as Hrun.
  rewrite (formatLine_not_blank _ _ _ Hline), Nat2Z.id, Nat.min_id.
  cbn [append]. rewrite (remove_front _ _ Hrun).
  destruct (substring_spaces line (Spec.leadingRun line) (le_n _))
    as [Hspaces Hlen].
  pose proof (substring_split line (Spec.leadingRun line) ltac:(lia)) as Hsplit.
  pose proof (leadingRun_append _
                (substring (Spec.leadingRun line)
                   (String.length line - Spec.leadingRun line) line)
                Hspaces) as Happ.
  rewrite <- Hsplit, Hlen in Happ. lia.
Qed.

Lemma formatCode_first_line_flush_witness :
  forallb Format.emptyLine_exactMatch [""; "  "] = true
  /\ Format.emptyLine_exactMatch "    int x;" = false
  /\ Format.spacesToRemove ([""; "  "] ++ "    int x;" :: ["      y"]) = 4%Z
  /\ Format.formatLine 4 "" "    int x;" = "int x;".
Proof.
  assert (H1 : forallb Format.emptyLine_exactMatch [""; "  "] = true)
    by reflexivity.
  assert (H2 : Format.emptyLine_exactMatch "    int x;" = false)
    by reflexivity.
  split; [exact H1 | split; [exact H2 | split; [|reflexivity]]].
  exact (proj1 (formatCode_first_line_flush [""; "  "] ["      y"]
                  "    int x;" H1 H2)).
Defined.

(* ================================================================== *)
(** * More about template substitution *)
(* ================================================================== *)

Section TemplateMore.

Variable cppSignature : AbstractMetaType.t -> string.
Variables EnumAsInts OriginalName ExcludeConst ExcludeReference : Z.
Variables NoOption SkipRemovedArguments SkipDefaultValues : Z.
Variables writeArgumentNames writeFunctionArguments :
  AbstractMetaFunction.t -> Z -> string.

Local Abbreviation replaceTemplateVariables :=
  (Template.replaceTemplateVariables cppSignature EnumAsInts OriginalName
     ExcludeConst ExcludeReference NoOption SkipRemovedArguments
     SkipDefaultValues writeArgumentNames writeFunctionArguments).

(** X19.  For a function without an owner class the placeholder [%TYPE]
    is not a placeholder: a code that holds none of the other
    placeholders comes back as it is, with every [%TYPE] still in it. *)
Theorem replaceTemplateVariables_without_owner
  (code : string) (func : AbstractMetaFunction.t) :
  AbstractMetaFunction.ownerClass func = None ->
  Forall (fun p => QStr.contains code p = false)
         (map Template.positional (AbstractMetaFunction.arguments func)
          ++ ["%RETURN_TYPE"; "%FUNCTION_NAME"; "%ARGUMENT_NAMES";
              "%ARGUMENTS"]) ->
  replaceTemplateVariables code func = code.
Proof.
  intros Howner H. apply Forall_app in H. destruct H as [Hpositional Hvalues].
  unfold Template.replaceTemplateVariables. rewrite Howner.
  rewrite (replaceArguments_absent _ _ Hpositional).
  now apply replaceTemplateValues_absent.
Qed.

End TemplateMore.

Lemma replaceTemplateVariables_without_owner_witness :
  AbstractMetaFunction.ownerClass SampleMore.GlobalFunction = None
  /\ QStr.contains "%TYPE x;" "%TYPE" = true
  /\ Template.replaceTemplateVariables Sample.cppSignature Sample.EnumAsInts
       Sample.OriginalName Sample.ExcludeConst Sample.ExcludeReference
       Sample.NoOption Sample.SkipRemovedArguments Sample.SkipDefaultValues
       Sample.writeArgumentNames Sample.writeArgumentNames
       "%TYPE x;" SampleMore.GlobalFunction
     = "%TYPE x;".
Proof.
  assert (H1 : AbstractMetaFunction.ownerClass SampleMore.GlobalFunction
               = None) by reflexivity.
  split; [exact H1 | split; [reflexivity|]].
  apply (replaceTemplateVariables_without_owner Sample.cppSignature
           Sample.EnumAsInts Sample.OriginalName Sample.ExcludeConst
           Sample.ExcludeReference Sample.NoOption
           Sample.SkipRemovedArguments Sample.SkipDefaultValues
           Sample.writeArgumentNames Sample.writeArgumentNames
           "%TYPE x;" SampleMore.GlobalFunction H1).
  repeat constructor.
Defined.

(** The entry [Vector<int>] of the samples is no primitive, enum or
    flags type: the entry overload fails on it. *)
Lemma minimalConstructorEntry_fails_witness :
  TypeEntry.isCppPrimitive Sample.Vector = false
  /\ TypeEntry.isEnum Sample.Vector = false
  /\ TypeEntry.isFlags Sample.Vector = false
  /\ TypeEntry.isPrimitive Sample.Vector = false
  /\ Synth.minimalConstructorEntry (Some Sample.Vector) = "".
Proof.
  assert (H : TypeEntry.isCppPrimitive Sample.Vector = false
              /\ TypeEntry.isEnum Sample.Vector = false
              /\ TypeEntry.isFlags Sample.Vector = false
              /\ TypeEntry.isPrimitive Sample.Vector = false)
    by (repeat split; reflexivity).
  destruct H as (H1 & H2 & H3 & H4).
  repeat (split; [assumption|]).
  exact (proj2 (proj2 (minimalConstructorEntry_fails Sample.Vector))
               (conj H1 (conj H2 (conj H3 H4)))).
Defined.

(* ================================================================== *)
(** * The line ends [formatCode] writes *)
(* ================================================================== *)

Lemma lineFeeds_append (a b : string) :
  Shape.lineFeeds (a ++ b) = Shape.lineFeeds a + Shape.lineFeeds b.
Proof.
  induction a as [|c a IH]; [reflexivity|].
  cbn [append Shape.lineFeeds]. rewrite IH. lia.
Qed.

Lemma split_lines_without_line_feed (code : string) :
  Forall (fun line => Shape.lineFeeds line = 0) (QStr.split_lines code).
Proof.
  induction code as [|c code IH]; [repeat constructor|].
  cbn [QStr.split_lines]. destruct (Ascii.eqb c "010") eqn:Ec.
  - constructor; [reflexivity | exact IH].
  - destruct (QStr.split_lines code) as [|l ls].
    + constructor; [|constructor]. cbn [Shape.lineFeeds]. now rewrite Ec.
    + inversion IH as [|? ? Hl Hls]; subst.
      constructor; [|exact Hls]. cbn [Shape.lineFeeds]. now rewrite Ec, Hl.
Qed.

Lemma formatLine_without_line_feed (toRemove : Z) (indentor line : string) :
  Shape.lineFeeds indentor = 0 ->
  Shape.lineFeeds line = 0 ->
  Shape.lineFeeds (Format.formatLine toRemove indentor line) = 0.
Proof.
  intros Hindentor Hline.
  destruct (Format.emptyLine_exactMatch line) eqn:Hblank.
  - now rewrite formatLine_blank.
  - rewrite (formatLine_not_blank _ _ _ Hblank).
    set (k := Nat.min (Z.to_nat toRemove) (Spec.leadingRun line)).
    pose proof (leadingRun_length _ Hblank) as Hrun.
    assert (Hk : k < String.length line) by (unfold k; lia).
    rewrite (remove_front _ _ Hk), lineFeeds_append, Hindentor.
    pose proof (substring_split line k ltac:(lia)) as Hsplit.
    apply (f_equal Shape.lineFeeds) in Hsplit.
    rewrite lineFeeds_append, Hline in Hsplit. lia.
Qed.

Lemma write_lines_line_feeds (lines : list string) :
  Forall (fun line => Shape.lineFeeds line = 0) lines ->
  forall s,
  Shape.lineFeeds
    (fold_left (fun s line => s ++ line ++ Format.endl) lines s)
  = Shape.lineFeeds s + List.length lines.
Proof.
  induction 1 as [|line rest Hline _ IH]; intro s; cbn [fold_left List.length].
  - lia.
  - rewrite IH, !lineFeeds_append, Hline. cbn [Format.endl Shape.lineFeeds].
    cbn. lia.
Qed.

Lemma split_lines_trailing_line_feed (code : string) :
  QStr.split_lines (code ++ Format.endl)
  = (QStr.split_lines code ++ [""])%list.
Proof.
  induction code as [|c code IH]; [reflexivity|].
  cbn [append QStr.split_lines].
  destruct (Ascii.eqb c "010"); [now rewrite IH|].
  rewrite IH. pose proof (split_lines_length code) as Hlength.
  destruct (QStr.split_lines code); [discriminate Hlength | reflexivity].
Qed.

Lemma spacesToRemove_trailing_blank (lst : list string) :
  Format.spacesToRemove (lst ++ [""]) = Format.spacesToRemove lst.
Proof.
  induction lst as [|line rest IH]; [reflexivity|].
  cbn [app Format.spacesToRemove].
  destruct (negb (QStr.isEmpty (QStr.trimmed line))); [reflexivity | exact IH].
Qed.

(** X16.  [formatCode] appends to the stream one line end for each line
    of the code, that is one more than the code has line feeds (the
    indentor writing none): one line end for the empty code, and for a
    code that ends in a line feed one more line end, for its last,
    empty line. *)
Theorem formatCode_line_ends (s code indentor : string) :
  (Shape.lineFeeds indentor = 0 ->
   Shape.lineFeeds (Format.formatCode s code indentor)
   = Shape.lineFeeds s + S (Shape.lineFeeds code))
  /\ Format.formatCode s "" indentor = s ++ Format.endl
  /\ Format.formatCode s (code ++ Format.endl) indentor
     = Format.formatCode s code indentor ++ Format.endl.
Proof.
  split; [|split].
  - intro Hindentor. unfold Format.formatCode.
    rewrite write_lines_line_feeds.
    + now rewrite formatCodeLines_count.
    + unfold Format.formatCodeLines. apply Forall_map.
      eapply Forall_impl; [|apply split_lines_without_line_feed].
      intros line Hline. now apply formatLine_without_line_feed.
  - reflexivity.
  - unfold Format.formatCode, Format.formatCodeLines.
    rewrite split_lines_trailing_line_feed, spacesToRemove_trailing_blank.
    rewrite map_app, fold_left_app. reflexivity.
Qed.

Lemma formatCode_line_ends_witness :
  Shape.lineFeeds "  " = 0
  /\ Shape.lineFeeds (Format.formatCode "" Sample.code "  ") = 3.
Proof.
  assert (H : Shape.lineFeeds "  " = 0) by reflexivity.
  split; [exact H|].
  exact (proj1 (formatCode_line_ends "" Sample.code "  ") H).
Defined.
